(** * EpiWatch analytics core: a shallow embedding and its properties

    The development follows the JavaScript sources module by module:
    [DataPreprocessor] (time bucketing, aggregation, water quality index),
    [AnomalyDetector] (window statistics, Pearson correlation),
    [Forecaster] (Holt smoothing, fixed-horizon forecast) and
    [RiskClassifier] (factor scores, tiers, alerts).

    Number model.  The numeric code is embedded twice.  In the modules
    named after the sources a JavaScript number is a real number: the
    arithmetic is read as exact, [Math.sqrt] is the real square root,
    [Math.round] is rounding half up, and rounding error, NaN and the
    infinities are outside the model.  What is proved of these modules is
    a property of the formulas, and says so ("in exact arithmetic").  In
    [Binary64] a number is a binary64 float and every operation rounds as
    JavaScript's does; a statement on what the code returns where a
    rounding error can decide (the tier of a score at a cut point, the test
    [std === 0], [Math.round] next to a tie) is a statement on [Binary64].
    Counts that the code builds by incrementing (bucket totals, breakdown
    maps) are integers in both.

    Time model.  An ISO-8601 timestamp is modelled by the instant it denotes,
    in milliseconds since the epoch; [new Date(s)] and [toISOString] are the
    two directions of that reading, so both disappear.  Instants are assumed
    to lie in the range a [Date] can hold.  The time zone of the host, which
    the bucketing reads, is an argument: two functions that give the offset
    of local time, so that a zone with daylight saving is one of the
    values.  The wall clock is an explicit argument of the two functions
    that read it.

    Objects.  An object literal used as a table inherits the properties of
    [Object.prototype]; reading, counting into and pushing onto an entry
    are modelled with what the inherited value makes of them. *)

From Stdlib Require Import Reals Lra Lia ZArith List String Permutation Sorted.
From stdpp Require Import gmap strings list fin_maps.
From Stdlib Require Floats.PrimFloat Floats.FloatOps Floats.SpecFloat Floats.FloatAxioms.
From Stdlib Require Uint63.

Set Warnings "-inexact-float".

(** ** JavaScript primitives used by the sources *)

Module JS.

Local Open Scope R_scope.

Definition ltb (x y : R) : bool := if Rlt_dec x y then true else false.
Definition leb (x y : R) : bool := if Rle_dec x y then true else false.
Definition eqb (x y : R) : bool := if Req_dec_T x y then true else false.

Definition Math_max (x y : R) : R := Rmax x y.
Definition Math_min (x y : R) : R := Rmin x y.
Definition Math_abs (x : R) : R := Rabs x.
Definition Math_sqrt (x : R) : R := sqrt x.

(** [Math.round]: the nearest integer, ties towards plus infinity. *)
Definition Math_round (x : R) : R := IZR (Zfloor (x + / 2)).

(** [x || d] on numbers: [0] is falsy. *)
Definition or_num (x d : R) : R := if eqb x 0 then d else x.

(** [x || d] where [x] may be [undefined]. *)
Definition or_undef (x : option R) (d : R) : R :=
  match x with
  | Some v => or_num v d
  | None => d
  end.

(** [x || d] on integer counts. *)
Definition or_count (x d : Z) : Z := if (x =? 0)%Z then d else x.

(** [arr.reduce((s, x) => s + x, 0)]. *)
Definition sum (l : list R) : R := fold_left Rplus l 0.
Definition sumZ (l : list Z) : Z := fold_left Z.add l 0%Z.

(** [arr.slice(start, end)] with JavaScript's reading of negative
    indices; [None] for an omitted [end]. *)
Definition rel_index (len i : Z) : Z :=
  if (i <? 0)%Z then Z.max (len + i) 0 else Z.min i len.

Definition slice {A} (l : list A) (start : Z) (stop : option Z) : list A :=
  let len := Z.of_nat (length l) in
  let k := rel_index len start in
  let final := match stop with
               | Some e => rel_index len e
               | None => len
               end in
  firstn (Z.to_nat (Z.max (final - k) 0)) (skipn (Z.to_nat k) l).

(** [arr.sort(cmp)]: the sort is stable; [after a b] reads [cmp(a, b) > 0].
    For a comparator that comes from a ranking the stable sorted
    arrangement is unique, which insertion from the right computes. *)
Fixpoint sort_insert {A} (after : A -> A -> bool) (x : A) (l : list A) : list A :=
  match l with
  | [] => [x]
  | y :: l' => if after x y then y :: sort_insert after x l' else x :: y :: l'
  end.

Fixpoint sort {A} (after : A -> A -> bool) (l : list A) : list A :=
  match l with
  | [] => []
  | x :: l' => sort_insert after x (sort after l')
  end.

(** A template literal: its text chunks and its substitutions, in order. *)
Inductive part :=
| Txt (s : string)
| Num (x : R)
| Fixed (digits : nat) (x : R)
| Iso (t : Z).

Definition template := list part.

(** [new Date(ms)] keeps the integral part of a time value. *)
Definition Date_of_number (x : R) : Z :=
  if Rle_dec 0 x then Zfloor x else Zceil x.

(** [x / y] where the quotient is only a number when [y] is not zero:
    [None] stands for the NaN or the infinity that JavaScript produces. *)
Definition checked_div (x y : R) : option R :=
  if eqb y 0 then None else Some (x / y).

(** The time zone of the host as the [Date] methods read it, in
    milliseconds: the offset of local time from UTC at an instant
    ([LocalTZA(t, true)]) and at a reading of the local clock
    ([LocalTZA(t, false)]).  Nothing is assumed of the two functions, so a
    zone with daylight saving, whose offset changes and whose local clock
    skips or repeats an hour, is one of them. *)
Module Zone.
Record t := {
  at_instant : Z -> Z;
  at_wall : Z -> Z
}.

(** A host whose offset from UTC never changes. *)
Definition fixed (offset : Z) : t :=
  {| at_instant := fun _ => offset; at_wall := fun _ => offset |}.
End Zone.

(** [LocalTime(t)] and [UTC(t)] of the language definition. *)
Definition LocalTime (zone : Zone.t) (t : Z) : Z := (t + Zone.at_instant zone t)%Z.
Definition UTC (zone : Zone.t) (wall : Z) : Z := (wall - Zone.at_wall zone wall)%Z.

(** The properties that every object literal inherits from
    [Object.prototype].  [o[k]] on an object without an own property [k]
    finds them: a function for eleven of the names, the prototype object
    itself for [__proto__]; all twelve values are truthy. *)
Definition Object_prototype : list string :=
  ["constructor"; "__defineGetter__"; "__defineSetter__"; "hasOwnProperty";
   "__lookupGetter__"; "__lookupSetter__"; "isPrototypeOf"; "propertyIsEnumerable";
   "toString"; "valueOf"; "__proto__"; "toLocaleString"]%string.

Definition inherited (k : string) : bool := existsb (String.eqb k) Object_prototype.

End JS.

(** ** dataPreprocessor.js *)

Module DataPreprocessor.

Import JS.

(** A hospital admission as the ingestion layer supplies it. *)
Module Admission.
Record t := {
  timestamp : Z;
  disease : string;
  severity : string;
  regionId : string;
  patientAge : R;
  isAnomaly : bool
}.
End Admission.

(** A water quality reading. *)
Module WaterSample.
Record t := {
  timestamp : Z;
  regionId : string;
  pH : R;
  turbidity : R;
  coliformCount : R;
  dissolvedOxygen : R;
  isAnomaly : bool
}.
End WaterSample.

(** One element of the result of [aggregateAdmissions].  The later stages
    read the three breakdowns as tables of counts, and the record holds the
    entries that are counts.  An entry that the counting loop turned into
    text (see [bump]) is no count and is not in the record; the one stage
    that would meet it, [forecastAll] through [Object.keys(a.byRegion)],
    makes of it a forecast whose numbers are all NaN, which the number
    model of this part has no value for.  [Spec.plain_admission] says of a
    record that it leads to no such entry. *)
Module TimeBucket.
Record t := {
  timestamp : Z;
  total : Z;
  byDisease : gmap string Z;
  byRegion : gmap string Z;
  bySeverity : gmap string Z;
  avgAge : R;
  anomalyCount : Z
}.
End TimeBucket.

Module RegionAverage.
Record t := {
  avgPH : R;
  avgTurbidity : R;
  avgColiform : R;
  avgDO : R;
  sampleCount : Z;
  hasAnomaly : bool
}.
End RegionAverage.

(** One element of the result of [aggregateWaterQuality]. *)
Module WaterBucket.
Record t := {
  timestamp : Z;
  regionAverages : gmap string RegionAverage.t
}.
End WaterBucket.

Definition msPerHour : Z := 3600000.
Definition msPerDay : Z := 86400000.

(** The key of the bucket a timestamp falls in.  [getHours], [setMinutes]
    and [setHours] work on the local time of the host, whose zone is
    [zone]: [getHours] reads the hour of [LocalTime(ts)];
    [setMinutes(0, 0, 0)] puts the local reading on the hour and goes back
    to an instant; [setHours(h)] reads that instant locally, keeps its day
    and its minutes, seconds and milliseconds, sets the hour and goes back
    to an instant.  A bucket width of [0] makes [Math.floor(h / 0) * 0] not
    a number, the date invalid and [toISOString] throw: [None]. *)
Definition bucketStart (zone : Zone.t) (bucketHours ts : Z) : option Z :=
  let hours := ((LocalTime zone ts / msPerHour) mod 24)%Z in
  let wall := LocalTime zone ts in
  let onTheHour := UTC zone (wall - wall mod msPerHour)%Z in
  let wall' := LocalTime zone onTheHour in
  let hour := (hours / bucketHours * bucketHours)%Z in
  if (bucketHours =? 0)%Z then None
  else Some (UTC zone (wall' - wall' mod msPerDay + hour * msPerHour
                       + wall' mod msPerHour)%Z).

(** [if (!buckets[key]) buckets[key] = []; buckets[key].push(record)] on
    an object whose keys are kept in insertion order. *)
Fixpoint bucket_push {A} (key : Z) (record : A) (buckets : list (Z * list A))
  : list (Z * list A) :=
  match buckets with
  | [] => [(key, [record])]
  | (k, records) :: rest =>
      if (k =? key)%Z then (k, records ++ [record]) :: rest
      else (k, records) :: bucket_push key record rest
  end.

Fixpoint timeBucket_loop {A} (timestamp : A -> Z) (tz : Zone.t) (bucketHours : Z)
    (records : list A) (buckets : list (Z * list A))
  : option (list (Z * list A)) :=
  match records with
  | [] => Some buckets
  | record :: rest =>
      match bucketStart tz bucketHours (timestamp record) with
      | None => None
      | Some key =>
          timeBucket_loop timestamp tz bucketHours rest (bucket_push key record buckets)
      end
  end.

Definition timeBucket {A} (timestamp : A -> Z) (tz : Zone.t) (records : list A)
    (bucketHours : Z) : option (list (Z * list A)) :=
  timeBucket_loop timestamp tz bucketHours records [].

(** What a breakdown object holds under one of its own keys: a count, or
    the text that [+ 1] makes of a function, which is the source text of
    the inherited function [name] followed by [ones] characters ['1']. *)
Inductive entry :=
| Count (n : Z)
| Text (name : string) (ones : nat).

(** [m[k] = (m[k] || 0) + 1] on an object literal.  An own count is
    incremented.  Own text has another ['1'] appended.  Without an own
    property [k] the read finds [undefined] and the entry becomes [1],
    unless [k] names an inherited property: then the read finds a truthy
    value, [+ 1] makes a text of it, and the assignment stores that text as
    an own property, except under [__proto__], whose setter ignores a value
    that is no object, so that nothing is stored. *)
Definition bump (k : string) (m : gmap string entry) : gmap string entry :=
  match m !! k with
  | Some (Count n) => <[k := Count (or_count n 0 + 1)%Z]> m
  | Some (Text name ones) => <[k := Text name (S ones)]> m
  | None =>
      if inherited k
      then if String.eqb k "__proto__" then m else <[k := Text k 1]> m
      else <[k := Count 1]> m
  end.

Definition severity_init : gmap string entry :=
  <["Mild" := Count 0]> (<["Moderate" := Count 0]> (<["Severe" := Count 0]> ∅)).

(** The three breakdown objects after the loop over a bucket's records. *)
Definition breakdowns (records : list Admission.t)
  : gmap string entry * gmap string entry * gmap string entry :=
  fold_left
    (fun '(byDisease, byRegion, bySeverity) r =>
       (bump (Admission.disease r) byDisease,
        bump (Admission.regionId r) byRegion,
        bump (Admission.severity r) bySeverity))
    records (∅, ∅, severity_init).

(** The entries of a breakdown object that are counts. *)
Definition counts (m : gmap string entry) : gmap string Z :=
  omap (fun e => match e with Count n => Some n | Text _ _ => None end) m.

Definition aggregate_bucket (timestamp : Z) (records : list Admission.t) : TimeBucket.t :=
  let '(byDisease, byRegion, bySeverity) := breakdowns records in
  {| TimeBucket.timestamp := timestamp;
     TimeBucket.total := Z.of_nat (length records);
     TimeBucket.byDisease := counts byDisease;
     TimeBucket.byRegion := counts byRegion;
     TimeBucket.bySeverity := counts bySeverity;
     TimeBucket.avgAge :=
       Math_round (sum (map Admission.patientAge records) / INR (length records));
     TimeBucket.anomalyCount :=
       Z.of_nat (length (List.filter Admission.isAnomaly records)) |}.

Definition aggregateAdmissions (tz : Zone.t) (admissions : list Admission.t)
    (bucketHours : Z) : option (list TimeBucket.t) :=
  match timeBucket Admission.timestamp tz admissions bucketHours with
  | None => None
  | Some buckets =>
      Some (sort (fun a b => (0 <? TimeBucket.timestamp a - TimeBucket.timestamp b)%Z)
              (map (fun '(timestamp, records) => aggregate_bucket timestamp records)
                 buckets))
  end.

(** [if (!byRegion[id]) byRegion[id] = { samples: [], ... };
    byRegion[id].samples.push(r)].  With an own entry the sample is
    appended.  Without one the entry is created first, unless [id] names an
    inherited property: the read then finds a truthy value, no entry is
    created, [.samples] of that value is [undefined] and [.push] raises a
    TypeError: [None]. *)
Definition region_push (r : WaterSample.t) (byRegion : gmap string (list WaterSample.t))
  : option (gmap string (list WaterSample.t)) :=
  let id := WaterSample.regionId r in
  match byRegion !! id with
  | Some samples => Some (<[id := samples ++ [r]]> byRegion)
  | None => if inherited id then None else Some (<[id := [r]]> byRegion)
  end.

(** The loop over the records of one bucket; it stops at the first record
    that raises. *)
Fixpoint region_loop (records : list WaterSample.t)
    (byRegion : gmap string (list WaterSample.t))
  : option (gmap string (list WaterSample.t)) :=
  match records with
  | [] => Some byRegion
  | r :: rest =>
      match region_push r byRegion with
      | None => None
      | Some byRegion' => region_loop rest byRegion'
      end
  end.

Definition avg (arr : list R) : R := (sum arr / INR (length arr))%R.

Definition region_average (samples : list WaterSample.t) : RegionAverage.t :=
  {| RegionAverage.avgPH :=
       (Math_round (avg (map WaterSample.pH samples) * 100) / 100)%R;
     RegionAverage.avgTurbidity :=
       (Math_round (avg (map WaterSample.turbidity samples) * 100) / 100)%R;
     RegionAverage.avgColiform :=
       Math_round (avg (map WaterSample.coliformCount samples));
     RegionAverage.avgDO :=
       (Math_round (avg (map WaterSample.dissolvedOxygen samples) * 100) / 100)%R;
     RegionAverage.sampleCount := Z.of_nat (length samples);
     RegionAverage.hasAnomaly := existsb WaterSample.isAnomaly samples |}.

Definition aggregate_water_bucket (timestamp : Z) (records : list WaterSample.t)
  : option WaterBucket.t :=
  match region_loop records ∅ with
  | None => None
  | Some byRegion =>
      Some {| WaterBucket.timestamp := timestamp;
              WaterBucket.regionAverages := region_average <$> byRegion |}
  end.

(** [None] is a run that raised: in [timeBucket] for a width of [0], or in
    the loop over the records of a bucket. *)
Definition aggregateWaterQuality (tz : Zone.t) (waterData : list WaterSample.t)
    (bucketHours : Z) : option (list WaterBucket.t) :=
  match timeBucket WaterSample.timestamp tz waterData bucketHours with
  | None => None
  | Some buckets =>
      match mapM (fun '(timestamp, records) => aggregate_water_bucket timestamp records)
              buckets with
      | None => None
      | Some result =>
          Some (sort (fun a b => (0 <? WaterBucket.timestamp a - WaterBucket.timestamp b)%Z)
                  result)
      end
  end.

Local Open Scope R_scope.

Record WQIParams := {
  pH : R;
  turbidity : R;
  coliformCount : R;
  dissolvedOxygen : R;
  chlorineResidual : R
}.

Definition pHScore (pH : R) : R :=
  if leb 6.5 pH && leb pH 8.5
  then 100 - Math_abs (pH - 7.0) * 20
  else Math_max 0 (50 - Math_abs (pH - 7.0) * 15).

Definition turbidityScore (turbidity : R) : R := Math_max 0 (100 - turbidity * 5).
Definition coliformScore (coliformCount : R) : R := Math_max 0 (100 - coliformCount * 0.5).
Definition doScore (dissolvedOxygen : R) : R := Math_min 100 (dissolvedOxygen * 12).
Definition chlorineScore (chlorineResidual : R) : R :=
  if leb 0.2 chlorineResidual
  then Math_min 100 (chlorineResidual * 100)
  else chlorineResidual * 200.

Definition computeWQI (params : WQIParams) : R :=
  let wqi := pHScore (pH params) * 0.15
             + turbidityScore (turbidity params) * 0.20
             + coliformScore (coliformCount params) * 0.30
             + doScore (dissolvedOxygen params) * 0.20
             + chlorineScore (chlorineResidual params) * 0.15 in
  Math_round (Math_max 0 (Math_min 100 wqi)).

(** [rollingAverage]: the mean of the last [windowSize] values up to each
    index.  A window size below 1 leaves the window empty and the mean is
    [0 / 0].  Exact arithmetic; [Binary64.DataPreprocessor.rollingAverage]
    is the function on binary64 numbers. *)
Definition rollingAverage (values : list R) (windowSize : Z) : list (option R) :=
  imap (fun i _ =>
          let start := Z.max 0 (Z.of_nat i - windowSize + 1) in
          let window := slice values start (Some (Z.of_nat i + 1)%Z) in
          checked_div (sum window) (INR (length window)))
    values.

(** [rateOfChange]: [result] starts as [[0]], also for an empty input. *)
Definition rateOfChange (values : list R) : list R :=
  0 :: zip_with (fun before v => let prev := or_num before 1 in (v - prev) / prev)
         values (tail values).

(** [normalize].  On an empty array [Math.min()] and [Math.max()] are the
    infinities, and the [map] over no element returns the empty array. *)
Definition normalize (values : list R) : list R :=
  match values with
  | [] => []
  | v0 :: rest =>
      let min := fold_left Rmin rest v0 in
      let max := fold_left Rmax rest v0 in
      let range := or_num (max - min) 1 in
      map (fun v => (v - min) / range) values
  end.

Module Feature.
Record t := {
  timestamp : Z;
  totalAdmissions : Z;
  choleraCount : Z;
  typhoidCount : Z;
  dengueCount : Z;
  malariaCount : Z;
  severeCount : Z;
  avgAge : R;
  waterData : gmap string RegionAverage.t;
  isAnomaly : bool
}.
End Feature.

(** [waterAgg[Math.min(Math.floor(i / 4), waterAgg.length - 1)]]: four
    six-hour buckets share one daily water bucket; the index is [-1], and
    the element [undefined], when there is no water bucket. *)
Definition water_for (waterAgg : list WaterBucket.t) (i : nat) : option WaterBucket.t :=
  let waterIdx := Z.min (Z.of_nat i / 4) (Z.of_nat (length waterAgg) - 1) in
  if (waterIdx <? 0)%Z then None else waterAgg !! Z.to_nat waterIdx.

Definition extractFeatures (admissionAgg : list TimeBucket.t) (waterAgg : list WaterBucket.t)
  : list Feature.t :=
  let count (m : gmap string Z) (k : string) := or_count (default 0%Z (m !! k)) 0 in
  imap (fun i adm =>
          {| Feature.timestamp := TimeBucket.timestamp adm;
             Feature.totalAdmissions := TimeBucket.total adm;
             Feature.choleraCount := count (TimeBucket.byDisease adm) "Cholera";
             Feature.typhoidCount := count (TimeBucket.byDisease adm) "Typhoid";
             Feature.dengueCount := count (TimeBucket.byDisease adm) "Dengue";
             Feature.malariaCount := count (TimeBucket.byDisease adm) "Malaria";
             Feature.severeCount := count (TimeBucket.bySeverity adm) "Severe";
             Feature.avgAge := TimeBucket.avgAge adm;
             Feature.waterData :=
               match water_for waterAgg i with
               | Some water => WaterBucket.regionAverages water
               | None => ∅
               end;
             Feature.isAnomaly := (0 <? TimeBucket.anomalyCount adm)%Z |})
    admissionAgg.

End DataPreprocessor.

(** ** anomalyDetector.js *)

(** A point of a time series, [{timestamp, value}]. *)
Module Point.
Record t := {
  timestamp : Z;
  value : R
}.
End Point.

Module AnomalyDetector.

Import JS.
Local Open Scope R_scope.

Record Options := {
  opt_zThreshold : option R;
  opt_windowSize : option Z
}.

Record t := {
  zThreshold : R;
  windowSize : Z
}.

Definition new (options : Options) : t :=
  {| zThreshold := or_undef (opt_zThreshold options) 2.0;
     windowSize := match opt_windowSize options with
                   | Some w => or_count w 20
                   | None => 20%Z
                   end |}.

(** In this module a division reports a zero divisor instead of
    producing an infinity or a NaN, so that the guards of the source can
    be checked: [None] is a division by zero. *)
Definition div (x y : R) : option R :=
  if eqb y 0 then None else Some (x / y).

Record Stats := {
  mean : R;
  std : R
}.

(** [_stats].  Exact arithmetic: the standard deviation of a series is 0
    exactly when its values are all equal, where in binary64
    ([Binary64.AnomalyDetector._stats]) the mean of equal values can be
    off them, and the standard deviation off 0. *)
Definition _stats (values : list R) : option Stats :=
  let n := length values in
  if (n =? 0)%nat then Some {| mean := 0; std := 0 |}
  else
    match div (sum values) (INR n) with
    | None => None
    | Some mean =>
        match div (fold_left (fun s v => s + (v - mean) ^ 2) values 0) (INR n) with
        | None => None
        | Some variance => Some {| mean := mean; std := Math_sqrt variance |}
        end
    end.

Module AnomalySample.
Record t := {
  timestamp : Z;
  value : R;
  mean : R;
  std : R;
  zScore : R;
  isAnomaly : bool
}.
End AnomalySample.

(** The body of the loop of [detectInSeries] at index [i]. *)
Definition detect_at (d : t) (series : list Point.t) (i : nat) (s : Point.t)
  : option AnomalySample.t :=
  let windowStart := Z.max 0 (Z.of_nat i - windowSize d) in
  let windowValues :=
    map Point.value (slice series windowStart (Some (Z.of_nat i + 1)%Z)) in
  match _stats windowValues with
  | None => None
  | Some st =>
      match (if eqb (std st) 0 then Some 0 else div (Point.value s - mean st) (std st)) with
      | None => None
      | Some zScore =>
          Some {| AnomalySample.timestamp := Point.timestamp s;
                  AnomalySample.value := Point.value s;
                  AnomalySample.mean := Math_round (mean st * 100) / 100;
                  AnomalySample.std := Math_round (std st * 100) / 100;
                  AnomalySample.zScore := Math_round (zScore * 100) / 100;
                  AnomalySample.isAnomaly := ltb (zThreshold d) (Math_abs zScore) |}
      end
  end.

Definition detectInSeries (d : t) (series : list Point.t)
  : option (list AnomalySample.t) :=
  mapM (fun '(i, s) => detect_at d series i s) (imap pair series).

(** The argument [anomalies] of the alert generator; either field may be
    missing.  [byDisease] is walked with [Object.entries], so its order
    is kept. *)
Record Anomalies := {
  overall : option (list AnomalySample.t);
  byDisease : option (list (string * list AnomalySample.t));
  byRegion : gmap string (list AnomalySample.t)
}.

Definition diseases : list string := ["Cholera"; "Typhoid"; "Dengue"; "Malaria"].

Definition count_of (m : gmap string Z) (k : string) : Z :=
  or_count (default 0%Z (m !! k)) 0.


Record Correlation := {
  correlation : R;
  significance : string
}.

(** The coefficient before it is rounded: the local [correlation]. *)
Definition pearson (n : nat) (a b : list R) (statsA statsB : Stats) : option R :=
  let sumProduct :=
    fold_left (fun s '(ai, bi) => s + (ai - mean statsA) * (bi - mean statsB))
      (combine a b) 0 in
  div sumProduct (INR n * std statsA * std statsB).

Definition bucket_of (correlation : R) : string :=
  let absCorr := Math_abs correlation in
  if ltb 0.7 absCorr then "strong"
  else if ltb 0.4 absCorr then "moderate"
  else if ltb 0.2 absCorr then "weak"
  else "negligible".

Definition correlate (seriesA seriesB : list Point.t) : option Correlation :=
  let n := Nat.min (length seriesA) (length seriesB) in
  if (n <? 3)%nat then Some {| correlation := 0; significance := "insufficient data" |}
  else
    let a := map Point.value (slice seriesA 0 (Some (Z.of_nat n))) in
    let b := map Point.value (slice seriesB 0 (Some (Z.of_nat n))) in
    match _stats a, _stats b with
    | Some statsA, Some statsB =>
        if eqb (std statsA) 0 || eqb (std statsB) 0
        then Some {| correlation := 0; significance := "no variance" |}
        else
          match pearson n a b statsA statsB with
          | None => None
          | Some correlation =>
              Some {| correlation := Math_round (correlation * 1000) / 1000;
                      significance := bucket_of correlation |}
          end
    | _, _ => None
    end.

(** The mean and the variance as [_stats] computes them, and the paired
    values [correlate] works on: the arrays [a] and [b]. *)
Definition mean_of (values : list R) : R := sum values / INR (length values).
Definition variance_of (values : list R) : R :=
  fold_left (fun s v => s + (v - mean_of values) ^ 2) values 0 / INR (length values).

Definition paired (seriesA seriesB : list Point.t) : list R * list R :=
  let n := Nat.min (length seriesA) (length seriesB) in
  (map Point.value (slice seriesA 0 (Some (Z.of_nat n))),
   map Point.value (slice seriesB 0 (Some (Z.of_nat n)))).

(** [_zScores], with the checked division of this module. *)
Definition _zScores (values : list R) : option (list R) :=
  match _stats values with
  | None => None
  | Some st =>
      if eqb (std st) 0 then Some (map (fun _ => 0) values)
      else mapM (fun v => div (v - mean st) (std st)) values
  end.

End AnomalyDetector.

(** ** forecaster.js *)

Module Forecaster.

Import JS.
Local Open Scope R_scope.

Record Options := {
  opt_alpha : option R;
  opt_trendAlpha : option R;
  opt_forecastHours : option R;
  opt_bucketHours : option R
}.

Record t := {
  alpha : R;
  trendAlpha : R;
  forecastHours : R;
  bucketHours : R
}.

Definition new (options : Options) : t :=
  {| alpha := or_undef (opt_alpha options) 0.3;
     trendAlpha := or_undef (opt_trendAlpha options) 0.1;
     forecastHours := or_undef (opt_forecastHours options) 48;
     bucketHours := or_undef (opt_bucketHours options) 6 |}.

Record Smoothing := {
  level : R;
  trend : R;
  smoothed : list R
}.

(** One turn of the loop of [_holtSmoothing].  Exact arithmetic: a
    constant series keeps its level, where in binary64
    ([Binary64.Forecaster.holt_step]) the level is off it by a rounding
    error. *)
Definition holt_step (f : t) (st : Smoothing) (v : R) : Smoothing :=
  let prevLevel := level st in
  let level' := alpha f * v + (1 - alpha f) * (prevLevel + trend st) in
  let trend' := trendAlpha f * (level' - prevLevel) + (1 - trendAlpha f) * trend st in
  {| level := level'; trend := trend'; smoothed := smoothed st ++ [level'] |}.

Definition _holtSmoothing (f : t) (values : list R) : Smoothing :=
  match values with
  | v0 :: (v1 :: _) as rest =>
      fold_left (holt_step f) rest {| level := v0; trend := v1 - v0; smoothed := [v0] |}
  | _ => {| level := or_undef (head values) 0; trend := 0; smoothed := values |}
  end.

(** [_computeResiduals]; the two arrays have the same length at every
    call of the source. *)
Definition _computeResiduals (actual smoothed : list R) : list R * R :=
  let residuals := map (fun '(x, y) => x - y) (combine actual smoothed) in
  let n := INR (length residuals) in
  let mse := fold_left (fun s r => s + r * r) residuals 0 / n in
  (residuals, Math_sqrt mse).

Module Prediction.
Record t := {
  timestamp : Z;
  predicted : R;
  upper : R;
  lower : R;
  confidence : R
}.
End Prediction.

(** What [forecast] returns: the literal of the short-series branch, or
    the full result. *)
Module ForecastResult.
Record full := {
  predictions : list Prediction.t;
  trend : string;
  trendValue : R;
  currentLevel : R;
  standardError : R;
  smoothedHistory : list Point.t
}.

Inductive t :=
| Insufficient
| Full (r : full).

Definition predictions_of (r : t) : list Prediction.t :=
  match r with
  | Insufficient => []
  | Full r => predictions r
  end.

Definition trend_of (r : t) : string :=
  match r with
  | Insufficient => "insufficient_data"
  | Full r => trend r
  end.

Definition confidence_of (r : t) : option (list R * list R) :=
  match r with
  | Insufficient => Some ([], [])
  | Full _ => None
  end.

Definition smoothedHistory_of (r : t) : list Point.t :=
  match r with
  | Insufficient => []
  | Full r => smoothedHistory r
  end.
End ForecastResult.

(** The body of the prediction loop at [step]. *)
Definition predict (f : t) (level trend standardError : R) (lastTimestamp : Z)
    (step : R) : Prediction.t :=
  let forecastValue := Math_max 0 (level + trend * step) in
  let forecastTime :=
    Date_of_number (IZR lastTimestamp + step * bucketHours f * 3600000) in
  let confidenceMultiplier := 1.96 * Math_sqrt step in
  {| Prediction.timestamp := forecastTime;
     Prediction.predicted := Math_round (forecastValue * 100) / 100;
     Prediction.upper :=
       Math_round ((forecastValue + standardError * confidenceMultiplier) * 100) / 100;
     Prediction.lower :=
       Math_round (Math_max 0 (forecastValue - standardError * confidenceMultiplier) * 100) / 100;
     Prediction.confidence := Math_round (Math_max 50 (95 - step * 5)) |}.

(** The values of [step] in [for (step = 1; step <= forecastSteps; step++)]. *)
Definition steps (forecastSteps : Z) : list R :=
  map (fun k => INR k) (seq 1 (Z.to_nat forecastSteps)).

Definition forecast (f : t) (series : list Point.t) : ForecastResult.t :=
  if (length series <? 4)%nat then ForecastResult.Insufficient
  else
    let values := map Point.value series in
    let timestamps := map Point.timestamp series in
    let hs := _holtSmoothing f values in
    let standardError := snd (_computeResiduals values (smoothed hs)) in
    let forecastSteps := Zceil (forecastHours f / bucketHours f) in
    let lastTimestamp := List.last timestamps 0%Z in
    let predictions :=
      map (predict f (level hs) (trend hs) standardError lastTimestamp)
        (steps forecastSteps) in
    let trendDirection :=
      if ltb 0.5 (trend hs) then "rising"
      else if ltb (trend hs) (-0.5) then "falling"
      else "stable" in
    ForecastResult.Full
      {| ForecastResult.predictions := predictions;
         ForecastResult.trend := trendDirection;
         ForecastResult.trendValue := Math_round (trend hs * 100) / 100;
         ForecastResult.currentLevel := Math_round (level hs * 100) / 100;
         ForecastResult.standardError := Math_round (standardError * 100) / 100;
         ForecastResult.smoothedHistory :=
           map (fun '(v, timestamp) =>
                  {| Point.timestamp := timestamp;
                     Point.value := Math_round (v * 100) / 100 |})
             (combine (smoothed hs) timestamps) |}.

Module Forecasts.
Record t := {
  overall : ForecastResult.t;
  byDisease : gmap string ForecastResult.t;
  byRegion : gmap string ForecastResult.t;
  generatedAt : Z;
  forecastHorizon : template
}.
End Forecasts.

Definition diseases : list string := ["Cholera"; "Typhoid"; "Dengue"; "Malaria"].

Definition count_of (m : gmap string Z) (k : string) : Z :=
  or_count (default 0%Z (m !! k)) 0.

(** [now] is what [new Date()] reads when the forecasts are assembled. *)
Definition forecastAll (f : t) (now : Z)
    (aggregatedAdmissions : list DataPreprocessor.TimeBucket.t) : Forecasts.t :=
  let series_of (g : DataPreprocessor.TimeBucket.t -> Z) :=
    map (fun a => {| Point.timestamp := DataPreprocessor.TimeBucket.timestamp a;
                     Point.value := IZR (g a) |}) aggregatedAdmissions in
  let regionIds : list string :=
    elements (⋃ (map (fun a => dom (DataPreprocessor.TimeBucket.byRegion a))
                    aggregatedAdmissions) : gset string) in
  {| Forecasts.overall := forecast f (series_of DataPreprocessor.TimeBucket.total);
     Forecasts.byDisease :=
       list_to_map
         (map (fun disease =>
                 (disease,
                  forecast f
                    (series_of (fun a => count_of (DataPreprocessor.TimeBucket.byDisease a) disease))))
            diseases);
     Forecasts.byRegion :=
       list_to_map
         (map (fun regionId =>
                 (regionId,
                  forecast f
                    (series_of (fun a => count_of (DataPreprocessor.TimeBucket.byRegion a) regionId))))
            regionIds);
     Forecasts.generatedAt := now;
     Forecasts.forecastHorizon := [Num (forecastHours f); Txt " hours"] |}.

(** [_ema].  [result] starts as [[values[0]]]: an empty input gives one
    element, [undefined], written [None].  Exact arithmetic;
    [Binary64.Forecaster._ema] is the function on binary64 numbers. *)
Definition ema_step (alpha : R) (result : list R) (v : R) : list R :=
  result ++ [alpha * v + (1 - alpha) * List.last result 0].

Definition _ema (values : list R) (alpha : R) : list (option R) :=
  match values with
  | [] => [None]
  | v0 :: rest => map Some (fold_left (ema_step alpha) rest [v0])
  end.

Module Evaluation.
Record t := {
  mape : option R;
  samplesUsed : nat;
  accuracy : option R
}.
End Evaluation.

(** The body of the error loop of [evaluate] on one prediction and the
    holdout point it is compared with. *)
Definition percentage_error (p : Prediction.t) (s : Point.t) : R :=
  let actual := or_num (Point.value s) 1 in
  Math_abs (Prediction.predicted p - actual) / actual.

(** [evaluate]; [null] is [None]. *)
Definition evaluate (f : t) (series : list Point.t) (holdoutRatio : R) : Evaluation.t :=
  let holdoutSize := Z.max 1 (Zfloor (INR (length series) * holdoutRatio)) in
  let trainSeries := slice series 0 (Some (- holdoutSize)%Z) in
  let testSeries := slice series (- holdoutSize) None in
  let predictions := ForecastResult.predictions_of (forecast f trainSeries) in
  let n := Nat.min (length predictions) (length testSeries) in
  let totalError :=
    fold_left (fun total '(p, s) => total + percentage_error p s)
      (combine (firstn n predictions) (firstn n testSeries)) 0 in
  {| Evaluation.mape :=
       if (0 <? n)%nat then Some (Math_round (totalError / INR n * 10000) / 100) else None;
     Evaluation.samplesUsed := n;
     Evaluation.accuracy :=
       if (0 <? n)%nat then Some (Math_round ((1 - totalError / INR n) * 10000) / 100)
       else None |}.

End Forecaster.

(** ** regions.js and riskClassifier.js *)

Module Region.
Record t := {
  id : string;
  name : string;
  center : R * R;
  population : R;
  historicalRisk : R
}.

(** The eight districts of regions.js; the bounds, the hospitals and the
    water sources are read by no analysis stage. *)
Definition regions : list t :=
  [ {| id := "region-1"; name := "Central District"; center := (28.6139, 77.2090)%R;
       population := 185000; historicalRisk := 0.35 |};
    {| id := "region-2"; name := "North Zone"; center := (28.6500, 77.2200)%R;
       population := 142000; historicalRisk := 0.42 |};
    {| id := "region-3"; name := "South Zone"; center := (28.5800, 77.2100)%R;
       population := 167000; historicalRisk := 0.28 |};
    {| id := "region-4"; name := "East Industrial"; center := (28.6200, 77.2500)%R;
       population := 98000; historicalRisk := 0.55 |};
    {| id := "region-5"; name := "West Residential"; center := (28.6100, 77.1700)%R;
       population := 210000; historicalRisk := 0.20 |};
    {| id := "region-6"; name := "Northeast Suburb"; center := (28.6600, 77.2500)%R;
       population := 76000; historicalRisk := 0.48 |};
    {| id := "region-7"; name := "Southwest Settlement"; center := (28.5700, 77.1700)%R;
       population := 120000; historicalRisk := 0.62 |};
    {| id := "region-8"; name := "Old Town"; center := (28.6350, 77.1900)%R;
       population := 155000; historicalRisk := 0.50 |} ].
End Region.

Module RiskClassifier.

Import JS.
Local Open Scope R_scope.

Inductive RiskLevel := LOW | MODERATE | HIGH | CRITICAL.

Record RiskInfo := {
  label : string;
  color : string;
  threshold : R;
  icon : string
}.

Definition RISK_LEVELS (k : RiskLevel) : RiskInfo :=
  match k with
  | LOW => {| label := "Low"; color := "#22c55e"; threshold := 0.25; icon := "✅" |}
  | MODERATE => {| label := "Moderate"; color := "#f59e0b"; threshold := 0.50; icon := "⚠️" |}
  | HIGH => {| label := "High"; color := "#f97316"; threshold := 0.75; icon := "🔶" |}
  | CRITICAL => {| label := "Critical"; color := "#ef4444"; threshold := 1.00; icon := "🚨" |}
  end.

Module Weights.
Record t := {
  admissionVelocity : R;
  waterQuality : R;
  severityIndex : R;
  historicalRisk : R;
  populationDensity : R;
  trendScore : R
}.
End Weights.

Definition weights : Weights.t :=
  {| Weights.admissionVelocity := 0.30;
     Weights.waterQuality := 0.25;
     Weights.severityIndex := 0.20;
     Weights.historicalRisk := 0.10;
     Weights.populationDensity := 0.08;
     Weights.trendScore := 0.07 |}.

Definition count_of (m : gmap string Z) (k : string) : Z :=
  or_count (default 0%Z (m !! k)) 0.

Definition _admissionVelocity (recentAdmissions : list DataPreprocessor.TimeBucket.t)
    (regionId : string) : R :=
  let last24h := slice recentAdmissions (-4) None in
  let prev24h := slice recentAdmissions (-8) (Some (-4)%Z) in
  let count (s : R) (a : DataPreprocessor.TimeBucket.t) :=
    s + IZR (count_of (DataPreprocessor.TimeBucket.byRegion a) regionId) in
  let recentCount := fold_left count last24h 0 in
  let prevCount := or_num (fold_left count prev24h 0) 1 in
  let velocity := (recentCount - prevCount) / prevCount in
  Math_min 1 (Math_max 0 (velocity / 3)).

Definition _waterQualityScore (waterAgg : list DataPreprocessor.WaterBucket.t)
    (regionId : string) : R :=
  let recentWater := slice waterAgg (-3) None in
  if (length recentWater =? 0)%nat then 0.5
  else
    let scores :=
      map (fun w =>
             match DataPreprocessor.WaterBucket.regionAverages w !! regionId with
             | None => 50
             | Some data =>
                 DataPreprocessor.computeWQI
                   {| DataPreprocessor.pH := DataPreprocessor.RegionAverage.avgPH data;
                      DataPreprocessor.turbidity := DataPreprocessor.RegionAverage.avgTurbidity data;
                      DataPreprocessor.coliformCount := DataPreprocessor.RegionAverage.avgColiform data;
                      DataPreprocessor.dissolvedOxygen := DataPreprocessor.RegionAverage.avgDO data;
                      DataPreprocessor.chlorineResidual := 0.5 |}
             end) recentWater in
    let avgWQI := sum scores / INR (length scores) in
    1 - avgWQI / 100.

Definition _severityIndex (recentAdmissions : list DataPreprocessor.TimeBucket.t) : R :=
  let last48h := slice recentAdmissions (-8) None in
  let totalSevere :=
    fold_left (fun s a => s + IZR (count_of (DataPreprocessor.TimeBucket.bySeverity a) "Severe"))
      last48h 0 in
  let total :=
    or_num (fold_left (fun s a => s + IZR (DataPreprocessor.TimeBucket.total a)) last48h 0) 1 in
  Math_min 1 (totalSevere / total * 3).

(** [_trendScore].  Exact arithmetic; [Binary64.RiskClassifier._trendScore]
    is the function on binary64 numbers. *)
Definition _trendScore (forecast : option Forecaster.ForecastResult.t) : R :=
  match forecast with
  | None => 0.5
  | Some Forecaster.ForecastResult.Insufficient => 0.5
  | Some (Forecaster.ForecastResult.Full r) =>
      let trend := Forecaster.ForecastResult.trend r in
      let trendValue := Forecaster.ForecastResult.trendValue r in
      if String.eqb trend "insufficient_data" then 0.5
      else if String.eqb trend "rising" then Math_min 1 (0.6 + trendValue * 0.1)
      else if String.eqb trend "falling" then Math_max 0 (0.4 - Math_abs trendValue * 0.1)
      else 0.5
  end.

Module Factor.
Record t := {
  value : R;
  weight : R
}.
End Factor.

Module Factors.
Record t := {
  admissionVelocity : Factor.t;
  waterQuality : Factor.t;
  severityIndex : Factor.t;
  historicalRisk : Factor.t;
  populationDensity : Factor.t;
  trendScore : Factor.t
}.
End Factors.

Module RiskClassification.
Record t := {
  regionId : string;
  regionName : string;
  riskScore : R;
  riskLevel : RiskLevel;
  riskInfo : RiskInfo;
  factors : Factors.t;
  population : R;
  center : R * R
}.
End RiskClassification.

(** The weighted composite score, the local [riskScore] before rounding. *)
(** The weighted sum of [classifyRegion].  Exact arithmetic;
    [Binary64.RiskClassifier.compositeScore] is the sum as the code adds
    it. *)
Definition compositeScore (region : Region.t)
    (admissionAgg : list DataPreprocessor.TimeBucket.t)
    (waterAgg : list DataPreprocessor.WaterBucket.t)
    (forecast : option Forecaster.ForecastResult.t) : R :=
  let velocity := _admissionVelocity admissionAgg (Region.id region) in
  let waterScore := _waterQualityScore waterAgg (Region.id region) in
  let severity := _severityIndex admissionAgg in
  let historical := Region.historicalRisk region in
  let popDensity := Math_min 1 (Region.population region / 200000) in
  let trend := _trendScore forecast in
  velocity * Weights.admissionVelocity weights
  + waterScore * Weights.waterQuality weights
  + severity * Weights.severityIndex weights
  + historical * Weights.historicalRisk weights
  + popDensity * Weights.populationDensity weights
  + trend * Weights.trendScore weights.

(** The [if]/[else if] chain that picks the tier.  Exact arithmetic: the
    second cut point is 0.4875 here and the number next above it in
    [Binary64.RiskClassifier.tier]. *)
Definition tier (riskScore : R) : RiskLevel :=
  if leb (threshold (RISK_LEVELS CRITICAL) * 0.75) riskScore then CRITICAL
  else if leb (threshold (RISK_LEVELS HIGH) * 0.65) riskScore then HIGH
  else if leb (threshold (RISK_LEVELS MODERATE) * 0.55) riskScore then MODERATE
  else LOW.

Definition round2 (x : R) : R := Math_round (x * 100) / 100.

Definition classifyRegion (region : Region.t)
    (admissionAgg : list DataPreprocessor.TimeBucket.t)
    (waterAgg : list DataPreprocessor.WaterBucket.t)
    (forecast : option Forecaster.ForecastResult.t) : RiskClassification.t :=
  let velocity := _admissionVelocity admissionAgg (Region.id region) in
  let waterScore := _waterQualityScore waterAgg (Region.id region) in
  let severity := _severityIndex admissionAgg in
  let historical := Region.historicalRisk region in
  let popDensity := Math_min 1 (Region.population region / 200000) in
  let trend := _trendScore forecast in
  let riskScore := compositeScore region admissionAgg waterAgg forecast in
  let riskLevel := tier riskScore in
  {| RiskClassification.regionId := Region.id region;
     RiskClassification.regionName := Region.name region;
     RiskClassification.riskScore := round2 riskScore;
     RiskClassification.riskLevel := riskLevel;
     RiskClassification.riskInfo := RISK_LEVELS riskLevel;
     RiskClassification.factors :=
       {| Factors.admissionVelocity :=
            {| Factor.value := round2 velocity;
               Factor.weight := Weights.admissionVelocity weights |};
          Factors.waterQuality :=
            {| Factor.value := round2 waterScore;
               Factor.weight := Weights.waterQuality weights |};
          Factors.severityIndex :=
            {| Factor.value := round2 severity;
               Factor.weight := Weights.severityIndex weights |};
          Factors.historicalRisk :=
            {| Factor.value := round2 historical;
               Factor.weight := Weights.historicalRisk weights |};
          Factors.populationDensity :=
            {| Factor.value := round2 popDensity;
               Factor.weight := Weights.populationDensity weights |};
          Factors.trendScore :=
            {| Factor.value := round2 trend;
               Factor.weight := Weights.trendScore weights |} |};
     RiskClassification.population := Region.population region;
     RiskClassification.center := Region.center region |}.

(** [forecasts?.byRegion?.[region.id]]. *)
Definition region_forecast (forecasts : option Forecaster.Forecasts.t) (regionId : string)
  : option Forecaster.ForecastResult.t :=
  match forecasts with
  | None => None
  | Some fs => Forecaster.Forecasts.byRegion fs !! regionId
  end.

Definition classifyAll (regions : list Region.t)
    (admissionAgg : list DataPreprocessor.TimeBucket.t)
    (waterAgg : list DataPreprocessor.WaterBucket.t)
    (forecasts : option Forecaster.Forecasts.t) : list RiskClassification.t :=
  let results :=
    map (fun region =>
           classifyRegion region admissionAgg waterAgg
             (region_forecast forecasts (Region.id region))) regions in
  sort (fun a b => ltb 0 (RiskClassification.riskScore b - RiskClassification.riskScore a))
    results.

Inductive Detail :=
| RiskDetail (regionId regionName : string) (riskScore : R)
| AnomalyDetail (zScore value : R)
| DiseaseDetail (disease : string) (zScore value : R).

Module Alert.
Record t := {
  id : template;
  type : string;
  severity : string;
  timestamp : Z;
  title : template;
  message : template;
  detail : Detail
}.
End Alert.

Definition risk_alert (now : Z) (rc : RiskClassification.t) : list Alert.t :=
  let regionId := RiskClassification.regionId rc in
  let regionName := RiskClassification.regionName rc in
  let riskScore := RiskClassification.riskScore rc in
  match RiskClassification.riskLevel rc with
  | CRITICAL =>
      [ {| Alert.id := [Txt "ALERT-CRIT-"; Txt regionId];
           Alert.type := "CRITICAL_RISK";
           Alert.severity := "critical";
           Alert.timestamp := now;
           Alert.title := [Txt "🚨 CRITICAL: "; Txt regionName];
           Alert.message :=
             [Txt "Risk score "; Fixed 2 riskScore;
              Txt " — immediate action required. Water quality and admission rates indicate potential outbreak."];
           Alert.detail := RiskDetail regionId regionName riskScore |} ]
  | HIGH =>
      [ {| Alert.id := [Txt "ALERT-HIGH-"; Txt regionId];
           Alert.type := "HIGH_RISK";
           Alert.severity := "high";
           Alert.timestamp := now;
           Alert.title := [Txt "🔶 HIGH RISK: "; Txt regionName];
           Alert.message :=
             [Txt "Risk score "; Fixed 2 riskScore;
              Txt " — elevated disease activity detected. Monitor closely."];
           Alert.detail := RiskDetail regionId regionName riskScore |} ]
  | _ => []
  end.

Definition anomaly_alert (anomaly : AnomalyDetector.AnomalySample.t) : Alert.t :=
  let timestamp := AnomalyDetector.AnomalySample.timestamp anomaly in
  let value := AnomalyDetector.AnomalySample.value anomaly in
  let zScore := AnomalyDetector.AnomalySample.zScore anomaly in
  {| Alert.id := [Txt "ALERT-ANOM-"; Iso timestamp];
     Alert.type := "ANOMALY_DETECTED";
     Alert.severity := if ltb 3 (Math_abs zScore) then "critical" else "high";
     Alert.timestamp := timestamp;
     Alert.title := [Txt "📊 Anomaly: Admission Spike"];
     Alert.message :=
       [Txt "Unusual admission count of "; Num value;
        Txt " detected (Z-score: "; Num zScore;
        Txt "). Mean: "; Num (AnomalyDetector.AnomalySample.mean anomaly);
        Txt ", Std: "; Num (AnomalyDetector.AnomalySample.std anomaly); Txt "."];
     Alert.detail := AnomalyDetail zScore value |}.

Definition disease_alert (disease : string) (anomaly : AnomalyDetector.AnomalySample.t)
  : Alert.t :=
  let timestamp := AnomalyDetector.AnomalySample.timestamp anomaly in
  let value := AnomalyDetector.AnomalySample.value anomaly in
  let zScore := AnomalyDetector.AnomalySample.zScore anomaly in
  {| Alert.id := [Txt "ALERT-DIS-"; Txt disease; Txt "-"; Iso timestamp];
     Alert.type := "DISEASE_SPIKE";
     Alert.severity := "high";
     Alert.timestamp := timestamp;
     Alert.title := [Txt "🦠 "; Txt disease; Txt " Spike Detected"];
     Alert.message :=
       [Txt disease; Txt " admissions spiked to "; Num value;
        Txt " (Z-score: "; Num zScore; Txt ")."];
     Alert.detail := DiseaseDetail disease zScore value |}.

(** [{ critical: 0, high: 1, moderate: 2, low: 3 }[severity]]. *)
Definition severityOrder (severity : string) : option Z :=
  if String.eqb severity "critical" then Some 0%Z
  else if String.eqb severity "high" then Some 1%Z
  else if String.eqb severity "moderate" then Some 2%Z
  else if String.eqb severity "low" then Some 3%Z
  else None.

(** [severityOrder[severity] || 3]. *)
Definition sort_key (severity : string) : Z :=
  match severityOrder severity with
  | Some n => or_count n 3
  | None => 3%Z
  end.

(** The alerts in the order the three loops push them. *)
Definition collect_alerts (now : Z) (riskClassifications : list RiskClassification.t)
    (anomalies : option AnomalyDetector.Anomalies) : list Alert.t :=
  let recent (k : Z) (data : list AnomalyDetector.AnomalySample.t) :=
    slice (List.filter AnomalyDetector.AnomalySample.isAnomaly data) (- k) None in
  let riskAlerts := concat (map (risk_alert now) riskClassifications) in
  let anomalyAlerts :=
    match anomalies with
    | Some {| AnomalyDetector.overall := Some overall |} =>
        map anomaly_alert (recent 5%Z overall)
    | _ => []
    end in
  let diseaseAlerts :=
    match anomalies with
    | Some {| AnomalyDetector.byDisease := Some byDisease |} =>
        concat (map (fun '(disease, data) => map (disease_alert disease) (recent 2%Z data))
                  byDisease)
    | _ => []
    end in
  riskAlerts ++ anomalyAlerts ++ diseaseAlerts.

(** [now] is what [new Date()] reads on entry. *)
Definition generateAlerts (now : Z) (riskClassifications : list RiskClassification.t)
    (anomalies : option AnomalyDetector.Anomalies) : list Alert.t :=
  sort (fun a b => (0 <? sort_key (Alert.severity a) - sort_key (Alert.severity b))%Z)
    (collect_alerts now riskClassifications anomalies).

End RiskClassifier.

(** ** routes/api.js: the recompute *)

Module Api.

Module Snapshot.
Record t := {
  admissionAgg : list DataPreprocessor.TimeBucket.t;
  waterAgg : list DataPreprocessor.WaterBucket.t;
  anomalies : AnomalyDetector.Anomalies;
  forecasts : Forecaster.Forecasts.t;
  riskClassifications : list RiskClassifier.RiskClassification.t;
  alerts : list RiskClassifier.Alert.t
}.
End Snapshot.

Definition detector : AnomalyDetector.t :=
  AnomalyDetector.new
    {| AnomalyDetector.opt_zThreshold := Some 2.0%R;
       AnomalyDetector.opt_windowSize := Some 20%Z |}.

Definition forecaster : Forecaster.t :=
  Forecaster.new
    {| Forecaster.opt_alpha := Some 0.3%R;
       Forecaster.opt_trendAlpha := Some 0.1%R;
       Forecaster.opt_forecastHours := None;
       Forecaster.opt_bucketHours := None |}.


End Api.

(** * The numeric code in binary64

    The modules above read the arithmetic of the sources as exact.  A
    JavaScript number is a binary64 float, and every operation on it rounds
    to nearest, ties to even.  This module embeds the numeric functions a
    second time over primitive floats, which are those numbers with those
    operations, NaN, the infinities and the two zeros included.  Where the
    result of a function turns on a rounding error (a comparison with a cut
    point, the test [std === 0], a [Math.round] next to a tie) it is this
    module that says what the code returns. *)

Module Binary64.

Import PrimFloat.
Local Open Scope float_scope.

(** ** Numbers *)

(** The number nearest to an integer that is below [2^63] in size. *)
Definition of_Z (z : Z) : float :=
  if (z <? 0)%Z then - of_uint63 (Uint63.of_Z (- z)) else of_uint63 (Uint63.of_Z z).

Definition of_nat (n : nat) : float := of_Z (Z.of_nat n).

(** The integral part of a finite number; [0] for NaN and the infinities. *)
Definition to_Z (x : float) : Z :=
  match FloatOps.Prim2SF x with
  | SpecFloat.S754_finite s m e =>
      let v := if (e <? 0)%Z then Z.shiftr (Z.pos m) (- e) else Z.shiftl (Z.pos m) e in
      if s then (- v)%Z else v
  | _ => 0%Z
  end.

Definition Math_abs (x : float) : float := abs x.
Definition Math_sqrt (x : float) : float := sqrt x.

(** [Math.max] and [Math.min] of two numbers: NaN if either is NaN, and
    [-0] counts as smaller than [+0]. *)
Definition Math_max (x y : float) : float :=
  if is_nan x || is_nan y then nan
  else if x <? y then y
  else if y <? x then x
  else if is_zero x && get_sign x then y else x.

Definition Math_min (x y : float) : float :=
  if is_nan x || is_nan y then nan
  else if x <? y then x
  else if y <? x then y
  else if is_zero y && get_sign y then y else x.

(** [Math.floor].  Below [2^52] in size, adding and taking away [2^52]
    rounds to an integer; from [2^52] on every number is an integer. *)
Definition two52 : float := 4503599627370496.

Definition Math_floor (x : float) : float :=
  if is_zero x then x
  else if abs x <? two52 then
    let nearest := abs x + two52 - two52 in
    let whole := if abs x <? nearest then nearest - 1 else nearest in
    if x <? 0 then (if whole <? abs x then - (whole + 1) else - whole) else whole
  else x.

Definition Math_ceil (x : float) : float := - Math_floor (- x).

(** [Math.round]: the nearest integer, ties towards plus infinity; a zero
    result has the sign of the argument. *)
Definition Math_round (x : float) : float :=
  let below := Math_floor x in
  let nearest := if 0.5 <=? x - below then below + 1 else below in
  if is_zero nearest then (if x <? 0 then neg_zero else if is_zero x then x else 0)
  else nearest.

(** [x || d] on numbers: the zeros and NaN are falsy. *)
Definition or_num (x d : float) : float := if is_zero x || is_nan x then d else x.

(** [x || d] where [x] may be [undefined]. *)
Definition or_undef (x : option float) (d : float) : float :=
  match x with
  | Some v => or_num v d
  | None => d
  end.

(** [arr.reduce((s, x) => s + x, 0)]. *)
Definition sum (l : list float) : float := fold_left add l 0.

Definition round2 (x : float) : float := Math_round (x * 100) / 100.

(** The tiers and the tables of counts are those of the modules above. *)
Abbreviation RiskLevel := RiskClassifier.RiskLevel (only parsing).
Abbreviation LOW := RiskClassifier.LOW (only parsing).
Abbreviation MODERATE := RiskClassifier.MODERATE (only parsing).
Abbreviation HIGH := RiskClassifier.HIGH (only parsing).
Abbreviation CRITICAL := RiskClassifier.CRITICAL (only parsing).
Abbreviation TimeBucket := DataPreprocessor.TimeBucket.t (only parsing).
Abbreviation byRegion := DataPreprocessor.TimeBucket.byRegion (only parsing).
Abbreviation bySeverity := DataPreprocessor.TimeBucket.bySeverity (only parsing).
Abbreviation total := DataPreprocessor.TimeBucket.total (only parsing).
Abbreviation count_of := RiskClassifier.count_of (only parsing).

(** ** dataPreprocessor.js *)

Module DataPreprocessor.

(** [rollingAverage]; an empty window, which a window size below 1
    leaves, has the mean [0 / 0], which is NaN. *)
Definition rollingAverage (values : list float) (windowSize : Z) : list float :=
  imap (fun i _ =>
          let start := Z.max 0 (Z.of_nat i - windowSize + 1) in
          let window := JS.slice values start (Some (Z.of_nat i + 1)%Z) in
          sum window / of_nat (length window))
    values.

Record WQIParams := {
  pH : float;
  turbidity : float;
  coliformCount : float;
  dissolvedOxygen : float;
  chlorineResidual : float
}.

Definition computeWQI (params : WQIParams) : float :=
  let pHScore :=
    if (6.5 <=? pH params) && (pH params <=? 8.5)
    then 100 - Math_abs (pH params - 7.0) * 20
    else Math_max 0 (50 - Math_abs (pH params - 7.0) * 15) in
  let turbidityScore := Math_max 0 (100 - turbidity params * 5) in
  let coliformScore := Math_max 0 (100 - coliformCount params * 0.5) in
  let doScore := Math_min 100 (dissolvedOxygen params * 12) in
  let chlorineScore :=
    if 0.2 <=? chlorineResidual params
    then Math_min 100 (chlorineResidual params * 100)
    else chlorineResidual params * 200 in
  let wqi := pHScore * 0.15 + turbidityScore * 0.20 + coliformScore * 0.30
             + doScore * 0.20 + chlorineScore * 0.15 in
  Math_round (Math_max 0 (Math_min 100 wqi)).

(** The averages of one region in a water bucket, as
    [aggregateWaterQuality] stores them. *)
Module RegionAverage.
Record t := {
  avgPH : float;
  avgTurbidity : float;
  avgColiform : float;
  avgDO : float;
  sampleCount : Z;
  hasAnomaly : bool
}.
End RegionAverage.

Module WaterBucket.
Record t := {
  timestamp : Z;
  regionAverages : gmap string RegionAverage.t
}.
End WaterBucket.

End DataPreprocessor.

(** ** The anomaly detector *)

Module AnomalyDetector.

Record Stats := {
  mean : float;
  std : float
}.

(** [_stats]; the square [(v - mean) ** 2] is the product of [v - mean]
    with itself. *)
Definition _stats (values : list float) : Stats :=
  let n := length values in
  if (n =? 0)%nat then {| mean := 0; std := 0 |}
  else
    let mean := fold_left add values 0 / of_nat n in
    let variance :=
      fold_left (fun s v => s + (v - mean) * (v - mean)) values 0 / of_nat n in
    {| mean := mean; std := Math_sqrt variance |}.

(** [_zScores]. *)
Definition _zScores (values : list float) : list float :=
  let st := _stats values in
  if std st =? 0 then map (fun _ => 0) values
  else map (fun v => (v - mean st) / std st) values.

Record Correlation := {
  correlation : float;
  significance : string
}.

(** [correlate] on the [value] fields of the two series, the only fields
    it reads.  No step of it can raise: a division by zero is a NaN or an
    infinity. *)
Definition correlate (seriesA seriesB : list float) : Correlation :=
  let n := Nat.min (length seriesA) (length seriesB) in
  if (n <? 3)%nat then {| correlation := 0; significance := "insufficient data" |}
  else
    let a := firstn n seriesA in
    let b := firstn n seriesB in
    let statsA := _stats a in
    let statsB := _stats b in
    if (std statsA =? 0) || (std statsB =? 0)
    then {| correlation := 0; significance := "no variance" |}
    else
      let sumProduct :=
        fold_left (fun s '(ai, bi) => s + (ai - mean statsA) * (bi - mean statsB))
          (combine a b) 0 in
      let correlation := sumProduct / (of_nat n * std statsA * std statsB) in
      let absCorr := Math_abs correlation in
      let significance :=
        if 0.7 <? absCorr then "strong"
        else if 0.4 <? absCorr then "moderate"
        else if 0.2 <? absCorr then "weak"
        else "negligible" in
      {| correlation := Math_round (correlation * 1000) / 1000;
         significance := significance |}.

End AnomalyDetector.

(** ** forecaster.js *)

Module Forecaster.

Record Options := {
  opt_alpha : option float;
  opt_trendAlpha : option float;
  opt_forecastHours : option float;
  opt_bucketHours : option float
}.

Record t := {
  alpha : float;
  trendAlpha : float;
  forecastHours : float;
  bucketHours : float
}.

Definition new (options : Options) : t :=
  {| alpha := or_undef (opt_alpha options) 0.3;
     trendAlpha := or_undef (opt_trendAlpha options) 0.1;
     forecastHours := or_undef (opt_forecastHours options) 48;
     bucketHours := or_undef (opt_bucketHours options) 6 |}.

(** [new Forecaster()]. *)
Definition default : t :=
  new {| opt_alpha := None; opt_trendAlpha := None;
         opt_forecastHours := None; opt_bucketHours := None |}.

(** [_ema].  [result] starts as [[values[0]]]: an empty input gives one
    element, [undefined], written [None]. *)
Definition ema_step (alpha : float) (result : list float) (v : float) : list float :=
  result ++ [alpha * v + (1 - alpha) * List.last result 0].

Definition _ema (values : list float) (alpha : float) : list (option float) :=
  match values with
  | [] => [None]
  | v0 :: rest => map Some (fold_left (ema_step alpha) rest [v0])
  end.

Record Smoothing := {
  level : float;
  trend : float;
  smoothed : list float
}.

(** One turn of the loop of [_holtSmoothing]. *)
Definition holt_step (f : t) (st : Smoothing) (v : float) : Smoothing :=
  let prevLevel := level st in
  let level' := alpha f * v + (1 - alpha f) * (prevLevel + trend st) in
  let trend' := trendAlpha f * (level' - prevLevel) + (1 - trendAlpha f) * trend st in
  {| level := level'; trend := trend'; smoothed := smoothed st ++ [level'] |}.

Definition _holtSmoothing (f : t) (values : list float) : Smoothing :=
  match values with
  | v0 :: (v1 :: _) as rest =>
      fold_left (holt_step f) rest {| level := v0; trend := v1 - v0; smoothed := [v0] |}
  | _ => {| level := or_undef (head values) 0; trend := 0; smoothed := values |}
  end.

(** The [standardError] of [_computeResiduals]; the two arrays have the
    same length at its call. *)
Definition standardError (actual smoothed : list float) : float :=
  let residuals := map (fun '(x, y) => x - y) (combine actual smoothed) in
  let n := of_nat (length residuals) in
  let mse := fold_left (fun s r => s + r * r) residuals 0 / n in
  Math_sqrt mse.

Module Prediction.
Record t := {
  predicted : float;
  upper : float;
  lower : float;
  confidence : float
}.
End Prediction.

(** What [forecast] returns: the literal of the short-series branch, or
    the full result.  The source also copies the timestamps of the series
    into [smoothedHistory] and stamps the prediction of [step] with the
    last timestamp advanced by [step] bucket widths; these are as in
    [Forecaster.forecast] above and are left out here, since no number of
    the result depends on them. *)
Module ForecastResult.
Record full := {
  predictions : list Prediction.t;
  trend : string;
  trendValue : float;
  currentLevel : float;
  standardError : float;
  smoothedHistory : list float
}.

Inductive t :=
| Insufficient
| Full (r : full).
End ForecastResult.

(** The body of the prediction loop at [step]. *)
Definition predict (level trend standardError : float) (step : float) : Prediction.t :=
  let forecastValue := Math_max 0 (level + trend * step) in
  let confidenceMultiplier := 1.96 * Math_sqrt step in
  {| Prediction.predicted := round2 forecastValue;
     Prediction.upper := round2 (forecastValue + standardError * confidenceMultiplier);
     Prediction.lower :=
       round2 (Math_max 0 (forecastValue - standardError * confidenceMultiplier));
     Prediction.confidence := Math_round (Math_max 50 (95 - step * 5)) |}.

(** The values of [step] in [for (step = 1; step <= forecastSteps; step++)],
    for a finite [forecastSteps]. *)
Definition steps (forecastSteps : float) : list float :=
  map of_nat (seq 1 (Z.to_nat (to_Z (Math_floor forecastSteps)))).

(** [forecast] on the [value] fields of the series. *)
Definition forecast (f : t) (values : list float) : ForecastResult.t :=
  if (length values <? 4)%nat then ForecastResult.Insufficient
  else
    let hs := _holtSmoothing f values in
    let standardError := standardError values (smoothed hs) in
    let forecastSteps := Math_ceil (forecastHours f / bucketHours f) in
    let predictions :=
      map (predict (level hs) (trend hs) standardError) (steps forecastSteps) in
    let trendDirection :=
      if 0.5 <? trend hs then "rising"
      else if trend hs <? -0.5 then "falling"
      else "stable" in
    ForecastResult.Full
      {| ForecastResult.predictions := predictions;
         ForecastResult.trend := trendDirection;
         ForecastResult.trendValue := round2 (trend hs);
         ForecastResult.currentLevel := round2 (level hs);
         ForecastResult.standardError := round2 standardError;
         ForecastResult.smoothedHistory := map round2 (smoothed hs) |}.

End Forecaster.

(** ** riskClassifier.js *)

Module Region.
Record t := {
  id : string;
  name : string;
  center : float * float;
  population : float;
  historicalRisk : float
}.
End Region.

Module RiskClassifier.

Record RiskInfo := {
  label : string;
  color : string;
  threshold : float;
  icon : string
}.

Definition RISK_LEVELS (k : RiskLevel) : RiskInfo :=
  match k with
  | LOW => {| label := "Low"; color := "#22c55e"; threshold := 0.25; icon := "✅" |}
  | MODERATE => {| label := "Moderate"; color := "#f59e0b"; threshold := 0.50; icon := "⚠️" |}
  | HIGH => {| label := "High"; color := "#f97316"; threshold := 0.75; icon := "🔶" |}
  | CRITICAL => {| label := "Critical"; color := "#ef4444"; threshold := 1.00; icon := "🚨" |}
  end.

Module Weights.
Record t := {
  admissionVelocity : float;
  waterQuality : float;
  severityIndex : float;
  historicalRisk : float;
  populationDensity : float;
  trendScore : float
}.
End Weights.

Definition weights : Weights.t :=
  {| Weights.admissionVelocity := 0.30;
     Weights.waterQuality := 0.25;
     Weights.severityIndex := 0.20;
     Weights.historicalRisk := 0.10;
     Weights.populationDensity := 0.08;
     Weights.trendScore := 0.07 |}.

Definition _admissionVelocity (recentAdmissions : list TimeBucket)
    (regionId : string) : float :=
  let last24h := JS.slice recentAdmissions (-4) None in
  let prev24h := JS.slice recentAdmissions (-8) (Some (-4)%Z) in
  let count (s : float) (a : TimeBucket) :=
    s + of_Z (count_of (byRegion a) regionId) in
  let recentCount := fold_left count last24h 0 in
  let prevCount := or_num (fold_left count prev24h 0) 1 in
  let velocity := (recentCount - prevCount) / prevCount in
  Math_min 1 (Math_max 0 (velocity / 3)).

Definition _waterQualityScore (waterAgg : list DataPreprocessor.WaterBucket.t)
    (regionId : string) : float :=
  let recentWater := JS.slice waterAgg (-3) None in
  if (length recentWater =? 0)%nat then 0.5
  else
    let scores :=
      map (fun w =>
             match DataPreprocessor.WaterBucket.regionAverages w !! regionId with
             | None => 50
             | Some data =>
                 DataPreprocessor.computeWQI
                   {| DataPreprocessor.pH := DataPreprocessor.RegionAverage.avgPH data;
                      DataPreprocessor.turbidity := DataPreprocessor.RegionAverage.avgTurbidity data;
                      DataPreprocessor.coliformCount := DataPreprocessor.RegionAverage.avgColiform data;
                      DataPreprocessor.dissolvedOxygen := DataPreprocessor.RegionAverage.avgDO data;
                      DataPreprocessor.chlorineResidual := 0.5 |}
             end) recentWater in
    let avgWQI := sum scores / of_nat (length scores) in
    1 - avgWQI / 100.

Definition _severityIndex (recentAdmissions : list TimeBucket) : float :=
  let last48h := JS.slice recentAdmissions (-8) None in
  let totalSevere :=
    fold_left (fun s a => s + of_Z (count_of (bySeverity a) "Severe")) last48h 0 in
  let total := or_num (fold_left (fun s a => s + of_Z (total a)) last48h 0) 1 in
  Math_min 1 (totalSevere / total * 3).

Definition _trendScore (forecast : option Forecaster.ForecastResult.t) : float :=
  match forecast with
  | None => 0.5
  | Some Forecaster.ForecastResult.Insufficient => 0.5
  | Some (Forecaster.ForecastResult.Full r) =>
      let trend := Forecaster.ForecastResult.trend r in
      let trendValue := Forecaster.ForecastResult.trendValue r in
      if String.eqb trend "insufficient_data" then 0.5
      else if String.eqb trend "rising" then Math_min 1 (0.6 + trendValue * 0.1)
      else if String.eqb trend "falling" then Math_max 0 (0.4 - Math_abs trendValue * 0.1)
      else 0.5
  end.

(** The weighted sum of [classifyRegion], added from left to right. *)
Definition compositeScore (region : Region.t) (admissionAgg : list TimeBucket)
    (waterAgg : list DataPreprocessor.WaterBucket.t)
    (forecast : option Forecaster.ForecastResult.t) : float :=
  let velocity := _admissionVelocity admissionAgg (Region.id region) in
  let waterScore := _waterQualityScore waterAgg (Region.id region) in
  let severity := _severityIndex admissionAgg in
  let historical := Region.historicalRisk region in
  let popDensity := Math_min 1 (Region.population region / 200000) in
  let trend := _trendScore forecast in
  velocity * Weights.admissionVelocity weights
  + waterScore * Weights.waterQuality weights
  + severity * Weights.severityIndex weights
  + historical * Weights.historicalRisk weights
  + popDensity * Weights.populationDensity weights
  + trend * Weights.trendScore weights.

(** The [if]/[else if] chain that picks the tier; each cut point is the
    product the source writes, computed when the comparison is made. *)
Definition tier (riskScore : float) : RiskLevel :=
  if threshold (RISK_LEVELS CRITICAL) * 0.75 <=? riskScore then CRITICAL
  else if threshold (RISK_LEVELS HIGH) * 0.65 <=? riskScore then HIGH
  else if threshold (RISK_LEVELS MODERATE) * 0.55 <=? riskScore then MODERATE
  else LOW.

Module Factor.
Record t := {
  value : float;
  weight : float
}.
End Factor.

Module Factors.
Record t := {
  admissionVelocity : Factor.t;
  waterQuality : Factor.t;
  severityIndex : Factor.t;
  historicalRisk : Factor.t;
  populationDensity : Factor.t;
  trendScore : Factor.t
}.
End Factors.

Module RiskClassification.
Record t := {
  regionId : string;
  regionName : string;
  riskScore : float;
  riskLevel : RiskLevel;
  riskInfo : RiskInfo;
  factors : Factors.t;
  population : float;
  center : float * float
}.
End RiskClassification.

Definition classifyRegion (region : Region.t) (admissionAgg : list TimeBucket)
    (waterAgg : list DataPreprocessor.WaterBucket.t)
    (forecast : option Forecaster.ForecastResult.t) : RiskClassification.t :=
  let velocity := _admissionVelocity admissionAgg (Region.id region) in
  let waterScore := _waterQualityScore waterAgg (Region.id region) in
  let severity := _severityIndex admissionAgg in
  let historical := Region.historicalRisk region in
  let popDensity := Math_min 1 (Region.population region / 200000) in
  let trend := _trendScore forecast in
  let riskScore := compositeScore region admissionAgg waterAgg forecast in
  let riskLevel := tier riskScore in
  {| RiskClassification.regionId := Region.id region;
     RiskClassification.regionName := Region.name region;
     RiskClassification.riskScore := round2 riskScore;
     RiskClassification.riskLevel := riskLevel;
     RiskClassification.riskInfo := RISK_LEVELS riskLevel;
     RiskClassification.factors :=
       {| Factors.admissionVelocity :=
            {| Factor.value := round2 velocity;
               Factor.weight := Weights.admissionVelocity weights |};
          Factors.waterQuality :=
            {| Factor.value := round2 waterScore;
               Factor.weight := Weights.waterQuality weights |};
          Factors.severityIndex :=
            {| Factor.value := round2 severity;
               Factor.weight := Weights.severityIndex weights |};
          Factors.historicalRisk :=
            {| Factor.value := round2 historical;
               Factor.weight := Weights.historicalRisk weights |};
          Factors.populationDensity :=
            {| Factor.value := round2 popDensity;
               Factor.weight := Weights.populationDensity weights |};
          Factors.trendScore :=
            {| Factor.value := round2 trend;
               Factor.weight := Weights.trendScore weights |} |};
     RiskClassification.population := Region.population region;
     RiskClassification.center := Region.center region |}.

End RiskClassifier.

(** The forecaster that [loadAndProcess] builds:
    [new Forecaster({ alpha: 0.3, trendAlpha: 0.1 })]. *)
Module Api.
Definition forecaster : Forecaster.t :=
  Forecaster.new
    {| Forecaster.opt_alpha := Some 0.3;
       Forecaster.opt_trendAlpha := Some 0.1;
       Forecaster.opt_forecastHours := None;
       Forecaster.opt_bucketHours := None |}.
End Api.

End Binary64.

(** ** Vocabulary of the statements *)

Module Spec.

(** The sum of the values of a breakdown map. *)
Definition map_total (m : gmap string Z) : Z :=
  map_fold (fun _ v acc => (v + acc)%Z) 0%Z m.

(** Every count of a breakdown map is non-negative. *)
Definition counts_nonneg (m : gmap string Z) : Prop :=
  map_Forall (fun _ v => (0 <= v)%Z) m.

(** The records that fall in the bucket that starts at [key]. *)
Definition members {A} (timestamp : A -> Z) (tz : JS.Zone.t) (bucketHours key : Z)
    (records : list A) : list A :=
  filter (fun r => DataPreprocessor.bucketStart tz bucketHours (timestamp r) = Some key)
    records.

(** The object that [timeBucket] builds, after the records [done]: the keys
    are distinct, each key holds exactly the records that fall in its bucket,
    in their order, no bucket is empty, and every record has its bucket. *)
Definition grouped {A} (timestamp : A -> Z) (tz : JS.Zone.t) (bucketHours : Z)
    (buckets : list (Z * list A)) (done : list A) : Prop :=
  NoDup (map fst buckets)
  /\ Forall (fun b => snd b = members timestamp tz bucketHours (fst b) done /\ snd b <> [])
       buckets
  /\ Forall (fun r => exists key,
                 DataPreprocessor.bucketStart tz bucketHours (timestamp r) = Some key
                 /\ In key (map fst buckets)) done
  /\ JS.sumZ (map (fun b => Z.of_nat (length (snd b))) buckets) = Z.of_nat (length done).

(** What C10 asks of one aggregated bucket. *)
Definition bucket_consistent (tz : JS.Zone.t) (bucketHours : Z)
    (admissions : list DataPreprocessor.Admission.t) (b : DataPreprocessor.TimeBucket.t)
  : Prop :=
  DataPreprocessor.TimeBucket.total b
  = Z.of_nat (length (members DataPreprocessor.Admission.timestamp tz bucketHours
                        (DataPreprocessor.TimeBucket.timestamp b) admissions))
  /\ map_total (DataPreprocessor.TimeBucket.byDisease b) = DataPreprocessor.TimeBucket.total b
  /\ map_total (DataPreprocessor.TimeBucket.byRegion b) = DataPreprocessor.TimeBucket.total b
  /\ map_total (DataPreprocessor.TimeBucket.bySeverity b) = DataPreprocessor.TimeBucket.total b
  /\ counts_nonneg (DataPreprocessor.TimeBucket.byDisease b)
  /\ counts_nonneg (DataPreprocessor.TimeBucket.byRegion b)
  /\ counts_nonneg (DataPreprocessor.TimeBucket.bySeverity b)
  /\ (0 < DataPreprocessor.TimeBucket.total b)%Z
  /\ (0 <= DataPreprocessor.TimeBucket.anomalyCount b)%Z.

(** What holds of an aggregated bucket whatever the records are: its total
    is the number of records that fall in it, which is at least one, and no
    count is negative. *)
Definition bucket_counted (tz : JS.Zone.t) (bucketHours : Z)
    (admissions : list DataPreprocessor.Admission.t) (b : DataPreprocessor.TimeBucket.t)
  : Prop :=
  DataPreprocessor.TimeBucket.total b
  = Z.of_nat (length (members DataPreprocessor.Admission.timestamp tz bucketHours
                        (DataPreprocessor.TimeBucket.timestamp b) admissions))
  /\ counts_nonneg (DataPreprocessor.TimeBucket.byDisease b)
  /\ counts_nonneg (DataPreprocessor.TimeBucket.byRegion b)
  /\ counts_nonneg (DataPreprocessor.TimeBucket.bySeverity b)
  /\ (0 < DataPreprocessor.TimeBucket.total b)%Z
  /\ (0 <= DataPreprocessor.TimeBucket.anomalyCount b)%Z.

(** A breakdown object all of whose entries are counts. *)
Definition all_counts (m : gmap string DataPreprocessor.entry) : Prop :=
  map_Forall (fun _ e => exists n, e = DataPreprocessor.Count n) m.

(** A record none of whose three breakdown keys names a property that an
    object inherits; a water sample whose region does not. *)
Definition plain_admission (r : DataPreprocessor.Admission.t) : Prop :=
  JS.inherited (DataPreprocessor.Admission.disease r) = false
  /\ JS.inherited (DataPreprocessor.Admission.regionId r) = false
  /\ JS.inherited (DataPreprocessor.Admission.severity r) = false.





(** The admissions of a region over some buckets, as the velocity factor
    counts them. *)
Definition region_admissions (regionId : string)
    (buckets : list DataPreprocessor.TimeBucket.t) : Z :=
  JS.sumZ (map (fun a => RiskClassifier.count_of (DataPreprocessor.TimeBucket.byRegion a)
                           regionId) buckets).

(** A classification that gets a risk alert. *)
Definition alerting (rc : RiskClassifier.RiskClassification.t) : bool :=
  match RiskClassifier.RiskClassification.riskLevel rc with
  | RiskClassifier.CRITICAL | RiskClassifier.HIGH => true
  | _ => false
  end.

(** The number of flagged samples of an anomaly series. *)
Definition anomalous (data : list AnomalyDetector.AnomalySample.t) : nat :=
  length (List.filter AnomalyDetector.AnomalySample.isAnomaly data).

(** The number of alerts that the three loops of the generator push: one
    per Critical or High region, the last five flagged samples of the
    overall series, the last two of each disease series. *)
Definition alert_count (riskClassifications : list RiskClassifier.RiskClassification.t)
    (anomalies : option AnomalyDetector.Anomalies) : nat :=
  length (List.filter alerting riskClassifications)
  + match anomalies with
    | Some {| AnomalyDetector.overall := Some overall |} => Nat.min 5 (anomalous overall)
    | _ => 0
    end
  + match anomalies with
    | Some {| AnomalyDetector.byDisease := Some byDisease |} =>
        sum_list (map (fun '(_, data) => Nat.min 2 (anomalous data)) byDisease)
    | _ => 0
    end.


End Spec.

(** Vocabulary of the statements on binary64. *)

Module Spec64.

Import PrimFloat.
Local Open Scope float_scope.





End Spec64.

(** ** Sample inputs *)

Module Samples.

Definition no_options : Forecaster.Options :=
  {| Forecaster.opt_alpha := None;
     Forecaster.opt_trendAlpha := None;
     Forecaster.opt_forecastHours := None;
     Forecaster.opt_bucketHours := None |}.

Definition point (timestamp : Z) (value : R) : Point.t :=
  {| Point.timestamp := timestamp; Point.value := value |}.

(** Four six-hour buckets that all hold the value [v]. *)
Definition flat (v : R) : list Point.t :=
  [point 0 v; point 21600000 v; point 43200000 v; point 64800000 v].

(** Three buckets: one short of what the forecast needs. *)
Definition short : list Point.t :=
  [point 0 10; point 21600000 12; point 43200000 11].

(** Two series whose Pearson coefficient is exactly 1/5. *)
Definition seriesA : list Point.t :=
  [point 0 0; point 86400000 0; point 172800000 0; point 259200000 1].

Definition seriesB : list Point.t :=
  [point 0 0; point 86400000 3; point 172800000 6; point 259200000 4].

(** A series without variance, and two samples only. *)
Definition level5 : list Point.t :=
  [point 0 5; point 86400000 5; point 172800000 5].

Definition pair_only : list Point.t :=
  [point 0 1; point 86400000 2].

(** What [classifyRegion] hands over for a region in the given tier. *)
Definition classified (regionId regionName : string) (riskScore : R)
    (riskLevel : RiskClassifier.RiskLevel) : RiskClassifier.RiskClassification.t :=
  let factor (value weight : R) :=
    {| RiskClassifier.Factor.value := value; RiskClassifier.Factor.weight := weight |} in
  {| RiskClassifier.RiskClassification.regionId := regionId;
     RiskClassifier.RiskClassification.regionName := regionName;
     RiskClassifier.RiskClassification.riskScore := riskScore;
     RiskClassifier.RiskClassification.riskLevel := riskLevel;
     RiskClassifier.RiskClassification.riskInfo := RiskClassifier.RISK_LEVELS riskLevel;
     RiskClassifier.RiskClassification.factors :=
       {| RiskClassifier.Factors.admissionVelocity := factor 1%R 0.30%R;
          RiskClassifier.Factors.waterQuality := factor 0.5%R 0.25%R;
          RiskClassifier.Factors.severityIndex := factor 0.5%R 0.20%R;
          RiskClassifier.Factors.historicalRisk := factor 0.35%R 0.10%R;
          RiskClassifier.Factors.populationDensity := factor 0.93%R 0.08%R;
          RiskClassifier.Factors.trendScore := factor 0.5%R 0.07%R |};
     RiskClassifier.RiskClassification.population := 185000;
     RiskClassifier.RiskClassification.center := (28.6139, 77.2090)%R |}.

(** [classifyAll] returns the regions by descending score: a Critical
    region first, a High one after it. *)
Definition two_regions : list RiskClassifier.RiskClassification.t :=
  [classified "region-1" "Central District" 0.8 RiskClassifier.CRITICAL;
   classified "region-2" "North Zone" 0.6 RiskClassifier.HIGH].

Definition admission (timestamp : Z) (disease severity regionId : string) (patientAge : R)
    (isAnomaly : bool) : DataPreprocessor.Admission.t :=
  {| DataPreprocessor.Admission.timestamp := timestamp;
     DataPreprocessor.Admission.disease := disease;
     DataPreprocessor.Admission.severity := severity;
     DataPreprocessor.Admission.regionId := regionId;
     DataPreprocessor.Admission.patientAge := patientAge;
     DataPreprocessor.Admission.isAnomaly := isAnomaly |}.

(** Two admissions between 00:00 and 06:00 UTC on 1 January 1970 and one
    between 06:00 and 12:00. *)
Definition three_admissions : list DataPreprocessor.Admission.t :=
  [admission 0 "Cholera" "Mild" "region-1" 30 false;
   admission 3600000 "Typhoid" "Severe" "region-1" 41 false;
   admission 21600000 "Cholera" "Moderate" "region-2" 8 true].

Definition water_sample (timestamp : Z) (regionId : string)
    (pH turbidity coliformCount dissolvedOxygen : R) (isAnomaly : bool)
  : DataPreprocessor.WaterSample.t :=
  {| DataPreprocessor.WaterSample.timestamp := timestamp;
     DataPreprocessor.WaterSample.regionId := regionId;
     DataPreprocessor.WaterSample.pH := pH;
     DataPreprocessor.WaterSample.turbidity := turbidity;
     DataPreprocessor.WaterSample.coliformCount := coliformCount;
     DataPreprocessor.WaterSample.dissolvedOxygen := dissolvedOxygen;
     DataPreprocessor.WaterSample.isAnomaly := isAnomaly |}.

(** Two readings of region-1 and one of region-2 on the first day, one
    reading of region-1 on the second. *)
Definition four_samples : list DataPreprocessor.WaterSample.t :=
  [water_sample 0 "region-1" 7.1 2 10 8 false;
   water_sample 3600000 "region-2" 6.9 3 20 7 false;
   water_sample 7200000 "region-1" 7.3 12 400 5 true;
   water_sample 90000000 "region-1" 7.0 2 15 8 false].

(** Four buckets on the line [10 + 2 i]. *)
Definition rising : list Point.t :=
  [point 0 10; point 21600000 12; point 43200000 14; point 64800000 16].

(** An aggregate of [total] admissions of region-1, [severe] of them
    severe. *)
Definition bucket (timestamp total severe : Z) : DataPreprocessor.TimeBucket.t :=
  {| DataPreprocessor.TimeBucket.timestamp := timestamp;
     DataPreprocessor.TimeBucket.total := total;
     DataPreprocessor.TimeBucket.byDisease := {[ "Cholera"%string := total ]};
     DataPreprocessor.TimeBucket.byRegion := {[ "region-1"%string := total ]};
     DataPreprocessor.TimeBucket.bySeverity :=
       <[ "Severe"%string := severe ]> {[ "Mild"%string := (total - severe)%Z ]};
     DataPreprocessor.TimeBucket.avgAge := 30;
     DataPreprocessor.TimeBucket.anomalyCount := 0 |}.

(** Two days of six-hour aggregates: ten admissions each on the first day,
    twenty each on the second. *)
Definition surge : list DataPreprocessor.TimeBucket.t :=
  [bucket 0 10 1; bucket 21600000 10 1; bucket 43200000 10 1; bucket 64800000 10 1;
   bucket 86400000 20 2; bucket 108000000 20 2; bucket 129600000 20 2;
   bucket 151200000 20 2].

(** A host on UTC, a host five and a half hours ahead of it, and a host
    on Central European time in the night of 27 October 2024, when its
    offset goes from two hours to one at 01:00 UTC (03:00 on the local
    clock, which then reads 02:00 again). *)
Definition utc : JS.Zone.t := JS.Zone.fixed 0.
Definition ist : JS.Zone.t := JS.Zone.fixed 19800000.
Definition berlin : JS.Zone.t :=
  {| JS.Zone.at_instant := fun t => if (t <? 1729990800000)%Z then 7200000%Z else 3600000%Z;
     JS.Zone.at_wall := fun wall => if (wall <? 1729998000000)%Z then 7200000%Z else 3600000%Z |}.

(** An admission whose disease, and a water reading whose region, is named
    like a property that every object inherits. *)
Definition odd_admission : DataPreprocessor.Admission.t :=
  admission 0 "constructor" "Mild" "region-1" 30 false.


(** The first district of regions.js. *)
Definition central : Region.t :=
  {| Region.id := "region-1"; Region.name := "Central District";
     Region.center := (28.6139, 77.2090)%R;
     Region.population := 185000; Region.historicalRisk := 0.35 |}.

(** A detector sample, flagged or not. *)
Definition reading (timestamp : Z) (value zScore : R) (isAnomaly : bool)
  : AnomalyDetector.AnomalySample.t :=
  {| AnomalyDetector.AnomalySample.timestamp := timestamp;
     AnomalyDetector.AnomalySample.value := value;
     AnomalyDetector.AnomalySample.mean := 10;
     AnomalyDetector.AnomalySample.std := 2;
     AnomalyDetector.AnomalySample.zScore := zScore;
     AnomalyDetector.AnomalySample.isAnomaly := isAnomaly |}.

End Samples.

Module Samples64.

Import PrimFloat.
Local Open Scope float_scope.

(** region-1 of regions.js. *)
Definition central : Binary64.Region.t :=
  {| Binary64.Region.id := "region-1";
     Binary64.Region.name := "Central District";
     Binary64.Region.center := (28.6139, 77.2090);
     Binary64.Region.population := 185000;
     Binary64.Region.historicalRisk := 0.35 |}.

(** A six-hour bucket as [aggregateAdmissions] builds it from [count]
    severe cholera admissions of region-1. *)
Definition severe_bucket (timestamp count : Z) : DataPreprocessor.TimeBucket.t :=
  {| DataPreprocessor.TimeBucket.timestamp := timestamp;
     DataPreprocessor.TimeBucket.total := count;
     DataPreprocessor.TimeBucket.byDisease := {[ "Cholera"%string := count ]};
     DataPreprocessor.TimeBucket.byRegion := {[ "region-1"%string := count ]};
     DataPreprocessor.TimeBucket.bySeverity :=
       <[ "Severe"%string := count ]>
         (<[ "Moderate"%string := 0%Z ]> (<[ "Mild"%string := 0%Z ]> ∅));
     DataPreprocessor.TimeBucket.avgAge := 40%R;
     DataPreprocessor.TimeBucket.anomalyCount := 0 |}.

(** Five consecutive buckets with 8, 4, 2, 3 and 3 admissions, and the
    series of region-1 that [forecastAll] reads off them. *)
Definition five_buckets : list DataPreprocessor.TimeBucket.t :=
  [severe_bucket 0 8; severe_bucket 21600000 4; severe_bucket 43200000 2;
   severe_bucket 64800000 3; severe_bucket 86400000 3].

Definition five_values : list float := [8; 4; 2; 3; 3].

(** Three buckets that all hold 0.1, three that all hold 5, and three
    that rise. *)
Definition tenths : list float := [0.1; 0.1; 0.1].
Definition fives : list float := [5; 5; 5].
Definition rising : list float := [1; 2; 3].

End Samples64.

(** * Properties *)

(** ** Rounding and order *)

Section Rounding.

Local Open Scope R_scope.

Lemma Math_round_le x y : x <= y -> JS.Math_round x <= JS.Math_round y.
Proof.
  intros H. unfold JS.Math_round. apply IZR_le, Zfloor_le. lra.
Qed.

Lemma Math_round_IZR (k : Z) : JS.Math_round (IZR k) = IZR k.
Proof.
  unfold JS.Math_round. f_equal. apply Zfloor_eq. lra.
Qed.

(** A value half way between two integers goes up. *)
Lemma Math_round_half (k : Z) : JS.Math_round (IZR k + / 2) = IZR k + 1.
Proof.
  unfold JS.Math_round. rewrite <- plus_IZR. f_equal. apply Zfloor_eq.
  rewrite plus_IZR. lra.
Qed.

Lemma Math_round_nonneg x : 0 <= x -> 0 <= JS.Math_round x.
Proof.
  intros H. rewrite <- (Math_round_IZR 0). apply Math_round_le, H.
Qed.

Lemma Math_round_between (lo hi : Z) x :
  IZR lo <= x <= IZR hi -> IZR lo <= JS.Math_round x <= IZR hi.
Proof.
  intros [H1 H2]. rewrite <- (Math_round_IZR lo), <- (Math_round_IZR hi).
  split; apply Math_round_le; assumption.
Qed.

Lemma leb_true x y : JS.leb x y = true <-> x <= y.
Proof. unfold JS.leb. destruct (Rle_dec x y); split; intros; (congruence || lra). Qed.

Lemma ltb_true x y : JS.ltb x y = true <-> x < y.
Proof. unfold JS.ltb. destruct (Rlt_dec x y); split; intros; (congruence || lra). Qed.

Lemma eqb_true x y : JS.eqb x y = true <-> x = y.
Proof. unfold JS.eqb. destruct (Req_dec_T x y); split; intros; (congruence || lra). Qed.

Lemma leb_false x y : JS.leb x y = false <-> y < x.
Proof. unfold JS.leb. destruct (Rle_dec x y); split; intros; (congruence || lra). Qed.

Lemma ltb_false x y : JS.ltb x y = false <-> y <= x.
Proof. unfold JS.ltb. destruct (Rlt_dec x y); split; intros; (congruence || lra). Qed.

Lemma eqb_false x y : JS.eqb x y = false <-> x <> y.
Proof. unfold JS.eqb. destruct (Req_dec_T x y); split; intros; (congruence || lra). Qed.

End Rounding.

(** ** The order of binary64 numbers *)

Section FloatOrder.

Import PrimFloat.
Local Open Scope float_scope.

Ltac order_cases :=
  repeat match goal with
         | |- context [Z.compare ?a ?b] => destruct (Z.compare_spec a b)
         | H : context [Z.compare ?a ?b] |- _ => destruct (Z.compare_spec a b)
         | |- context [Pos.compare_cont Eq ?a ?b] =>
             change (Pos.compare_cont Eq a b) with (Pos.compare a b);
             destruct (Pos.compare_spec a b)
         | H : context [Pos.compare_cont Eq ?a ?b] |- _ =>
             change (Pos.compare_cont Eq a b) with (Pos.compare a b) in H;
             destruct (Pos.compare_spec a b)
         end;
  cbn in *; try congruence; try lia.

Ltac by_order_cases x y :=
  unfold SpecFloat.SFltb, SpecFloat.SFleb, SpecFloat.SFcompare;
  destruct x as [? | [|] | | [|] ? ?], y as [? | [|] | | [|] ? ?];
  cbn; try congruence; intros; order_cases.

Lemma SFleb_trans x y z :
  SpecFloat.SFleb x y = true -> SpecFloat.SFleb y z = true -> SpecFloat.SFleb x z = true.
Proof.
  unfold SpecFloat.SFleb, SpecFloat.SFcompare.
  destruct x as [? | [|] | | [|] ? ?], y as [? | [|] | | [|] ? ?],
           z as [? | [|] | | [|] ? ?];
    cbn; try congruence; intros; order_cases.
Qed.

Lemma SFltb_not_leb x y : SpecFloat.SFltb x y = true -> SpecFloat.SFleb y x = false.
Proof. by_order_cases x y. Qed.

Lemma SFnot_leb_ltb x y :
  SpecFloat.SFleb x x = true -> SpecFloat.SFleb y y = true ->
  SpecFloat.SFleb y x = false -> SpecFloat.SFltb x y = true.
Proof. by_order_cases x y. Qed.

Lemma SFleb_numbers x y :
  SpecFloat.SFleb x y = true -> SpecFloat.SFleb x x = true /\ SpecFloat.SFleb y y = true.
Proof. by_order_cases x y; split; order_cases. Qed.

(** [<=] is transitive, and on numbers that are not NaN [x < y] is the
    negation of [y <= x]. *)
Lemma float_leb_trans x y z : (x <=? y) = true -> (y <=? z) = true -> (x <=? z) = true.
Proof. rewrite !FloatAxioms.leb_spec. apply SFleb_trans. Qed.

Lemma float_ltb_not_leb x y : (x <? y) = true -> (y <=? x) = false.
Proof. rewrite FloatAxioms.ltb_spec, FloatAxioms.leb_spec. apply SFltb_not_leb. Qed.

Lemma float_not_leb_ltb c x y :
  (c <=? x) = true -> (y <=? y) = true -> (y <=? x) = false -> (x <? y) = true.
Proof.
  rewrite FloatAxioms.ltb_spec, !FloatAxioms.leb_spec. intros Hc Hy Hyx.
  apply SFnot_leb_ltb; [apply (SFleb_numbers _ _ Hc) | exact Hy | exact Hyx].
Qed.


End FloatOrder.

(** ** The water quality index *)

Section WaterQualityIndex.

Import DataPreprocessor.
Local Open Scope R_scope.

Lemma Math_max_le_r z x y : x <= y -> JS.Math_max z x <= JS.Math_max z y.
Proof. intros H. unfold JS.Math_max. apply Rle_max_compat_l, H. Qed.

Lemma Math_min_le_r z x y : x <= y -> JS.Math_min z x <= JS.Math_min z y.
Proof. intros H. unfold JS.Math_min. apply Rle_min_compat_l, H. Qed.

Lemma turbidityScore_antitone t1 t2 : t1 <= t2 -> turbidityScore t2 <= turbidityScore t1.
Proof. intros H. unfold turbidityScore. apply Math_max_le_r. lra. Qed.

Lemma coliformScore_antitone c1 c2 : c1 <= c2 -> coliformScore c2 <= coliformScore c1.
Proof. intros H. unfold coliformScore. apply Math_max_le_r. lra. Qed.

Lemma computeWQI_range p : 0 <= computeWQI p <= 100.
Proof.
  unfold computeWQI. cbv zeta.
  apply (Math_round_between 0 100).
  unfold JS.Math_max, JS.Math_min.
  split; [apply Rmax_l |].
  apply Rmax_lub; [lra | apply Rmin_l].
Qed.

Lemma coliformScore_saturates c : 200 <= c -> coliformScore c = 0.
Proof.
  intros H. unfold coliformScore, JS.Math_max. apply Rmax_left. lra.
Qed.

(** C9. With the other parameters fixed, [computeWQI] does not increase
    when turbidity increases, does not increase when the coliform count
    increases, lies in [0, 100], and a coliform count of 10000 brings the
    coliform sub-score to 0. *)
Theorem computeWQI_monotone_and_clamped (ph oxygen chlorine t1 t2 c1 c2 : R) :
  t1 <= t2 -> c1 <= c2 ->
  let wqi t c :=
    computeWQI {| pH := ph; turbidity := t; coliformCount := c;
                  dissolvedOxygen := oxygen; chlorineResidual := chlorine |} in
  wqi t2 c1 <= wqi t1 c1
  /\ wqi t1 c2 <= wqi t1 c1
  /\ 0 <= wqi t1 c1 <= 100
  /\ coliformScore 10000 = 0.
Proof.
  intros Ht Hc wqi.
  pose proof (turbidityScore_antitone t1 t2 Ht) as HT.
  pose proof (coliformScore_antitone c1 c2 Hc) as HC.
  repeat split.
  - unfold wqi, computeWQI; cbn [pH turbidity coliformCount dissolvedOxygen chlorineResidual].
    apply Math_round_le, Math_max_le_r, Math_min_le_r. lra.
  - unfold wqi, computeWQI; cbn [pH turbidity coliformCount dissolvedOxygen chlorineResidual].
    apply Math_round_le, Math_max_le_r, Math_min_le_r. lra.
  - apply computeWQI_range.
  - apply computeWQI_range.
  - apply coliformScore_saturates. lra.
Qed.

Lemma computeWQI_monotone_and_clamped_witness :
  1 <= 2 /\ 0 <= 10000 /\
  let wqi t c :=
    computeWQI {| pH := 7; turbidity := t; coliformCount := c;
                  dissolvedOxygen := 8; chlorineResidual := 0.5 |} in
  wqi 2 0 <= wqi 1 0
  /\ wqi 1 10000 <= wqi 1 0
  /\ 0 <= wqi 1 0 <= 100
  /\ coliformScore 10000 = 0.
Proof.
  split; [lra | split; [lra |]].
  apply (computeWQI_monotone_and_clamped 7 8 0.5 1 2 0 10000); lra.
Defined.

End WaterQualityIndex.

(** ** Risk tiers *)

Section RiskTiers.

Import RiskClassifier.
Local Open Scope R_scope.

(** In exact arithmetic the three products of the chain are 0.75, 0.4875
    and 0.275. *)
Lemma tier_cases s :
  (0.75 <= s /\ tier s = CRITICAL)
  \/ (0.4875 <= s < 0.75 /\ tier s = HIGH)
  \/ (0.275 <= s < 0.4875 /\ tier s = MODERATE)
  \/ (s < 0.275 /\ tier s = LOW).
Proof.
  unfold tier, JS.leb; cbn [RISK_LEVELS threshold].
  repeat destruct (Rle_dec _ _); [left | right; left | right; right; left | right; right; right];
    (split; [lra | reflexivity]).
Qed.

End RiskTiers.

Section RiskTiers64.

Import PrimFloat.
Import Binary64.RiskClassifier.
Local Open Scope float_scope.

(** The chain of [tier] with its three products computed: the second
    one, [0.75 * 0.65], is rounded up. *)
Lemma tier_chain s :
  tier s = if 0.75 <=? s then RiskClassifier.CRITICAL
           else if 0.48750000000000004 <=? s then RiskClassifier.HIGH
           else if 0.275 <=? s then RiskClassifier.MODERATE
           else RiskClassifier.LOW.
Proof. reflexivity. Qed.

(** C2, as the code has it.  The tier that [classifyRegion] assigns is
    decided by the unrounded composite score, each boundary belonging to
    the upper tier, at the cut points that the code computes in binary64:
    [1.00 * 0.75] is 0.75 and [0.50 * 0.55] is 0.275, but [0.75 * 0.65] is
    0.48750000000000004, the number next above 0.4875.  A score of exactly
    0.75 is Critical, one of 0.749999 is High, and one of exactly 0.4875
    is Moderate.  A score that is NaN, which is not at or above any cut
    point, is Low. *)
Theorem classifyRegion_tier_cut_points :
  (forall region admissionAgg waterAgg forecast,
      RiskClassification.riskLevel (classifyRegion region admissionAgg waterAgg forecast)
      = tier (compositeScore region admissionAgg waterAgg forecast))
  /\ threshold (RISK_LEVELS RiskClassifier.CRITICAL) * 0.75 = 0.75
  /\ threshold (RISK_LEVELS RiskClassifier.HIGH) * 0.65 = 0.48750000000000004
  /\ threshold (RISK_LEVELS RiskClassifier.MODERATE) * 0.55 = 0.275
  /\ next_up 0.4875 = 0.48750000000000004
  /\ (forall s,
        (tier s = RiskClassifier.CRITICAL <-> (0.75 <=? s) = true)
        /\ (tier s = RiskClassifier.HIGH
            <-> (0.48750000000000004 <=? s) = true /\ (s <? 0.75) = true)
        /\ (tier s = RiskClassifier.MODERATE
            <-> (0.275 <=? s) = true /\ (s <? 0.48750000000000004) = true)
        /\ (tier s = RiskClassifier.LOW <-> (0.275 <=? s) = false))
  /\ tier 0.75 = RiskClassifier.CRITICAL
  /\ tier 0.749999 = RiskClassifier.HIGH
  /\ tier 0.4875 = RiskClassifier.MODERATE.
Proof.
  split; [reflexivity |].
  do 4 (split; [reflexivity |]).
  split; [| repeat split].
  intros s. rewrite tier_chain.
  assert (H12 : (0.48750000000000004 <=? 0.75) = true) by reflexivity.
  assert (H23 : (0.275 <=? 0.48750000000000004) = true) by reflexivity.
  assert (N1 : (0.75 <=? 0.75) = true) by reflexivity.
  assert (N2 : (0.48750000000000004 <=? 0.48750000000000004) = true) by reflexivity.
  destruct (0.75 <=? s) eqn:E1.
  - pose proof (float_leb_trans 0.48750000000000004 0.75 s H12 E1) as E2.
    pose proof (float_leb_trans 0.275 0.48750000000000004 s H23 E2) as E3.
    repeat split; try discriminate; try reflexivity.
    + intros [_ H]. apply float_ltb_not_leb in H. congruence.
    + intros [_ H]. apply float_ltb_not_leb in H. congruence.
    + congruence.
  - destruct (0.48750000000000004 <=? s) eqn:E2.
    + pose proof (float_leb_trans 0.275 0.48750000000000004 s H23 E2) as E3.
      repeat split; try discriminate; try reflexivity.
      * apply (float_not_leb_ltb 0.48750000000000004 s 0.75 E2 N1 E1).
      * intros [_ H]. apply float_ltb_not_leb in H. congruence.
      * congruence.
    + destruct (0.275 <=? s) eqn:E3.
      * repeat split; try discriminate; try reflexivity.
        -- intros [H _]. discriminate.
        -- apply (float_not_leb_ltb 0.275 s 0.48750000000000004 E3 N2 E2).
      * repeat split; try discriminate; try reflexivity.
        -- intros [H _]. discriminate.
        -- intros [H _]. discriminate.
Qed.

(** C2 as the claim words it fails on a score of exactly 0.4875, which
    the pipeline can produce.  Region-1 with five buckets of 8, 4, 2, 3
    and 3 severe admissions, no water data and the forecast of that
    series (falling, by 3.5 a bucket) has the factors 1/6, 0.5, 1, 0.35,
    0.925 and 0.05, whose weighted sum the code computes to 0.4875: the
    claim puts the region in High, the code in Moderate. *)
Lemma classifyRegion_tier_cut_points_counterexample :
  let forecast := Binary64.Forecaster.forecast Binary64.Api.forecaster Samples64.five_values in
  let score := compositeScore Samples64.central Samples64.five_buckets [] (Some forecast) in
  let result := classifyRegion Samples64.central Samples64.five_buckets [] (Some forecast) in
  (exists r, forecast = Binary64.Forecaster.ForecastResult.Full r
             /\ Binary64.Forecaster.ForecastResult.trend r = "falling"%string
             /\ Binary64.Forecaster.ForecastResult.trendValue r = -3.5)
  /\ score = 0.4875
  /\ (0.4875 <=? score) = true
  /\ (score <? 0.75) = true
  /\ RiskClassification.riskLevel result = RiskClassifier.MODERATE
  /\ RiskClassification.riskLevel result <> RiskClassifier.HIGH
  /\ RiskClassification.riskScore result = 0.49.
Proof.
  cbv zeta.
  split; [eexists; split; [vm_compute; reflexivity | split; vm_compute; reflexivity] |].
  assert (E : compositeScore Samples64.central Samples64.five_buckets []
                (Some (Binary64.Forecaster.forecast Binary64.Api.forecaster
                         Samples64.five_values)) = 0.4875)
    by (vm_compute; reflexivity).
  split; [exact E |].
  assert (L : RiskClassification.riskLevel
                (classifyRegion Samples64.central Samples64.five_buckets []
                   (Some (Binary64.Forecaster.forecast Binary64.Api.forecaster
                            Samples64.five_values))) = RiskClassifier.MODERATE)
    by (vm_compute; reflexivity).
  rewrite E, L.
  repeat split; try reflexivity; try discriminate.
Qed.

End RiskTiers64.

(** ** The forecast *)

Section Forecast.

Import Forecaster.
Local Open Scope R_scope.

Lemma or_undef_nonzero x d : d <> 0 -> JS.or_undef x d <> 0.
Proof.
  intros Hd. destruct x as [v |]; cbn; [| exact Hd].
  unfold JS.or_num. destruct (JS.eqb v 0) eqn:E; [exact Hd |].
  apply eqb_false in E. exact E.
Qed.

(** The constructor never leaves a bucket width of zero. *)
Lemma new_bucketHours_nonzero options : bucketHours (new options) <> 0.
Proof. cbn. apply or_undef_nonzero. lra. Qed.

Lemma standardError_nonneg actual smoothed : 0 <= snd (_computeResiduals actual smoothed).
Proof. cbn. unfold JS.Math_sqrt. apply sqrt_pos. Qed.

Lemma round2_le x y : x <= y -> JS.Math_round (x * 100) / 100 <= JS.Math_round (y * 100) / 100.
Proof.
  intros H. apply Rmult_le_compat_r; [lra |]. apply Math_round_le. lra.
Qed.

Lemma predict_bounds f level trend standardError lastTimestamp step :
  0 <= standardError -> 0 <= step ->
  let p := predict f level trend standardError lastTimestamp step in
  Prediction.lower p <= Prediction.predicted p <= Prediction.upper p
  /\ 0 <= Prediction.lower p.
Proof.
  intros Hse Hstep p.
  assert (Hw : 0 <= standardError * (1.96 * JS.Math_sqrt step)).
  { apply Rmult_le_pos; [exact Hse |].
    apply Rmult_le_pos; [lra | apply sqrt_pos]. }
  set (w := standardError * (1.96 * JS.Math_sqrt step)) in *.
  set (v := JS.Math_max 0 (level + trend * step)).
  assert (Hv : 0 <= v) by apply Rmax_l.
  unfold p, predict; cbn [Prediction.lower Prediction.predicted Prediction.upper].
  fold v. fold w.
  repeat split.
  - apply round2_le. unfold JS.Math_max. apply Rmax_lub; lra.
  - apply round2_le. lra.
  - apply Rmult_le_pos; [| lra]. apply Math_round_nonneg.
    apply Rmult_le_pos; [apply Rmax_l | lra].
Qed.

Lemma steps_nonneg forecastSteps : Forall (fun step => 0 <= step) (steps forecastSteps).
Proof.
  unfold steps. apply Forall_forall. intros x Hx.
  rewrite list_elem_of_In, in_map_iff in Hx. destruct Hx as [k [<- _]]. apply pos_INR.
Qed.

Lemma forecast_long f series :
  (4 <= length series)%nat ->
  exists r, forecast f series = ForecastResult.Full r
            /\ ForecastResult.predictions r
               = map (predict f (level (_holtSmoothing f (map Point.value series)))
                        (trend (_holtSmoothing f (map Point.value series)))
                        (snd (_computeResiduals (map Point.value series)
                                (smoothed (_holtSmoothing f (map Point.value series)))))
                        (List.last (map Point.timestamp series) 0%Z))
                   (steps (Zceil (forecastHours f / bucketHours f))).
Proof.
  intros Hlen. unfold forecast.
  destruct (length series <? 4)%nat eqn:E.
  - apply Nat.ltb_lt in E. lia.
  - eexists. split; reflexivity.
Qed.

(** C4. A series of fewer than four points gets the explicit result of
    the short-series branch: no predictions, trend [insufficient_data];
    the function is total, no error path exists. *)
Theorem forecast_insufficient_data f series :
  (length series < 4)%nat ->
  forecast f series = ForecastResult.Insufficient
  /\ ForecastResult.predictions_of (forecast f series) = []
  /\ ForecastResult.trend_of (forecast f series) = "insufficient_data"%string.
Proof.
  intros Hlen. unfold forecast.
  apply Nat.ltb_lt in Hlen. rewrite Hlen. repeat split.
Qed.

(** C8. For a series of at least four points every prediction of
    [forecast] has [lower <= predicted <= upper] and [0 <= lower]. *)
Theorem forecast_bounds_ordered options series :
  (4 <= length series)%nat ->
  Forall (fun p => Prediction.lower p <= Prediction.predicted p <= Prediction.upper p
                   /\ 0 <= Prediction.lower p)
    (ForecastResult.predictions_of (forecast (new options) series)).
Proof.
  intros Hlen.
  destruct (forecast_long (new options) series Hlen) as [r [-> Hp]].
  cbn [ForecastResult.predictions_of]. rewrite Hp.
  rewrite List.Forall_map.
  eapply Forall_impl; [apply steps_nonneg |].
  intros step Hstep. apply predict_bounds; [apply standardError_nonneg | exact Hstep].
Qed.

Lemma default_forecastSteps :
  Zceil (forecastHours (new Samples.no_options) / bucketHours (new Samples.no_options)) = 8%Z.
Proof. cbn. apply Zceil_eq. lra. Qed.

(** With the default horizon of 48 hours and buckets of 6 hours there are
    eight predictions. *)
Lemma forecast_default_horizon series :
  (4 <= length series)%nat ->
  length (ForecastResult.predictions_of (forecast (new Samples.no_options) series)) = 8%nat.
Proof.
  intros Hlen.
  destruct (forecast_long (new Samples.no_options) series Hlen) as [r [-> Hp]].
  cbn [ForecastResult.predictions_of]. rewrite Hp, default_forecastSteps.
  reflexivity.
Qed.

Lemma forecast_insufficient_data_witness :
  (length Samples.short < 4)%nat
  /\ forecast (new Samples.no_options) Samples.short = ForecastResult.Insufficient
  /\ ForecastResult.predictions_of (forecast (new Samples.no_options) Samples.short) = []
  /\ ForecastResult.trend_of (forecast (new Samples.no_options) Samples.short)
     = "insufficient_data"%string.
Proof.
  split; [cbn; lia |].
  apply (forecast_insufficient_data (new Samples.no_options) Samples.short). cbn; lia.
Defined.

Lemma forecast_bounds_ordered_witness :
  (4 <= length (Samples.flat 10))%nat
  /\ Forall (fun p => Prediction.lower p <= Prediction.predicted p <= Prediction.upper p
                      /\ 0 <= Prediction.lower p)
       (ForecastResult.predictions_of (forecast (new Samples.no_options) (Samples.flat 10))).
Proof.
  split; [cbn; lia |].
  apply (forecast_bounds_ordered Samples.no_options (Samples.flat 10)). cbn; lia.
Defined.

(** *** Constant series *)














End Forecast.

Section Forecast64.

Import PrimFloat.
Local Open Scope float_scope.


End Forecast64.

(** ** Correlation *)

Section Correlation.

Import AnomalyDetector.
Local Open Scope R_scope.

Lemma div_some x y : y <> 0 -> div x y = Some (x / y).
Proof.
  intros Hy. unfold div. destruct (JS.eqb y 0) eqn:E; [| reflexivity].
  apply eqb_true in E. contradiction.
Qed.

Lemma INR_length_nonzero {A} (l : list A) : l <> [] -> INR (length l) <> 0.
Proof.
  intros Hl. destruct l as [| x l]; [contradiction |].
  apply not_0_INR. cbn. lia.
Qed.

Lemma _stats_nonempty values :
  values <> [] ->
  _stats values = Some {| mean := mean_of values; std := JS.Math_sqrt (variance_of values) |}.
Proof.
  intros Hne. unfold _stats.
  destruct (length values =? 0)%nat eqn:E.
  - apply Nat.eqb_eq in E. destruct values; [contradiction | discriminate].
  - rewrite div_some by (apply INR_length_nonzero, Hne).
    rewrite div_some by (apply INR_length_nonzero, Hne).
    reflexivity.
Qed.

(** [_stats] never divides by zero. *)
Lemma _stats_total values : exists st, _stats values = Some st.
Proof.
  destruct values as [| v values].
  - eexists. reflexivity.
  - eexists. apply _stats_nonempty. discriminate.
Qed.

Lemma divisor_nonzero (n : nat) sa sb :
  (3 <= n)%nat -> sa <> 0 -> sb <> 0 -> INR n * sa * sb <> 0.
Proof.
  intros Hn Ha Hb.
  assert (INR n <> 0) by (apply not_0_INR; lia).
  repeat apply Rmult_integral_contrapositive_currified; assumption.
Qed.

Lemma correlate_short seriesA seriesB :
  (Nat.min (length seriesA) (length seriesB) < 3)%nat ->
  correlate seriesA seriesB
  = Some {| correlation := 0; significance := "insufficient data" |}.
Proof.
  intros Hn. unfold correlate. apply Nat.ltb_lt in Hn. rewrite Hn. reflexivity.
Qed.

Lemma correlate_flat seriesA seriesB statsA statsB :
  (3 <= Nat.min (length seriesA) (length seriesB))%nat ->
  _stats (fst (paired seriesA seriesB)) = Some statsA ->
  _stats (snd (paired seriesA seriesB)) = Some statsB ->
  std statsA = 0 \/ std statsB = 0 ->
  correlate seriesA seriesB = Some {| correlation := 0; significance := "no variance" |}.
Proof.
  intros Hn HA HB Hzero. unfold correlate.
  destruct (_ <? 3)%nat eqn:E; [apply Nat.ltb_lt in E; lia |].
  cbn [paired fst snd] in HA, HB. rewrite HA, HB.
  destruct Hzero as [H | H]; apply eqb_true in H; rewrite H.
  - reflexivity.
  - rewrite orb_true_r. reflexivity.
Qed.

Lemma correlate_defined seriesA seriesB statsA statsB :
  (3 <= Nat.min (length seriesA) (length seriesB))%nat ->
  _stats (fst (paired seriesA seriesB)) = Some statsA ->
  _stats (snd (paired seriesA seriesB)) = Some statsB ->
  std statsA <> 0 -> std statsB <> 0 ->
  exists r,
    pearson (Nat.min (length seriesA) (length seriesB))
      (fst (paired seriesA seriesB)) (snd (paired seriesA seriesB)) statsA statsB = Some r
    /\ correlate seriesA seriesB
       = Some {| correlation := JS.Math_round (r * 1000) / 1000;
                 significance := bucket_of r |}.
Proof.
  intros Hn HA HB Ha Hb. unfold correlate.
  destruct (_ <? 3)%nat eqn:E; [apply Nat.ltb_lt in E; lia |].
  cbn [paired fst snd] in *. rewrite HA, HB.
  apply eqb_false in Ha, Hb. rewrite Ha, Hb. cbn [orb].
  apply eqb_false in Ha, Hb.
  unfold pearson. rewrite div_some by (apply divisor_nonzero; assumption).
  eexists. split; reflexivity.
Qed.

(** In exact arithmetic: with fewer than three paired samples
    [correlate] answers [insufficient data]; when either truncated series
    has standard deviation zero it answers correlation 0 and
    [no variance]; and no division it performs has a zero divisor. *)
Lemma correlate_degrades_exact seriesA seriesB :
  ((Nat.min (length seriesA) (length seriesB) < 3)%nat ->
   exists c, correlate seriesA seriesB = Some c
             /\ significance c = "insufficient data"%string)
  /\ ((3 <= Nat.min (length seriesA) (length seriesB))%nat ->
      forall statsA statsB,
        _stats (fst (paired seriesA seriesB)) = Some statsA ->
        _stats (snd (paired seriesA seriesB)) = Some statsB ->
        std statsA = 0 \/ std statsB = 0 ->
        correlate seriesA seriesB
        = Some {| correlation := 0; significance := "no variance" |})
  /\ (exists statsA statsB,
        _stats (fst (paired seriesA seriesB)) = Some statsA
        /\ _stats (snd (paired seriesA seriesB)) = Some statsB)
  /\ is_Some (correlate seriesA seriesB).
Proof.
  split; [| split; [| split]].
  - intros Hn. eexists. split; [apply correlate_short, Hn | reflexivity].
  - intros Hn statsA statsB. apply correlate_flat, Hn.
  - destruct (_stats_total (fst (paired seriesA seriesB))) as [sa Ha].
    destruct (_stats_total (snd (paired seriesA seriesB))) as [sb Hb].
    eauto.
  - destruct (le_lt_dec 3 (Nat.min (length seriesA) (length seriesB))) as [Hn | Hn].
    + destruct (_stats_total (fst (paired seriesA seriesB))) as [sa Ha].
      destruct (_stats_total (snd (paired seriesA seriesB))) as [sb Hb].
      destruct (Req_dec_T (std sa) 0) as [Za | Za].
      { erewrite correlate_flat; eauto. }
      destruct (Req_dec_T (std sb) 0) as [Zb | Zb].
      { erewrite correlate_flat; eauto. }
      destruct (correlate_defined seriesA seriesB sa sb Hn Ha Hb Za Zb) as [r [_ ->]].
      eauto.
    + rewrite correlate_short by exact Hn. eauto.
Qed.



(** *** The sample series *)

Lemma sample_paired :
  paired Samples.seriesA Samples.seriesB = ([0; 0; 0; 1], [0; 3; 6; 4]).
Proof. reflexivity. Qed.







Lemma sample_flat_stats : _stats [5; 5; 5] = Some {| mean := 5; std := 0 |}.
Proof.
  rewrite _stats_nonempty by discriminate.
  unfold variance_of, mean_of, JS.sum, JS.Math_sqrt. cbn [fold_left length].
  f_equal. f_equal; [simpl INR; lra |].
  transitivity (sqrt 0); [f_equal; simpl INR; field | apply sqrt_0].
Qed.



Example correlate_degrades_exact_sample :
  (exists c, correlate Samples.pair_only Samples.seriesB = Some c
             /\ significance c = "insufficient data"%string)
  /\ correlate Samples.level5 Samples.seriesB
     = Some {| correlation := 0; significance := "no variance" |}
  /\ is_Some (correlate Samples.seriesA Samples.seriesB).
Proof.
  split; [| split].
  - apply (proj1 (correlate_degrades_exact Samples.pair_only Samples.seriesB)). cbn; lia.
  - apply (proj1 (proj2 (correlate_degrades_exact Samples.level5 Samples.seriesB))
             ltac:(cbn; lia)
             {| mean := 5; std := 0 |}
             {| mean := mean_of [0; 3; 6]; std := JS.Math_sqrt (variance_of [0; 3; 6]) |}).
    + exact sample_flat_stats.
    + apply _stats_nonempty. discriminate.
    + left. reflexivity.
  - apply (proj2 (proj2 (proj2 (correlate_degrades_exact Samples.seriesA Samples.seriesB)))).
Qed.

End Correlation.

(** ** Correlation in binary64 *)

Section Correlation64.

Import PrimFloat.
Import Binary64.AnomalyDetector.
Local Open Scope float_scope.

Lemma correlate_too_short seriesA seriesB :
  (Nat.min (length seriesA) (length seriesB) < 3)%nat ->
  correlate seriesA seriesB = {| correlation := 0; significance := "insufficient data" |}.
Proof.
  intros Hn. unfold correlate.
  destruct (_ <? 3)%nat eqn:E; [reflexivity |].
  apply Nat.ltb_ge in E. lia.
Qed.

Lemma correlate_std_zero seriesA seriesB :
  let n := Nat.min (length seriesA) (length seriesB) in
  (3 <= n)%nat ->
  (std (_stats (firstn n seriesA)) =? 0) || (std (_stats (firstn n seriesB)) =? 0) = true ->
  correlate seriesA seriesB = {| correlation := 0; significance := "no variance" |}.
Proof.
  intros n Hn Hz. unfold correlate. fold n.
  destruct (n <? 3)%nat eqn:E; [apply Nat.ltb_lt in E; lia |].
  rewrite Hz. reflexivity.
Qed.

(** C6, as the code has it.  With fewer than three paired samples
    [correlate] answers [insufficient data], and when the standard
    deviation that [_stats] computes for either truncated series is 0 it
    answers correlation 0 and [no variance], as for three buckets of 5.
    But the standard deviation that [_stats] computes for a series
    without variance need not be 0: three buckets of 0.1 add up to
    0.30000000000000004, their mean is 0.10000000000000002 and their
    standard deviation [2^-56].  The test [std === 0] then fails and the
    division is carried out: against a rising series the answer is
    correlation 0 and [negligible], and against itself correlation 1 and
    [strong]. *)
Theorem correlate_flat_series_undetected :
  (forall seriesA seriesB,
      (Nat.min (length seriesA) (length seriesB) < 3)%nat ->
      correlate seriesA seriesB
      = {| correlation := 0; significance := "insufficient data" |})
  /\ (forall seriesA seriesB,
        let n := Nat.min (length seriesA) (length seriesB) in
        (3 <= n)%nat ->
        (std (_stats (firstn n seriesA)) =? 0) || (std (_stats (firstn n seriesB)) =? 0) = true ->
        correlate seriesA seriesB = {| correlation := 0; significance := "no variance" |})
  /\ correlate Samples64.fives Samples64.rising
     = {| correlation := 0; significance := "no variance" |}
  /\ Forall (fun v => v = 0.1) Samples64.tenths
  /\ _stats Samples64.tenths
     = {| mean := 0.10000000000000002; std := 1.3877787807814457e-17 |}
  /\ (std (_stats Samples64.tenths) =? 0) = false
  /\ correlate Samples64.rising Samples64.tenths
     = {| correlation := 0; significance := "negligible" |}
  /\ correlate Samples64.tenths Samples64.tenths
     = {| correlation := 1; significance := "strong" |}.
Proof.
  split; [exact correlate_too_short |].
  split; [exact correlate_std_zero |].
  split; [reflexivity |].
  split; [repeat constructor |].
  repeat split; reflexivity.
Qed.

End Correlation64.

(** ** Sorting *)

Section Sorting.

Context {A : Type}.

Lemma sort_insert_Permutation (after : A -> A -> bool) x l :
  Permutation (JS.sort_insert after x l) (x :: l).
Proof.
  induction l as [| y l IH]; cbn; [reflexivity |].
  destruct (after x y); [| reflexivity].
  rewrite IH. apply perm_swap.
Qed.

Lemma sort_Permutation (after : A -> A -> bool) l : Permutation (JS.sort after l) l.
Proof.
  induction l as [| x l IH]; cbn; [reflexivity |].
  rewrite sort_insert_Permutation, IH. reflexivity.
Qed.

Variable key : A -> Z.
Variables lo hi : Z.
Hypothesis lo_lt_hi : (lo < hi)%Z.

Let after (a b : A) : bool := (0 <? key a - key b)%Z.

Lemma sort_insert_lo x l :
  key x = lo -> Forall (fun y => key y = lo \/ key y = hi) l ->
  JS.sort_insert after x l = x :: l.
Proof.
  intros Hx Hl. destruct Hl as [| y l Hy _]; [reflexivity |].
  cbn. unfold after. rewrite Hx.
  destruct (Z.ltb_spec 0 (lo - key y)); [lia | reflexivity].
Qed.

Lemma sort_insert_hi x (los his : list A) :
  key x = hi ->
  Forall (fun y => key y = lo) los -> Forall (fun y => key y = hi) his ->
  JS.sort_insert after x (los ++ his) = los ++ x :: his.
Proof.
  intros Hx Hlos Hhis. induction Hlos as [| y los Hy _ IH]; cbn.
  - destruct Hhis as [| y his Hy _]; [reflexivity |].
    cbn. unfold after. rewrite Hx, Hy.
    destruct (Z.ltb_spec 0 (hi - hi)); [lia | reflexivity].
  - unfold after at 1. rewrite Hx, Hy.
    destruct (Z.ltb_spec 0 (hi - lo)); [| lia]. rewrite IH. reflexivity.
Qed.

(** A stable sort on a key with two values puts the low block first and
    keeps the order inside each block. *)
Lemma sort_two_keys l :
  Forall (fun y => key y = lo \/ key y = hi) l ->
  JS.sort after l
  = List.filter (fun y => (key y =? lo)%Z) l ++ List.filter (fun y => (key y =? hi)%Z) l.
Proof.
  induction 1 as [| x l Hx Hl IH]; [reflexivity |].
  cbn [JS.sort List.filter]. rewrite IH.
  destruct Hx as [Hx | Hx]; rewrite Hx.
  - rewrite Z.eqb_refl. destruct (Z.eqb_spec lo hi); [lia |].
    apply sort_insert_lo; [exact Hx |].
    apply Forall_app. split; apply Forall_forall; intros y Hy;
      rewrite list_elem_of_In, filter_In in Hy; destruct Hy as [_ Hy];
      apply Z.eqb_eq in Hy; auto.
  - rewrite Z.eqb_refl. destruct (Z.eqb_spec hi lo); [lia |].
    apply sort_insert_hi; [exact Hx | |]; apply Forall_forall; intros y Hy;
      rewrite list_elem_of_In, filter_In in Hy; destruct Hy as [_ Hy];
      apply Z.eqb_eq in Hy; auto.
Qed.

End Sorting.

(** ** Alerts *)

Section Alerts.

Import RiskClassifier.

Lemma risk_alert_severity now rc :
  Forall (fun a => Alert.severity a = "critical"%string \/ Alert.severity a = "high"%string)
    (risk_alert now rc).
Proof.
  unfold risk_alert.
  destruct (RiskClassification.riskLevel rc);
    [constructor | constructor
     | constructor; [right; reflexivity | constructor]
     | constructor; [left; reflexivity | constructor]].
Qed.

Lemma anomaly_alert_severity anomaly :
  Alert.severity (anomaly_alert anomaly) = "critical"%string
  \/ Alert.severity (anomaly_alert anomaly) = "high"%string.
Proof.
  unfold anomaly_alert; cbn [Alert.severity]. destruct (JS.ltb _ _); auto.
Qed.

(** The alert generator only ever emits the severities [critical] and [high]. *)
Lemma collect_alerts_severity now riskClassifications anomalies :
  Forall (fun a => Alert.severity a = "critical"%string \/ Alert.severity a = "high"%string)
    (collect_alerts now riskClassifications anomalies).
Proof.
  unfold collect_alerts. repeat apply Forall_app_2.
  - apply Forall_concat, List.Forall_map, Forall_forall. intros rc _.
    apply risk_alert_severity.
  - destruct anomalies as [[[overall |] ? ?] |]; try constructor.
    apply List.Forall_map, Forall_forall. intros a _. apply anomaly_alert_severity.
  - destruct anomalies as [[? [byDisease |] ?] |]; try constructor.
    apply Forall_concat, List.Forall_map, Forall_forall. intros [disease data] _.
    apply List.Forall_map, Forall_forall. intros a _. right. reflexivity.
Qed.

Lemma sort_key_values severity :
  (severity = "critical"%string \/ severity = "high"%string) ->
  sort_key severity = 1%Z \/ sort_key severity = 3%Z.
Proof. intros [-> | ->]; [right | left]; reflexivity. Qed.

(** What the sort of [generateAlerts] does on every input: the key of
    [critical] is [0 || 3 = 3], the key of [high] is 1, so every [high]
    alert is placed before every [critical] one. *)
Lemma generateAlerts_high_first now riskClassifications anomalies :
  generateAlerts now riskClassifications anomalies
  = List.filter (fun a => (sort_key (Alert.severity a) =? 1)%Z)
      (collect_alerts now riskClassifications anomalies)
    ++ List.filter (fun a => (sort_key (Alert.severity a) =? 3)%Z)
         (collect_alerts now riskClassifications anomalies).
Proof.
  unfold generateAlerts.
  apply (sort_two_keys (fun a => sort_key (Alert.severity a)) 1 3); [lia |].
  eapply Forall_impl; [apply collect_alerts_severity |].
  intros a Ha. apply sort_key_values, Ha.
Qed.

(** C1, at the failing input.  For a Critical region followed by a High
    region the generator returns the [high] alert before the [critical]
    one. *)
Theorem generateAlerts_critical_after_high :
  map Alert.severity (generateAlerts 0 Samples.two_regions None)
  = ["high"; "critical"]%string
  /\ map Alert.id (generateAlerts 0 Samples.two_regions None)
     = [[JS.Txt "ALERT-HIGH-"; JS.Txt "region-2"];
        [JS.Txt "ALERT-CRIT-"; JS.Txt "region-1"]]
  /\ sort_key "critical" = 3%Z
  /\ sort_key "high" = 1%Z.
Proof. repeat split. Qed.

End Alerts.

(** ** Aggregation *)

Section Aggregation.

Import DataPreprocessor Spec.

Lemma or_count_zero x : JS.or_count x 0 = x.
Proof. unfold JS.or_count. destruct (Z.eqb_spec x 0); congruence. Qed.

Lemma map_total_empty : map_total ∅ = 0%Z.
Proof. unfold map_total. apply map_fold_empty. Qed.

Lemma map_total_insert_fresh (m : gmap string Z) k v :
  m !! k = None -> map_total (<[k := v]> m) = (v + map_total m)%Z.
Proof.
  intros Hk. unfold map_total.
  rewrite map_fold_insert_L; [reflexivity | intros; lia | exact Hk].
Qed.

Lemma map_total_insert_over (m : gmap string Z) k v0 v :
  m !! k = Some v0 -> map_total (<[k := v]> m) = (v - v0 + map_total m)%Z.
Proof.
  intros Hk.
  rewrite <- (insert_delete_eq m k v).
  rewrite map_total_insert_fresh by apply lookup_delete_eq.
  rewrite <- (insert_id m k v0 Hk) at 2.
  rewrite <- (insert_delete_eq m k v0).
  rewrite map_total_insert_fresh by apply lookup_delete_eq.
  lia.
Qed.

Lemma lookup_counts (m : gmap string entry) k :
  counts m !! k = match m !! k with Some (Count n) => Some n | _ => None end.
Proof.
  unfold counts. rewrite lookup_omap. destruct (m !! k) as [[n | name ones] |]; reflexivity.
Qed.

Lemma counts_insert_Count (m : gmap string entry) k n :
  counts (<[k := Count n]> m) = <[k := n]> (counts m).
Proof. unfold counts. apply omap_insert_Some. reflexivity. Qed.

Lemma counts_insert_Text (m : gmap string entry) k name ones :
  counts (<[k := Text name ones]> m) = delete k (counts m).
Proof. unfold counts. apply omap_insert_None. reflexivity. Qed.

(** On a key that names no inherited property, and on an object of counts,
    the loop body counts. *)
Lemma bump_plain k m :
  JS.inherited k = false -> all_counts m ->
  all_counts (bump k m)
  /\ counts (bump k m) = <[k := (JS.or_count (default 0%Z (counts m !! k)) 0 + 1)%Z]> (counts m).
Proof.
  intros Hk Hm. unfold bump. rewrite lookup_counts.
  destruct (m !! k) as [[n | name ones] |] eqn:E.
  - split; [| apply counts_insert_Count].
    apply map_Forall_insert_2; [eauto | exact Hm].
  - destruct (Hm k _ E) as [n Hn]. discriminate.
  - rewrite Hk. split; [| apply counts_insert_Count].
    apply map_Forall_insert_2; [eauto | exact Hm].
Qed.

Lemma map_total_bump k m :
  JS.inherited k = false -> all_counts m ->
  map_total (counts (bump k m)) = (map_total (counts m) + 1)%Z.
Proof.
  intros Hk Hm. rewrite (proj2 (bump_plain k m Hk Hm)), or_count_zero.
  destruct (counts m !! k) as [v0 |] eqn:E; cbn.
  - rewrite (map_total_insert_over (counts m) k v0) by exact E. lia.
  - rewrite map_total_insert_fresh by exact E. lia.
Qed.

(** Whatever the key is, no count becomes negative. *)
Lemma counts_nonneg_bump k m :
  counts_nonneg (counts m) -> counts_nonneg (counts (bump k m)).
Proof.
  intros Hm. unfold bump, counts_nonneg.
  destruct (m !! k) as [[n | name ones] |] eqn:E.
  - rewrite counts_insert_Count. apply map_Forall_insert_2; [| exact Hm].
    assert (Hn : (0 <= n)%Z).
    { apply (Hm k n). rewrite lookup_counts, E. reflexivity. }
    rewrite or_count_zero. lia.
  - rewrite counts_insert_Text. apply map_Forall_delete, Hm.
  - destruct (JS.inherited k).
    + destruct (String.eqb k "__proto__"); [exact Hm |].
      rewrite counts_insert_Text. apply map_Forall_delete, Hm.
    + rewrite counts_insert_Count. apply map_Forall_insert_2; [lia | exact Hm].
Qed.

Lemma severity_init_counts :
  counts severity_init
  = <["Mild" := 0%Z]> (<["Moderate" := 0%Z]> (<["Severe" := 0%Z]> ∅)).
Proof.
  unfold severity_init. rewrite !counts_insert_Count. unfold counts.
  rewrite omap_empty. reflexivity.
Qed.

Lemma severity_init_total : map_total (counts severity_init) = 0%Z.
Proof.
  rewrite severity_init_counts.
  rewrite !map_total_insert_fresh, map_total_empty; try reflexivity.
  all: by simplify_map_eq.
Qed.

Lemma severity_init_nonneg : counts_nonneg (counts severity_init).
Proof.
  rewrite severity_init_counts. unfold counts_nonneg.
  repeat (apply map_Forall_insert_2; [lia |]). apply map_Forall_empty.
Qed.

Lemma severity_init_all_counts : all_counts severity_init.
Proof.
  unfold severity_init, all_counts.
  repeat (apply map_Forall_insert_2; [eauto |]). apply map_Forall_empty.
Qed.

Lemma counts_empty : counts ∅ = ∅.
Proof. unfold counts. apply omap_empty. Qed.

Lemma breakdowns_fold records : forall d r s,
  let '(d', r', s') :=
    fold_left
      (fun '(byDisease, byRegion, bySeverity) x =>
         (bump (Admission.disease x) byDisease,
          bump (Admission.regionId x) byRegion,
          bump (Admission.severity x) bySeverity))
      records (d, r, s) in
  (counts_nonneg (counts d) -> counts_nonneg (counts d'))
  /\ (counts_nonneg (counts r) -> counts_nonneg (counts r'))
  /\ (counts_nonneg (counts s) -> counts_nonneg (counts s'))
  /\ (Forall plain_admission records -> all_counts d -> all_counts r -> all_counts s ->
      map_total (counts d') = (map_total (counts d) + Z.of_nat (length records))%Z
      /\ map_total (counts r') = (map_total (counts r) + Z.of_nat (length records))%Z
      /\ map_total (counts s') = (map_total (counts s) + Z.of_nat (length records))%Z).
Proof.
  induction records as [| x records IH]; intros d r s.
  - cbn. repeat split; (lia || auto).
  - cbn [fold_left length].
    specialize (IH (bump (Admission.disease x) d) (bump (Admission.regionId x) r)
                  (bump (Admission.severity x) s)).
    destruct (fold_left _ records _) as [[d' r'] s'].
    destruct IH as (Nd & Nr & Ns & Htot).
    split; [intros H; apply Nd, counts_nonneg_bump, H |].
    split; [intros H; apply Nr, counts_nonneg_bump, H |].
    split; [intros H; apply Ns, counts_nonneg_bump, H |].
    intros Hplain Hd Hr Hs.
    apply Forall_cons in Hplain as [(Pd & Pr & Ps) Hplain].
    destruct (Htot Hplain) as (Td & Tr & Ts);
      try (apply bump_plain; assumption).
    rewrite map_total_bump in Td, Tr, Ts by assumption.
    repeat split; lia.
Qed.

Lemma breakdowns_totals records :
  let '(d, r, s) := breakdowns records in
  counts_nonneg (counts d) /\ counts_nonneg (counts r) /\ counts_nonneg (counts s)
  /\ (Forall plain_admission records ->
      map_total (counts d) = Z.of_nat (length records)
      /\ map_total (counts r) = Z.of_nat (length records)
      /\ map_total (counts s) = Z.of_nat (length records)).
Proof.
  unfold breakdowns.
  pose proof (breakdowns_fold records ∅ ∅ severity_init) as H.
  destruct (fold_left _ records _) as [[d r] s].
  destruct H as (Nd & Nr & Ns & Htot).
  split; [apply Nd; rewrite counts_empty; apply map_Forall_empty |].
  split; [apply Nr; rewrite counts_empty; apply map_Forall_empty |].
  split; [apply Ns, severity_init_nonneg |].
  intros Hplain.
  destruct (Htot Hplain) as (Td & Tr & Ts);
    try apply map_Forall_empty; try apply severity_init_all_counts.
  rewrite counts_empty, map_total_empty in Td, Tr. rewrite severity_init_total in Ts.
  repeat split; lia.
Qed.

Lemma sumZ_acc l : forall a, fold_left Z.add l a = (a + JS.sumZ l)%Z.
Proof.
  unfold JS.sumZ. induction l as [| x l IH]; intros a; cbn; [lia |].
  rewrite IH, (IH (0 + x)%Z). lia.
Qed.

Lemma sumZ_cons x l : JS.sumZ (x :: l) = (x + JS.sumZ l)%Z.
Proof. unfold JS.sumZ at 1. cbn. rewrite sumZ_acc. lia. Qed.

Lemma sumZ_Permutation l l' : Permutation l l' -> JS.sumZ l = JS.sumZ l'.
Proof.
  induction 1; rewrite ?sumZ_cons; lia.
Qed.

Section Grouping.

Context {A : Type} (timestamp : A -> Z) (tz : JS.Zone.t) (bucketHours : Z).
Hypothesis width_nonzero : bucketHours <> 0%Z.

Lemma bucketStart_defined ts : exists key, bucketStart tz bucketHours ts = Some key.
Proof.
  unfold bucketStart. destruct (Z.eqb_spec bucketHours 0); [contradiction | eauto].
Qed.

Lemma members_snoc_same key done r :
  bucketStart tz bucketHours (timestamp r) = Some key ->
  members timestamp tz bucketHours key (done ++ [r])
  = members timestamp tz bucketHours key done ++ [r].
Proof.
  intros Hkey. unfold members. rewrite filter_app. f_equal.
  rewrite filter_cons_True by exact Hkey. reflexivity.
Qed.

Lemma members_snoc_other key k done r :
  bucketStart tz bucketHours (timestamp r) = Some key -> k <> key ->
  members timestamp tz bucketHours k (done ++ [r]) = members timestamp tz bucketHours k done.
Proof.
  intros Hkey Hk. unfold members. rewrite filter_app.
  rewrite (filter_cons_False _ r) by (rewrite Hkey; congruence).
  apply app_nil_r.
Qed.

Lemma push_keys key (r : A) buckets :
  map fst (bucket_push key r buckets)
  = if in_dec Z.eq_dec key (map fst buckets) then map fst buckets
    else map fst buckets ++ [key].
Proof.
  induction buckets as [| [k rs] rest IH]; cbn [bucket_push map fst].
  - destruct (in_dec _ _ _) as [[] | _]. reflexivity.
  - destruct (Z.eqb_spec k key) as [-> | Hne]; cbn [map fst].
    + destruct (in_dec Z.eq_dec key (key :: map fst rest)) as [_ | H];
        [reflexivity | exfalso; apply H; left; reflexivity].
    + rewrite IH. destruct (in_dec Z.eq_dec key (map fst rest)) as [H | H];
        destruct (in_dec Z.eq_dec key (k :: map fst rest)) as [H' | H'];
        try reflexivity; exfalso.
      * apply H'. right. exact H.
      * destruct H' as [E | E]; [congruence | contradiction].
Qed.

Lemma push_lengths key (r : A) buckets :
  JS.sumZ (map (fun b => Z.of_nat (length (snd b))) (bucket_push key r buckets))
  = (JS.sumZ (map (fun b => Z.of_nat (length (snd b))) buckets) + 1)%Z.
Proof.
  induction buckets as [| [k rs] rest IH]; cbn [bucket_push].
  - reflexivity.
  - destruct (Z.eqb_spec k key); cbn [map snd]; rewrite !sumZ_cons.
    + rewrite length_app. cbn [length]. lia.
    + rewrite IH. lia.
Qed.

Lemma push_members key r done buckets :
  bucketStart tz bucketHours (timestamp r) = Some key ->
  NoDup (map fst buckets) ->
  (~ In key (map fst buckets) -> members timestamp tz bucketHours key done = []) ->
  Forall (fun b => snd b = members timestamp tz bucketHours (fst b) done /\ snd b <> [])
    buckets ->
  Forall (fun b => snd b = members timestamp tz bucketHours (fst b) (done ++ [r])
                   /\ snd b <> [])
    (bucket_push key r buckets).
Proof.
  intros Hkey. induction buckets as [| [k rs] rest IH]; intros Hnd Hfresh Hall; cbn.
  - constructor; [| constructor]. cbn.
    rewrite (members_snoc_same key) by exact Hkey.
    rewrite Hfresh by (intros []). split; [reflexivity | discriminate].
  - apply NoDup_cons in Hnd as [Hk Hnd]. apply Forall_cons in Hall as [[Hrs Hne] Hall].
    cbn in Hrs, Hne, Hk.
    destruct (Z.eqb_spec k key) as [-> | Hdiff].
    + constructor.
      * cbn. rewrite (members_snoc_same key) by exact Hkey.
        split; [rewrite Hrs; reflexivity |].
        intros E. apply app_eq_nil in E as [_ E]. discriminate.
      * apply Forall_forall. intros b Hb.
        rewrite Forall_forall in Hall. destruct (Hall b Hb) as [Hb1 Hb2].
        split; [| exact Hb2].
        rewrite (members_snoc_other key) ; [exact Hb1 | exact Hkey |].
        intros E. apply Hk. rewrite <- E. rewrite list_elem_of_In. apply in_map.
        apply list_elem_of_In, Hb.
    + constructor.
      * cbn. rewrite (members_snoc_other key) by assumption. split; assumption.
      * apply IH; [exact Hnd | | exact Hall].
        intros Hnot. apply Hfresh. cbn. intros [E | E]; [congruence | contradiction].
Qed.

Lemma grouped_nil : grouped timestamp tz bucketHours [] [].
Proof.
  unfold grouped. cbn. repeat split; constructor.
Qed.

Lemma members_absent key done (buckets : list (Z * list A)) :
  Forall (fun r => exists k, bucketStart tz bucketHours (timestamp r) = Some k
                             /\ In k (map fst buckets)) done ->
  ~ In key (map fst buckets) ->
  members timestamp tz bucketHours key done = [].
Proof.
  intros Hcov Hnot. unfold members.
  induction Hcov as [| r done [k [Hk Hin]] _ IH]; [reflexivity |].
  rewrite filter_cons_False; [exact IH |].
  rewrite Hk. intros E. injection E as ->. contradiction.
Qed.

Lemma push_grouped key r done buckets :
  bucketStart tz bucketHours (timestamp r) = Some key ->
  grouped timestamp tz bucketHours buckets done ->
  grouped timestamp tz bucketHours (bucket_push key r buckets) (done ++ [r]).
Proof.
  intros Hkey (Hnd & Hmem & Hcov & Hsum).
  assert (Hin : In key (map fst (bucket_push key r buckets))).
  { rewrite push_keys. destruct (in_dec _ _ _);
      [assumption | apply in_or_app; right; left; reflexivity]. }
  assert (Hsub : forall k, In k (map fst buckets) -> In k (map fst (bucket_push key r buckets))).
  { intros k Hk. rewrite push_keys. destruct (in_dec _ _ _);
      [assumption | apply in_or_app; auto]. }
  unfold grouped. repeat split.
  - rewrite push_keys. destruct (in_dec _ _ _) as [H | H]; [exact Hnd |].
    apply NoDup_app. repeat split; [exact Hnd | | apply NoDup_singleton].
    intros k Hk Hk'. apply list_elem_of_singleton in Hk'. subst k.
    apply H. apply list_elem_of_In, Hk.
  - apply push_members; try assumption.
    intros Hnot. eapply members_absent; eassumption.
  - apply Forall_app. split.
    + eapply Forall_impl; [exact Hcov |]. intros x [k [Hk1 Hk2]]. eauto.
    + constructor; [eauto | constructor].
  - rewrite push_lengths, Hsum, length_app. cbn. lia.
Qed.

Lemma timeBucket_loop_grouped records : forall buckets done,
  grouped timestamp tz bucketHours buckets done ->
  exists buckets',
    timeBucket_loop timestamp tz bucketHours records buckets = Some buckets'
    /\ grouped timestamp tz bucketHours buckets' (done ++ records).
Proof.
  induction records as [| r records IH]; intros buckets done Hg; cbn.
  - exists buckets. rewrite app_nil_r. auto.
  - destruct (bucketStart_defined (timestamp r)) as [key Hkey]. rewrite Hkey.
    destruct (IH _ _ (push_grouped key r done buckets Hkey Hg)) as [buckets' [H1 H2]].
    exists buckets'. rewrite <- app_assoc in H2. auto.
Qed.

Lemma timeBucket_grouped records :
  exists buckets,
    timeBucket timestamp tz records bucketHours = Some buckets
    /\ grouped timestamp tz bucketHours buckets records.
Proof.
  apply (timeBucket_loop_grouped records [] []), grouped_nil.
Qed.

End Grouping.


Lemma members_plain {A} (P : A -> Prop) (timestamp : A -> Z) tz bucketHours key records :
  Forall P records -> Forall P (members timestamp tz bucketHours key records).
Proof.
  intros H. apply Forall_forall. intros r Hr.
  unfold members in Hr. apply list_elem_of_filter in Hr as [_ Hr].
  rewrite Forall_forall in H. apply H, Hr.
Qed.

Lemma aggregate_bucket_consistent tz bucketHours admissions key records :
  records = members Admission.timestamp tz bucketHours key admissions ->
  records <> [] ->
  bucket_counted tz bucketHours admissions (aggregate_bucket key records)
  /\ (Forall plain_admission admissions ->
      bucket_consistent tz bucketHours admissions (aggregate_bucket key records))
  /\ TimeBucket.timestamp (aggregate_bucket key records) = key
  /\ TimeBucket.total (aggregate_bucket key records) = Z.of_nat (length records).
Proof.
  intros Hrec Hne. unfold aggregate_bucket, bucket_consistent, bucket_counted.
  pose proof (breakdowns_totals records) as H.
  destruct (breakdowns records) as [[d r] s].
  destruct H as (Nd & Nr & Ns & Htot).
  cbn [TimeBucket.timestamp TimeBucket.total TimeBucket.byDisease TimeBucket.byRegion
         TimeBucket.bySeverity TimeBucket.anomalyCount].
  rewrite <- Hrec.
  assert (Hpos : (0 < Z.of_nat (length records))%Z).
  { destruct records; [contradiction | cbn [length]; lia]. }
  split; [repeat split; try assumption; lia |].
  split; [| split; reflexivity].
  intros Hplain.
  destruct Htot as (Td & Tr & Ts).
  { rewrite Hrec. apply members_plain, Hplain. }
  repeat split; try assumption; lia.
Qed.

(** C10, under the condition it needs.  For a non-zero bucket width
    [aggregateAdmissions] returns, and in what it returns, whatever the
    records are: the total of a bucket is the number of input records that
    fall in it, no count is negative, the bucket starts are distinct and
    every record has its bucket, so that the totals add up to the number of
    input records.  When no record has a disease, a region or a severity
    that is named like an inherited property, the values of [byDisease], of
    [byRegion] and of [bySeverity] each sum to the total of their bucket. *)
Theorem aggregateAdmissions_counts tz bucketHours admissions :
  bucketHours <> 0%Z ->
  exists buckets,
    aggregateAdmissions tz admissions bucketHours = Some buckets
    /\ Forall (bucket_counted tz bucketHours admissions) buckets
    /\ NoDup (map TimeBucket.timestamp buckets)
    /\ Forall (fun r => exists key,
                   bucketStart tz bucketHours (Admission.timestamp r) = Some key
                   /\ In key (map TimeBucket.timestamp buckets)) admissions
    /\ JS.sumZ (map TimeBucket.total buckets) = Z.of_nat (length admissions)
    /\ (Forall plain_admission admissions ->
        Forall (bucket_consistent tz bucketHours admissions) buckets).
Proof.
  intros Hw.
  destruct (timeBucket_grouped Admission.timestamp tz bucketHours Hw admissions)
    as [grouping [Htb (Hnd & Hmem & Hcov & Hsum)]].
  unfold aggregateAdmissions. rewrite Htb.
  set (after := fun a b => (0 <? TimeBucket.timestamp a - TimeBucket.timestamp b)%Z).
  set (raw := map (fun '(timestamp, records) => aggregate_bucket timestamp records) grouping).
  assert (Hraw : Forall (fun b => bucket_counted tz bucketHours admissions b) raw
                 /\ (Forall plain_admission admissions ->
                     Forall (fun b => bucket_consistent tz bucketHours admissions b) raw)
                 /\ map TimeBucket.timestamp raw = map fst grouping
                 /\ map TimeBucket.total raw
                    = map (fun b => Z.of_nat (length (snd b))) grouping).
  { subst raw. clear Hnd Hcov Hsum Htb.
    induction Hmem as [| [key records] grouping [H1 H2] _ IH]; cbn [map].
    - repeat split; constructor.
    - cbn [fst snd] in H1, H2.
      destruct (aggregate_bucket_consistent tz bucketHours admissions key records H1 H2)
        as (Hc & Hp & Ht & Hn).
      destruct IH as (IH1 & IHp & IH2 & IH3).
      split; [constructor; assumption |].
      split; [intros Hplain; constructor; [apply Hp, Hplain | apply IHp, Hplain] |].
      split; cbn [fst snd]; congruence. }
  destruct Hraw as (Hc & Hp & Hts & Htot).
  pose proof (sort_Permutation after raw) as Hperm.
  exists (JS.sort after raw). split; [reflexivity |].
  split; [eapply Permutation_Forall; [symmetry; exact Hperm | exact Hc] |].
  split; [rewrite (Permutation_map TimeBucket.timestamp Hperm), Hts; exact Hnd |].
  split; [| split].
  - eapply Forall_impl; [exact Hcov |]. intros r [key [Hk Hin]].
    exists key. split; [exact Hk |].
    eapply Permutation_in; [apply Permutation_map; symmetry; exact Hperm |].
    rewrite Hts. exact Hin.
  - rewrite (sumZ_Permutation _ _ (Permutation_map TimeBucket.total Hperm)).
    rewrite Htot. exact Hsum.
  - intros Hplain. eapply Permutation_Forall; [symmetry; exact Hperm | exact (Hp Hplain)].
Qed.

Lemma three_admissions_plain : Forall plain_admission Samples.three_admissions.
Proof.
  unfold Samples.three_admissions.
  repeat (apply List.Forall_cons; [repeat split; reflexivity |]). apply List.Forall_nil.
Defined.

Lemma aggregateAdmissions_counts_witness :
  6%Z <> 0%Z
  /\ Forall plain_admission Samples.three_admissions
  /\ exists buckets,
    aggregateAdmissions Samples.utc Samples.three_admissions 6 = Some buckets
    /\ Forall (bucket_consistent Samples.utc 6 Samples.three_admissions) buckets
    /\ JS.sumZ (map TimeBucket.total buckets) = Z.of_nat (length Samples.three_admissions).
Proof.
  split; [lia |]. split; [exact three_admissions_plain |].
  destruct (aggregateAdmissions_counts Samples.utc 6 Samples.three_admissions ltac:(lia))
    as (buckets & Hb & _ & _ & _ & Hsum & Hcons).
  exists buckets. split; [exact Hb |]. split; [exact (Hcons three_admissions_plain) | exact Hsum].
Defined.

(** C10 as the claim words it, for every list of records, fails on a
    record whose disease is named [constructor].  The loop reads
    [byDisease["constructor"]], finds the inherited constructor function
    and stores its text followed by ['1']: the bucket has a total of 1 and
    a [byDisease] without any count, whose values do not sum to 1. *)
Lemma aggregateAdmissions_counts_counterexample :
  fst (fst (breakdowns [Samples.odd_admission])) !! "constructor"
  = Some (Text "constructor" 1)
  /\ option_map (map (fun b => (TimeBucket.total b, map_total (TimeBucket.byDisease b),
                               map_total (TimeBucket.byRegion b),
                               TimeBucket.byDisease b !! "constructor")))
       (aggregateAdmissions Samples.utc [Samples.odd_admission] 6)
     = Some [(1, 0, 1, None)]%Z
  /\ ~ plain_admission Samples.odd_admission.
Proof.
  split; [vm_compute; reflexivity |]. split; [vm_compute; reflexivity |].
  intros (H & _). vm_compute in H. discriminate.
Qed.

(** *** The water loop *)









(** The sample admissions make two buckets, of two records and of one, also
    on a host whose clock is five and a half hours ahead of UTC. *)
Example aggregateAdmissions_sample :
  option_map (map (fun b => (TimeBucket.timestamp b, TimeBucket.total b,
                             TimeBucket.byDisease b !! "Cholera",
                             TimeBucket.bySeverity b !! "Mild")))
    (aggregateAdmissions Samples.utc Samples.three_admissions 6)
  = Some [(0, 2, Some 1, Some 1); (21600000, 1, Some 1, Some 0)]%Z
  /\ option_map (map (fun b => (TimeBucket.timestamp b, TimeBucket.total b)))
       (aggregateAdmissions Samples.ist Samples.three_admissions 6)
     = Some [(-19800000, 1); (1800000, 2)]%Z.
Proof. split; reflexivity. Qed.

End Aggregation.

(** ** The recompute *)

Section Recompute.

Import Api.

Lemma detect_at_defined d series i s : is_Some (AnomalyDetector.detect_at d series i s).
Proof.
  unfold AnomalyDetector.detect_at.
  destruct (_stats_total
              (map Point.value
                 (JS.slice series (Z.max 0 (Z.of_nat i - AnomalyDetector.windowSize d))
                    (Some (Z.of_nat i + 1)%Z)))) as [st ->].
  destruct (JS.eqb (AnomalyDetector.std st) 0) eqn:E; [eauto |].
  apply eqb_false in E. rewrite div_some by exact E. eauto.
Qed.

Lemma detectInSeries_defined d series : is_Some (AnomalyDetector.detectInSeries d series).
Proof.
  unfold AnomalyDetector.detectInSeries. apply mapM_is_Some_2, Forall_forall.
  intros [i s] _. apply detect_at_defined.
Qed.








(** The classifier reads the per-region forecasts only. *)
Lemma classifyAll_clock regions admissionAgg waterAgg f now1 now2 :
  RiskClassifier.classifyAll regions admissionAgg waterAgg
    (Some (Forecaster.forecastAll f now1 admissionAgg))
  = RiskClassifier.classifyAll regions admissionAgg waterAgg
      (Some (Forecaster.forecastAll f now2 admissionAgg)).
Proof. reflexivity. Qed.









End Recompute.

(** * Further properties of the code *)

(** ** Order of the aggregates *)

Section SortedOutput.

Context {A : Type} (after : A -> A -> bool).
Hypothesis after_asym : forall x y, after x y = true -> after y x = false.
Hypothesis after_trans :
  forall x y z, after x y = false -> after y z = false -> after x z = false.

Lemma sort_insert_sorted x l :
  StronglySorted (fun a b => after a b = false) l ->
  StronglySorted (fun a b => after a b = false) (JS.sort_insert after x l).
Proof.
  induction 1 as [| y l Hl IH Hy]; cbn.
  - repeat constructor.
  - destruct (after x y) eqn:E.
    + constructor; [exact IH |].
      apply Forall_forall. intros z Hz.
      rewrite list_elem_of_In in Hz.
      apply (Permutation_in _ (sort_insert_Permutation after x l)) in Hz.
      destruct Hz as [<- | Hz]; [apply after_asym, E |].
      rewrite Forall_forall in Hy. apply Hy, list_elem_of_In, Hz.
    + constructor; [constructor; assumption |].
      constructor; [exact E |].
      eapply Forall_impl; [exact Hy |]. intros z Hz. cbn in Hz.
      eapply after_trans; eassumption.
Qed.

Lemma sort_sorted l : StronglySorted (fun a b => after a b = false) (JS.sort after l).
Proof.
  induction l as [| x l IH]; cbn; [constructor | apply sort_insert_sorted, IH].
Qed.

End SortedOutput.

Lemma StronglySorted_impl {A} (P Q : A -> A -> Prop) l :
  (forall a b, In a l -> In b l -> P a b -> Q a b) ->
  StronglySorted P l -> StronglySorted Q l.
Proof.
  intros H Hs. induction Hs as [| x l Hl IH Hx]; constructor.
  - apply IH. intros a b Ha Hb. apply H; right; assumption.
  - apply Forall_forall. intros y Hy. rewrite Forall_forall in Hx.
    apply H; [left; reflexivity | right; apply list_elem_of_In, Hy | apply Hx, Hy].
Qed.

Lemma StronglySorted_NoDup_strict (l : list Z) :
  StronglySorted Z.le l -> NoDup l -> StronglySorted Z.lt l.
Proof.
  intros Hs. induction Hs as [| x l Hl IH Hx]; intros Hnd; constructor.
  - apply IH. apply NoDup_cons in Hnd. tauto.
  - apply NoDup_cons in Hnd as [Hx' _].
    apply Forall_forall. intros y Hy. rewrite Forall_forall in Hx.
    specialize (Hx y Hy). assert (x <> y) by (intros ->; contradiction). lia.
Qed.

Section AggregationOrder.

Import DataPreprocessor Spec.

Lemma StronglySorted_map {A B} (f : A -> B) (R : B -> B -> Prop) l :
  StronglySorted (fun a b => R (f a) (f b)) l -> StronglySorted R (map f l).
Proof.
  induction 1 as [| x l Hl IH Hx]; cbn; constructor; [exact IH |].
  rewrite List.Forall_map. exact Hx.
Qed.

Lemma by_timestamp_sorted {A} (timestamp : A -> Z) l :
  StronglySorted Z.le
    (map timestamp (JS.sort (fun a b => (0 <? timestamp a - timestamp b)%Z) l)).
Proof.
  apply StronglySorted_map.
  eapply StronglySorted_impl; [| apply sort_sorted].
  - intros a b _ _ H. apply Z.ltb_ge in H. lia.
  - intros x y H. apply Z.ltb_lt in H. apply Z.ltb_ge. lia.
  - intros x y z H1 H2. apply Z.ltb_ge in H1, H2. apply Z.ltb_ge. lia.
Qed.

Lemma aggregateAdmissions_shape tz bucketHours admissions :
  bucketHours <> 0%Z ->
  exists grouping,
    grouped Admission.timestamp tz bucketHours grouping admissions
    /\ aggregateAdmissions tz admissions bucketHours
       = Some (JS.sort (fun a b => (0 <? TimeBucket.timestamp a - TimeBucket.timestamp b)%Z)
                 (map (fun '(timestamp, records) => aggregate_bucket timestamp records)
                    grouping)).
Proof.
  intros Hw.
  destruct (timeBucket_grouped Admission.timestamp tz bucketHours Hw admissions)
    as [grouping [Htb Hg]].
  exists grouping. split; [exact Hg |].
  unfold aggregateAdmissions. rewrite Htb. reflexivity.
Qed.

Lemma aggregate_bucket_timestamp key records :
  TimeBucket.timestamp (aggregate_bucket key records) = key.
Proof.
  unfold aggregate_bucket. destruct (breakdowns records) as [[d r] s]. reflexivity.
Qed.

(** X1. The buckets of [aggregateAdmissions] come in strictly increasing order
    of their start. *)
Theorem aggregateAdmissions_chronological tz bucketHours admissions :
  bucketHours <> 0%Z ->
  exists buckets,
    aggregateAdmissions tz admissions bucketHours = Some buckets
    /\ StronglySorted Z.lt (map TimeBucket.timestamp buckets).
Proof.
  intros Hw.
  destruct (aggregateAdmissions_shape tz bucketHours admissions Hw)
    as [grouping [(Hnd & _) ->]].
  eexists. split; [reflexivity |].
  apply StronglySorted_NoDup_strict; [apply by_timestamp_sorted |].
  rewrite (Permutation_map TimeBucket.timestamp (sort_Permutation _ _)).
  rewrite map_map.
  erewrite map_ext; [exact Hnd |].
  intros [key records]. apply aggregate_bucket_timestamp.
Qed.

Lemma aggregateAdmissions_chronological_witness :
  6%Z <> 0%Z
  /\ exists buckets,
    aggregateAdmissions Samples.utc Samples.three_admissions 6 = Some buckets
    /\ StronglySorted Z.lt (map TimeBucket.timestamp buckets).
Proof.
  split; [lia |].
  apply (aggregateAdmissions_chronological Samples.utc 6 Samples.three_admissions). lia.
Defined.

(** *** Water buckets *)



(** The sample readings make two daily buckets; the first holds two
    samples of region-1, one of them flagged, and one of region-2. *)
Example aggregateWaterQuality_sample :
  option_map
    (map (fun b =>
            (WaterBucket.timestamp b,
             (fun a => (RegionAverage.sampleCount a, RegionAverage.hasAnomaly a))
               <$> WaterBucket.regionAverages b !! "region-1",
             RegionAverage.sampleCount <$> WaterBucket.regionAverages b !! "region-2")))
    (aggregateWaterQuality Samples.utc Samples.four_samples 24)
  = Some [(0, Some (2, true), Some 1); (86400000, Some (1, false), None)]%Z.
Proof. reflexivity. Qed.

End AggregationOrder.

(** ** Bucket starts *)

Section BucketStart.

Import DataPreprocessor.

(** On a host whose offset from UTC never changes the key is the start of
    the local hour, less the hours since the start of the bucket. *)
Lemma bucketStart_fixed (tz bucketHours ts : Z) :
  bucketStart (JS.Zone.fixed tz) bucketHours ts
  = let wall := (ts + tz)%Z in
    let hours := ((wall / msPerHour) mod 24)%Z in
    if (bucketHours =? 0)%Z then None
    else Some (wall - wall mod msPerHour - hours * msPerHour
               + (hours / bucketHours * bucketHours) * msPerHour - tz)%Z.
Proof.
  unfold bucketStart, JS.LocalTime, JS.UTC, JS.Zone.fixed, msPerHour, msPerDay.
  cbn [JS.Zone.at_instant JS.Zone.at_wall]. cbv zeta.
  destruct (bucketHours =? 0)%Z; [reflexivity |]. f_equal.
  set (wall := (ts + tz)%Z).
  replace (wall - wall mod 3600000 - tz + tz)%Z with (wall - wall mod 3600000)%Z by lia.
  assert (Hwall : (wall - wall mod 3600000 = 3600000 * (wall / 3600000))%Z).
  { pose proof (Z.div_mod wall 3600000 ltac:(lia)). lia. }
  rewrite Hwall.
  replace 86400000%Z with (3600000 * 24)%Z by reflexivity.
  rewrite Z.mul_mod_distr_l by lia.
  replace ((3600000 * (wall / 3600000)) mod 3600000)%Z with 0%Z
    by (rewrite Z.mul_comm, Z.mod_mul; lia).
  lia.
Qed.

(** X3. On a host whose offset from UTC never changes, and for a positive
    width, the bucket start is at or before the timestamp and less than the
    width before it, and it is the start of its own bucket. *)
Theorem bucketStart_interval (tz bucketHours ts : Z) :
  (0 < bucketHours)%Z ->
  exists key,
    bucketStart (JS.Zone.fixed tz) bucketHours ts = Some key
    /\ (key <= ts < key + bucketHours * msPerHour)%Z
    /\ bucketStart (JS.Zone.fixed tz) bucketHours key = Some key.
Proof.
  intros Hw. rewrite bucketStart_fixed. cbv zeta. unfold msPerHour.
  destruct (Z.eqb_spec bucketHours 0) as [E | _]; [lia |].
  eexists. split; [reflexivity |].
  set (wall := (ts + tz)%Z).
  set (L := (wall / 3600000)%Z).
  set (hours := (L mod 24)%Z).
  set (q := (hours / bucketHours)%Z).
  assert (Hwall : wall = (3600000 * L + wall mod 3600000)%Z) by (apply Z.div_mod; lia).
  assert (Hms : (0 <= wall mod 3600000 < 3600000)%Z) by (apply Z.mod_pos_bound; lia).
  assert (HL : L = (24 * (L / 24) + hours)%Z) by (apply Z.div_mod; lia).
  assert (Hh : (0 <= hours < 24)%Z) by (apply Z.mod_pos_bound; lia).
  assert (Hq : hours = (bucketHours * q + hours mod bucketHours)%Z) by (apply Z.div_mod; lia).
  assert (Hr : (0 <= hours mod bucketHours < bucketHours)%Z) by (apply Z.mod_pos_bound; lia).
  assert (Hq0 : (0 <= q)%Z) by (apply Z.div_pos; lia).
  assert (Hqb : (0 <= q * bucketHours <= hours)%Z) by nia.
  split.
  - nia.
  - rewrite bucketStart_fixed. cbv zeta. unfold msPerHour.
    destruct (Z.eqb_spec bucketHours 0) as [E | _]; [lia |].
    f_equal.
    set (key := (wall - wall mod 3600000 - hours * 3600000 + q * bucketHours * 3600000 - tz)%Z).
    assert (Hk : (key + tz = 3600000 * (24 * (L / 24) + q * bucketHours))%Z) by (subst key; nia).
    rewrite Hk.
    assert (Hd : (3600000 * (24 * (L / 24) + q * bucketHours) / 3600000
                  = 24 * (L / 24) + q * bucketHours)%Z).
    { rewrite Z.mul_comm. apply Z.div_mul. lia. }
    assert (Hm : (3600000 * (24 * (L / 24) + q * bucketHours) mod 3600000 = 0)%Z).
    { rewrite Z.mul_comm. apply Z.mod_mul. lia. }
    rewrite Hd, Hm.
    assert (Hh' : ((24 * (L / 24) + q * bucketHours) mod 24 = q * bucketHours)%Z).
    { replace (24 * (L / 24) + q * bucketHours)%Z with (q * bucketHours + L / 24 * 24)%Z
        by lia.
      rewrite Z.mod_add by lia. apply Z.mod_small. lia. }
    rewrite Hh'.
    rewrite Z.div_mul by lia. lia.
Qed.

Lemma bucketStart_interval_witness :
  (0 < 6)%Z
  /\ exists key,
    bucketStart (JS.Zone.fixed 19800000) 6 1700000000000 = Some key
    /\ (key <= 1700000000000 < key + 6 * msPerHour)%Z
    /\ bucketStart (JS.Zone.fixed 19800000) 6 key = Some key.
Proof.
  split; [lia |]. apply (bucketStart_interval 19800000 6 1700000000000). lia.
Defined.

(** Where the offset changes the bound of X3 does not hold.  On a host on
    Central European time a record of 27 October 2024, 04:30 UTC, is read
    as 05:30 local time; the start of its six-hour bucket, 00:00 local
    time, lies before the change of the offset and is 22:00 UTC of the day
    before, six and a half hours earlier. *)
Example bucketStart_daylight_saving :
  bucketStart Samples.berlin 6 1730003400000 = Some 1729980000000%Z
  /\ (1730003400000 - 1729980000000 = 6 * msPerHour + 1800000)%Z.
Proof. split; reflexivity. Qed.

End BucketStart.

(** ** Series helpers of the preprocessor *)

Section Series.

Import DataPreprocessor.
Local Open Scope R_scope.

Lemma sum_acc l : forall a, fold_left Rplus l a = a + JS.sum l.
Proof.
  unfold JS.sum. induction l as [| x l IH]; intros a; cbn; [lra |].
  rewrite IH, (IH (0 + x)). lra.
Qed.

Lemma sum_cons x l : JS.sum (x :: l) = x + JS.sum l.
Proof. unfold JS.sum at 1. cbn. rewrite sum_acc. lra. Qed.

Lemma sum_bounds lo hi l :
  Forall (fun v => lo <= v <= hi) l ->
  INR (length l) * lo <= JS.sum l <= INR (length l) * hi.
Proof.
  induction 1 as [| x l Hx _ IH].
  - unfold JS.sum. cbn. lra.
  - rewrite sum_cons. change (length (x :: l)) with (S (length l)). rewrite S_INR. lra.
Qed.

Lemma mean_bounds lo hi l :
  l <> [] -> Forall (fun v => lo <= v <= hi) l ->
  lo <= JS.sum l / INR (length l) <= hi.
Proof.
  intros Hne Hl. pose proof (sum_bounds lo hi l Hl) as [H1 H2].
  assert (Hn : 0 < INR (length l)).
  { destruct l; [contradiction |]. apply lt_0_INR. cbn. lia. }
  split.
  - apply Rmult_le_reg_r with (INR (length l)); [exact Hn |].
    unfold Rdiv. rewrite Rmult_assoc, Rinv_l by lra. lra.
  - apply Rmult_le_reg_r with (INR (length l)); [exact Hn |].
    unfold Rdiv. rewrite Rmult_assoc, Rinv_l by lra. lra.
Qed.

Lemma slice_length {A} (l : list A) (s e : Z) :
  (0 <= s <= e)%Z -> (e <= Z.of_nat (length l))%Z ->
  length (JS.slice l s (Some e)) = Z.to_nat (e - s).
Proof.
  intros Hs He. unfold JS.slice, JS.rel_index.
  destruct (Z.ltb_spec s 0); [lia |]. destruct (Z.ltb_spec e 0); [lia |].
  rewrite length_take, length_drop. lia.
Qed.

Lemma slice_empty {A} (l : list A) (s e : Z) :
  (0 <= e <= s)%Z -> JS.slice l s (Some e) = [].
Proof.
  intros H. unfold JS.slice, JS.rel_index.
  destruct (Z.ltb_spec s 0); [lia |]. destruct (Z.ltb_spec e 0); [lia |].
  replace (Z.to_nat _) with 0%nat by lia. reflexivity.
Qed.

Lemma slice_Forall {A} (P : A -> Prop) (l : list A) s e :
  Forall P l -> Forall P (JS.slice l s e).
Proof.
  intros H. unfold JS.slice. apply Forall_take, Forall_drop, H.
Qed.

Lemma checked_div_some x y : y <> 0 -> JS.checked_div x y = Some (x / y).
Proof.
  intros Hy. unfold JS.checked_div. destruct (JS.eqb y 0) eqn:E; [| reflexivity].
  apply eqb_true in E. contradiction.
Qed.

Lemma checked_div_zero x : JS.checked_div x 0 = None.
Proof.
  unfold JS.checked_div. destruct (JS.eqb 0 0) eqn:E; [reflexivity |].
  apply eqb_false in E. contradiction.
Qed.

(** X4. [rollingAverage] keeps the length of its input.  In exact
    arithmetic, with a window of at least one value every entry is a
    number that lies between any bounds of the input; with a window size of
    zero or less every entry is [0 / 0].  In binary64 an entry can leave
    the bounds by a rounding error: see [rollingAverage_rounding]. *)
Theorem rollingAverage_bounds values windowSize lo hi :
  Forall (fun v => lo <= v <= hi) values ->
  length (rollingAverage values windowSize) = length values
  /\ ((1 <= windowSize)%Z ->
      Forall (fun o => exists a, o = Some a /\ lo <= a <= hi)
        (rollingAverage values windowSize))
  /\ ((windowSize <= 0)%Z ->
      Forall (fun o => o = None) (rollingAverage values windowSize)).
Proof.
  intros Hv. unfold rollingAverage. split; [apply length_imap |].
  split; intros Hw; apply Forall_lookup; intros i o Ho;
    rewrite list_lookup_imap in Ho;
    destruct (values !! i) as [v |] eqn:Hi; try discriminate;
    cbn in Ho; injection Ho as <-;
    apply lookup_lt_Some in Hi.
  - set (start := Z.max 0 (Z.of_nat i - windowSize + 1)).
    assert (Hlen : length (JS.slice values start (Some (Z.of_nat i + 1)%Z))
                   = Z.to_nat (Z.of_nat i + 1 - start)) by (apply slice_length; lia).
    assert (Hne : JS.slice values start (Some (Z.of_nat i + 1)%Z) <> []).
    { intros E. rewrite E in Hlen. cbn in Hlen. lia. }
    rewrite checked_div_some.
    + eexists. split; [reflexivity |].
      apply mean_bounds; [exact Hne | apply slice_Forall, Hv].
    + apply not_0_INR. destruct (JS.slice values start _); [contradiction | discriminate].
  - rewrite slice_empty by lia. cbn. apply checked_div_zero.
Qed.

Lemma rollingAverage_bounds_witness :
  Forall (fun v => 1 <= v <= 3) [1; 3; 2]
  /\ length (rollingAverage [1; 3; 2] 7) = length [1; 3; 2]
  /\ ((1 <= 7)%Z ->
      Forall (fun o => exists a, o = Some a /\ 1 <= a <= 3) (rollingAverage [1; 3; 2] 7))
  /\ ((7 <= 0)%Z -> Forall (fun o => o = None) (rollingAverage [1; 3; 2] 7)).
Proof.
  assert (H : Forall (fun v => 1 <= v <= 3) [1; 3; 2]) by (repeat constructor; lra).
  split; [exact H |]. apply (rollingAverage_bounds [1; 3; 2] 7 1 3 H).
Defined.

(** X5. [rateOfChange] returns one entry per value and [[0]] for no value; the
    first entry is 0; a later entry [r] recovers its value from the one
    before, [b = a * (1 + r)], unless that one is 0, which is read as 1. *)
Theorem rateOfChange_recovers values :
  length (rateOfChange values) = Nat.max 1 (length values)
  /\ rateOfChange values !! 0%nat = Some 0
  /\ forall i a b,
      values !! i = Some a -> values !! S i = Some b ->
      exists r, rateOfChange values !! S i = Some r
                /\ (a <> 0 -> b = a * (1 + r))
                /\ (a = 0 -> r = b - 1).
Proof.
  unfold rateOfChange. split; [| split; [reflexivity |]].
  - cbn [length]. rewrite length_zip_with.
    destruct values as [| v values]; cbn [tail length]; lia.
  - intros i a b Ha Hb. rewrite lookup_cons.
    rewrite lookup_zip_with, Ha. cbn.
    assert (Ht : tail values !! i = Some b).
    { destruct values as [| v values]; [discriminate | exact Hb]. }
    rewrite Ht. cbn. eexists. split; [reflexivity |].
    unfold JS.or_num. destruct (JS.eqb a 0) eqn:E.
    + apply eqb_true in E. split; [contradiction | intros _; field].
    + apply eqb_false in E. split; [intros _; field; exact E | contradiction].
Qed.


Lemma fold_Rmin_spec rest : forall v0,
  fold_left Rmin rest v0 <= v0
  /\ Forall (fun v => fold_left Rmin rest v0 <= v) rest
  /\ In (fold_left Rmin rest v0) (v0 :: rest).
Proof.
  induction rest as [| x rest IH]; intros v0; cbn [fold_left].
  - repeat split; [lra | constructor | left; reflexivity].
  - destruct (IH (Rmin v0 x)) as (H1 & H2 & H3).
    pose proof (Rmin_l v0 x). pose proof (Rmin_r v0 x).
    repeat split; [lra | constructor; [lra | exact H2] |].
    destruct H3 as [H3 | H3]; [| right; right; exact H3].
    rewrite <- H3. unfold Rmin. destruct (Rle_dec v0 x); [left | right; left]; reflexivity.
Qed.

Lemma fold_Rmax_spec rest : forall v0,
  v0 <= fold_left Rmax rest v0
  /\ Forall (fun v => v <= fold_left Rmax rest v0) rest
  /\ In (fold_left Rmax rest v0) (v0 :: rest).
Proof.
  induction rest as [| x rest IH]; intros v0; cbn [fold_left].
  - repeat split; [lra | constructor | left; reflexivity].
  - destruct (IH (Rmax v0 x)) as (H1 & H2 & H3).
    pose proof (Rmax_l v0 x). pose proof (Rmax_r v0 x).
    repeat split; [lra | constructor; [lra | exact H2] |].
    destruct H3 as [H3 | H3]; [| right; right; exact H3].
    rewrite <- H3. unfold Rmax. destruct (Rle_dec v0 x); [right; left | left]; reflexivity.
Qed.

(** X6. [normalize] keeps the length of its input and maps every value into
    [0, 1]; when two values differ, the least is mapped to 0 and the
    greatest to 1; when all values are equal, every entry is 0. *)
Theorem normalize_unit_interval values :
  length (normalize values) = length values
  /\ Forall (fun x => 0 <= x <= 1) (normalize values)
  /\ ((exists a b, In a values /\ In b values /\ a <> b) ->
      In 0 (normalize values) /\ In 1 (normalize values))
  /\ ((forall a b, In a values -> In b values -> a = b) ->
      Forall (fun x => x = 0) (normalize values)).
Proof.
  destruct values as [| v0 rest].
  { cbn. split; [reflexivity |]. split; [constructor |].
    split; [intros (a & b & [] & _) | intros _; constructor]. }
  unfold normalize.
  destruct (fold_Rmin_spec rest v0) as (Hm1 & Hm2 & Hm3).
  destruct (fold_Rmax_spec rest v0) as (HM1 & HM2 & HM3).
  set (lo := fold_left Rmin rest v0) in *. set (hi := fold_left Rmax rest v0) in *.
  assert (Hall : Forall (fun v => lo <= v <= hi) (v0 :: rest)).
  { constructor; [lra |]. apply Forall_forall. intros v Hv.
    rewrite Forall_forall in Hm2, HM2. split; [apply Hm2, Hv | apply HM2, Hv]. }
  assert (Hrange : (hi = lo /\ JS.or_num (hi - lo) 1 = 1)
                   \/ (lo < hi /\ JS.or_num (hi - lo) 1 = hi - lo)).
  { unfold JS.or_num. destruct (JS.eqb (hi - lo) 0) eqn:E.
    - apply eqb_true in E. left. split; [lra | reflexivity].
    - apply eqb_false in E. right. split; [| reflexivity].
      inversion Hall as [| ? ? [? ?] _]; subst. lra. }
  split; [apply length_map |]. split; [| split].
  - rewrite List.Forall_map. eapply Forall_impl; [exact Hall |]. intros v Hv. cbn in Hv.
    destruct Hrange as [[E ->] | [Hlt ->]].
    + assert (v = lo) by lra. subst v. split; lra.
    + split.
      * apply Rmult_le_pos; [lra |]. apply Rlt_le, Rinv_0_lt_compat. lra.
      * apply Rmult_le_reg_r with (hi - lo); [lra |].
        unfold Rdiv. rewrite Rmult_assoc, Rinv_l by lra. lra.
  - intros (a & b & Ha & Hb & Hab).
    assert (Hlt : lo < hi).
    { rewrite Forall_forall in Hall.
      pose proof (Hall a (proj2 (list_elem_of_In _ _) Ha)).
      pose proof (Hall b (proj2 (list_elem_of_In _ _) Hb)).
      destruct (Rle_lt_dec hi lo); [exfalso; apply Hab; lra | assumption]. }
    destruct Hrange as [[E _] | [_ ->]]; [lra |].
    split; apply in_map_iff.
    + exists lo. split; [unfold Rdiv; rewrite Rminus_diag; lra | exact Hm3].
    + exists hi. split; [field; lra | exact HM3].
  - intros Heq. rewrite List.Forall_map. apply Forall_forall. intros v Hv.
    rewrite list_elem_of_In in Hv. rewrite (Heq v lo Hv Hm3).
    unfold Rdiv. rewrite Rminus_diag. lra.
Qed.

(** X7. [extractFeatures] makes one feature per admission bucket, in order;
    as long as there is a water bucket the index it reads is in range, four
    admission buckets share a water bucket and the last water bucket serves
    all later admission buckets; without water buckets the water data are
    empty. *)
Theorem extractFeatures_water admissionAgg waterAgg :
  length (extractFeatures admissionAgg waterAgg) = length admissionAgg
  /\ forall i adm,
      admissionAgg !! i = Some adm ->
      exists feature,
        extractFeatures admissionAgg waterAgg !! i = Some feature
        /\ Feature.timestamp feature = TimeBucket.timestamp adm
        /\ Feature.totalAdmissions feature = TimeBucket.total adm
        /\ (Feature.isAnomaly feature = true <-> (0 < TimeBucket.anomalyCount adm)%Z)
        /\ match waterAgg !! Nat.min (i / 4) (length waterAgg - 1) with
           | Some water => Feature.waterData feature = WaterBucket.regionAverages water
           | None => waterAgg = [] /\ Feature.waterData feature = ∅
           end.
Proof.
  unfold extractFeatures. split; [apply length_imap |].
  intros i adm Hi. rewrite list_lookup_imap, Hi. cbn [fmap option_fmap option_map].
  eexists. split; [reflexivity |].
  cbn [Feature.timestamp Feature.totalAdmissions Feature.isAnomaly Feature.waterData].
  split; [reflexivity |]. split; [reflexivity |]. split; [apply Z.ltb_lt |].
  unfold water_for.
  destruct waterAgg as [| w waterAgg].
  - cbn [length]. destruct (Z.ltb_spec (Z.min (Z.of_nat i / 4) (Z.of_nat 0 - 1)) 0); [| lia].
    rewrite lookup_nil. auto.
  - set (l := w :: waterAgg).
    assert (Hidx : Z.to_nat (Z.min (Z.of_nat i / 4) (Z.of_nat (length l) - 1))
                   = Nat.min (i / 4) (length l - 1)).
    { pose proof (Nat2Z.inj_div i 4) as Hd. change (Z.of_nat 4) with 4%Z in Hd.
      rewrite <- Hd. subst l. cbn [length]. lia. }
    destruct (Z.ltb_spec (Z.min (Z.of_nat i / 4) (Z.of_nat (length l) - 1)) 0) as [Hneg | _].
    + pose proof (Z.div_pos (Z.of_nat i) 4). subst l. cbn [length] in Hneg. lia.
    + rewrite Hidx.
      destruct (l !! Nat.min (i / 4) (length l - 1)) eqn:E; [reflexivity |].
      apply lookup_ge_None in E. subst l. cbn [length] in E. lia.
Qed.

End Series.

(** ** Smoothing and horizon of the forecaster *)

Section Smoothing.

Import Forecaster.
Local Open Scope R_scope.

Lemma holt_fold_shape f l : forall st,
  smoothed st <> [] ->
  List.last (smoothed st) 0 = level st ->
  let st' := fold_left (holt_step f) l st in
  length (smoothed st') = (length (smoothed st) + length l)%nat
  /\ List.last (smoothed st') 0 = level st'
  /\ head (smoothed st') = head (smoothed st).
Proof.
  induction l as [| v l IH]; intros st Hne Hlast; cbn [fold_left length].
  - cbv zeta. repeat split; [lia | exact Hlast].
  - specialize (IH (holt_step f st v)).
    cbn [holt_step smoothed level] in IH.
    destruct IH as (H1 & H2 & H3).
    + intros E. apply app_eq_nil in E as [_ E]. discriminate.
    + apply last_last.
    + cbv zeta. rewrite H1, H2, H3. rewrite length_app. cbn [length].
      repeat split; [lia |].
      destruct (smoothed st); [contradiction | reflexivity].
Qed.

Lemma holt_shape f values :
  length (smoothed (_holtSmoothing f values)) = length values
  /\ head (smoothed (_holtSmoothing f values)) = head values
  /\ (values <> [] ->
      List.last (smoothed (_holtSmoothing f values)) 0 = level (_holtSmoothing f values)).
Proof.
  destruct values as [| v0 [| v1 rest]].
  - cbn. repeat split; try (intros H; contradiction).
  - cbn. repeat split. intros _. unfold JS.or_num.
    destruct (JS.eqb v0 0) eqn:E; [apply eqb_true in E; lra | reflexivity].
  - unfold _holtSmoothing.
    destruct (holt_fold_shape f (v1 :: rest)
                {| level := v0; trend := v1 - v0; smoothed := [v0] |})
      as (H1 & H2 & H3); [discriminate | reflexivity |].
    cbn [smoothed length] in H1, H3. repeat split; [rewrite H1; cbn; lia | exact H3 |].
    intros _. exact H2.
Qed.

(** X8. [_holtSmoothing] returns one smoothed value per input value, the first
    being the first input value and the last being the final level, so
    [_computeResiduals] pairs every value with its smoothed value and the
    first residual is 0. *)
Theorem holtSmoothing_shape f values :
  let hs := _holtSmoothing f values in
  length (smoothed hs) = length values
  /\ head (smoothed hs) = head values
  /\ (values <> [] -> List.last (smoothed hs) 0 = level hs)
  /\ length (fst (_computeResiduals values (smoothed hs))) = length values
  /\ (values <> [] -> head (fst (_computeResiduals values (smoothed hs))) = Some 0).
Proof.
  cbv zeta.
  destruct (holt_shape f values) as (H1 & H2 & H3). repeat split; try assumption.
  - cbn [_computeResiduals fst]. rewrite length_map, length_combine, H1. lia.
  - intros Hne. cbn [_computeResiduals fst].
    destruct values as [| v0 rest]; [contradiction |].
    destruct (smoothed (_holtSmoothing f (v0 :: rest))) as [| s0 sm]; [discriminate |].
    cbn in H2. injection H2 as ->. cbn. f_equal. lra.
Qed.

(** *** A series on a line *)

Lemma holt_fold_line f a b m : forall i sm,
  fold_left (holt_step f) (map (fun j => a + b * INR j) (seq (S i) m))
    {| level := a + b * INR i; trend := b; smoothed := sm |}
  = {| level := a + b * INR (i + m); trend := b;
       smoothed := sm ++ map (fun j => a + b * INR j) (seq (S i) m) |}.
Proof.
  induction m as [| m IH]; intros i sm; cbn [seq map fold_left].
  - rewrite Nat.add_0_r, app_nil_r. reflexivity.
  - unfold holt_step at 2; cbn [level trend smoothed].
    replace (alpha f * (a + b * INR (S i)) + (1 - alpha f) * (a + b * INR i + b))
      with (a + b * INR (S i)) by (rewrite S_INR; ring).
    replace (trendAlpha f * (a + b * INR (S i) - (a + b * INR i)) + (1 - trendAlpha f) * b)
      with b by (rewrite S_INR; ring).
    rewrite IH, <- app_assoc. cbn [app].
    replace (S i + m)%nat with (i + S m)%nat by lia. reflexivity.
Qed.

Lemma holt_line f a b n :
  (2 <= n)%nat ->
  _holtSmoothing f (map (fun j => a + b * INR j) (seq 0 n))
  = {| level := a + b * INR (n - 1); trend := b;
       smoothed := map (fun j => a + b * INR j) (seq 0 n) |}.
Proof.
  intros Hn. destruct n as [| [| n]]; try lia.
  change (seq 0 (S (S n))) with (0 :: seq 1 (S n))%nat.
  change (map (fun j => a + b * INR j) (0 :: seq 1 (S n))%nat)
    with ((a + b * INR 0) :: map (fun j => a + b * INR j) (seq 1 (S n))).
  change (_holtSmoothing f ((a + b * INR 0) :: map (fun j => a + b * INR j) (seq 1 (S n))))
    with (fold_left (holt_step f) (map (fun j => a + b * INR j) (seq 1 (S n)))
            {| level := a + b * INR 0; trend := a + b * INR 1 - (a + b * INR 0);
               smoothed := [a + b * INR 0] |}).
  replace (a + b * INR 1 - (a + b * INR 0)) with b by (cbn; ring).
  rewrite (holt_fold_line f a b (S n) 0 [a + b * INR 0]).
  replace (S (S n) - 1)%nat with (0 + S n)%nat by lia. reflexivity.
Qed.

Lemma squares_self l : forall acc,
  fold_left (fun s r => s + r * r) (map (fun '(x, y) => x - y) (combine l l)) acc = acc.
Proof.
  induction l as [| x l IH]; intros acc; cbn [combine map fold_left]; [reflexivity |].
  rewrite IH. ring.
Qed.

Lemma residuals_self l : snd (_computeResiduals l l) = 0.
Proof.
  unfold _computeResiduals; cbn [snd]. rewrite squares_self.
  unfold Rdiv. rewrite Rmult_0_l. apply sqrt_0.
Qed.

Lemma predict_exact f lv tr lastTimestamp step :
  let p := predict f lv tr 0 lastTimestamp step in
  Prediction.predicted p = JS.Math_round (JS.Math_max 0 (lv + tr * step) * 100) / 100
  /\ Prediction.upper p = Prediction.predicted p
  /\ Prediction.lower p = Prediction.predicted p.
Proof.
  unfold predict; cbn [Prediction.predicted Prediction.upper Prediction.lower].
  set (m := JS.Math_max 0 (lv + tr * step)).
  assert (Hm : 0 <= m) by apply Rmax_l.
  repeat split.
  - replace (m + 0 * (1.96 * JS.Math_sqrt step)) with m by ring. reflexivity.
  - replace (m - 0 * (1.96 * JS.Math_sqrt step)) with m by ring.
    unfold JS.Math_max at 1. rewrite Rmax_right by exact Hm. reflexivity.
Qed.

Lemma values_on_line a b series :
  (forall i pt, series !! i = Some pt -> Point.value pt = a + b * INR i) ->
  map Point.value series = map (fun j => a + b * INR j) (seq 0 (length series)).
Proof.
  intros H. apply list_eq. intros i.
  rewrite !list_lookup_fmap.
  destruct (series !! i) as [pt |] eqn:E; cbn.
  - rewrite (lookup_seq_lt _ _ i) by (apply lookup_lt_Some in E; exact E).
    cbn. f_equal. apply H, E.
  - rewrite lookup_seq_ge by (apply lookup_ge_None in E; lia). reflexivity.
Qed.

(** X9. Holt's method follows a line exactly: for a series whose value at
    index [i] is [a + b * i], of at least four points, the standard error
    is 0, the reported trend is [b] rounded to two decimals, and the
    prediction number [k] (from 0) is the value of the line at index
    [n + k], floored at 0 and rounded to two decimals, with a band of
    width zero. *)
Theorem forecast_linear_series options series a b :
  (4 <= length series)%nat ->
  (forall i pt, series !! i = Some pt -> Point.value pt = a + b * INR i) ->
  exists r,
    forecast (new options) series = ForecastResult.Full r
    /\ ForecastResult.standardError r = 0
    /\ ForecastResult.trendValue r = JS.Math_round (b * 100) / 100
    /\ forall k p,
        ForecastResult.predictions r !! k = Some p ->
        Prediction.predicted p
        = JS.Math_round (JS.Math_max 0 (a + b * INR (length series + k)) * 100) / 100
        /\ Prediction.upper p = Prediction.predicted p
        /\ Prediction.lower p = Prediction.predicted p.
Proof.
  intros Hlen Hline. unfold forecast.
  destruct (length series <? 4)%nat eqn:E; [apply Nat.ltb_lt in E; lia |].
  rewrite (values_on_line a b series Hline).
  rewrite holt_line by lia. cbn [level trend smoothed].
  rewrite residuals_self.
  eexists. split; [reflexivity |].
  cbn [ForecastResult.standardError ForecastResult.trendValue ForecastResult.predictions].
  split; [rewrite Rmult_0_l, (Math_round_IZR 0); lra |].
  split; [reflexivity |].
  intros k p Hp. rewrite list_lookup_fmap in Hp.
  destruct (steps _ !! k) as [step |] eqn:Hs; [| discriminate].
  cbn in Hp. injection Hp as <-.
  unfold steps in Hs. rewrite list_lookup_fmap in Hs.
  destruct (seq 1 _ !! k) as [j |] eqn:Hj; [| discriminate].
  cbn in Hs. injection Hs as <-.
  apply lookup_seq in Hj as [-> _].
  destruct (predict_exact (new options) (a + b * INR (length series - 1)) b
              (List.last (map Point.timestamp series) 0%Z) (INR (1 + k)))
    as (H1 & H2 & H3).
  rewrite H2, H3, H1.
  assert (Hx : a + b * INR (length series - 1) + b * INR (1 + k)
               = a + b * INR (length series + k)).
  { rewrite minus_INR by lia. rewrite !plus_INR. cbn [INR]. ring. }
  rewrite Hx. repeat split.
Qed.


(** *** The horizon *)

Lemma Date_of_number_IZR (m : Z) : JS.Date_of_number (IZR m) = m.
Proof.
  unfold JS.Date_of_number. destruct (Rle_dec 0 (IZR m)).
  - apply ZfloorZ.
  - apply Zceil_eq. lra.
Qed.

Lemma Math_max_IZR (x y : Z) : JS.Math_max (IZR x) (IZR y) = IZR (Z.max x y).
Proof.
  unfold JS.Math_max, Rmax. destruct (Rle_dec (IZR x) (IZR y)) as [H | H].
  - apply le_IZR in H. f_equal. lia.
  - apply Rnot_le_lt, lt_IZR in H. f_equal. lia.
Qed.

(** X10. A forecast of a series of at least four points has one prediction per
    step of the horizon, [ceil(forecastHours / bucketHours)] of them; for
    a bucket width of a whole number of hours the prediction number [k]
    (from 1) is stamped [k] bucket widths after the last point, and its
    confidence is [max(50, 95 - 5 k)]; the smoothed history repeats the
    timestamps of the series. *)
Theorem forecast_horizon options series (width : Z) :
  (4 <= length series)%nat ->
  bucketHours (new options) = IZR width ->
  let f := new options in
  let n := Z.to_nat (Zceil (forecastHours f / bucketHours f)) in
  let r := forecast f series in
  length (ForecastResult.predictions_of r) = n
  /\ map Prediction.timestamp (ForecastResult.predictions_of r)
     = map (fun k => (List.last (map Point.timestamp series) 0 + Z.of_nat k * width * 3600000)%Z)
         (seq 1 n)
  /\ map Prediction.confidence (ForecastResult.predictions_of r)
     = map (fun k => IZR (Z.max 50 (95 - 5 * Z.of_nat k))) (seq 1 n)
  /\ map Point.timestamp (ForecastResult.smoothedHistory_of r) = map Point.timestamp series.
Proof.
  intros Hlen Hw f n r. subst r n f.
  pose proof (holt_shape (new options) (map Point.value series)) as (Hsm & _).
  unfold forecast. destruct (length series <? 4)%nat eqn:E; [apply Nat.ltb_lt in E; lia |].
  cbn [ForecastResult.predictions_of ForecastResult.smoothedHistory_of
         ForecastResult.predictions ForecastResult.smoothedHistory].
  unfold steps. rewrite !map_map. repeat split.
  - rewrite !length_map, length_seq. reflexivity.
  - apply map_ext. intros k. cbn [predict Prediction.timestamp].
    rewrite Hw.
    replace (IZR (List.last (map Point.timestamp series) 0%Z) + INR k * IZR width * 3600000)
      with (IZR (List.last (map Point.timestamp series) 0 + Z.of_nat k * width * 3600000)%Z)
      by (rewrite plus_IZR, !mult_IZR, <- INR_IZR_INZ; reflexivity).
    apply Date_of_number_IZR.
  - apply map_ext. intros k. cbn [predict Prediction.confidence].
    replace (95 - INR k * 5) with (IZR (95 - 5 * Z.of_nat k)%Z)
      by (rewrite minus_IZR, mult_IZR, <- INR_IZR_INZ; ring).
    rewrite (Math_max_IZR 50). apply Math_round_IZR.
  - rewrite length_map in Hsm.
    generalize dependent (smoothed (_holtSmoothing (new options) (map Point.value series))).
    intros sm Hsm. clear E Hlen.
    revert sm Hsm. induction series as [| pt series IH]; intros sm Hsm.
    + destruct sm; [reflexivity | discriminate].
    + destruct sm as [| v sm]; [discriminate |]. cbn. f_equal.
      apply IH. cbn in Hsm. lia.
Qed.

Lemma forecast_horizon_witness :
  (4 <= length (Samples.flat 10))%nat
  /\ bucketHours (new Samples.no_options) = IZR 6
  /\ let f := new Samples.no_options in
     let n := Z.to_nat (Zceil (forecastHours f / bucketHours f)) in
     let r := forecast f (Samples.flat 10) in
     length (ForecastResult.predictions_of r) = n
     /\ map Prediction.timestamp (ForecastResult.predictions_of r)
        = map (fun k => (List.last (map Point.timestamp (Samples.flat 10)) 0
                         + Z.of_nat k * 6 * 3600000)%Z)
            (seq 1 n)
     /\ map Prediction.confidence (ForecastResult.predictions_of r)
        = map (fun k => IZR (Z.max 50 (95 - 5 * Z.of_nat k))) (seq 1 n)
     /\ map Point.timestamp (ForecastResult.smoothedHistory_of r)
        = map Point.timestamp (Samples.flat 10).
Proof.
  split; [cbn; lia |]. split; [reflexivity |].
  apply (forecast_horizon Samples.no_options (Samples.flat 10) 6); [cbn; lia | reflexivity].
Defined.

Lemma forecast_linear_series_witness :
  (4 <= length Samples.rising)%nat
  /\ (forall i pt, Samples.rising !! i = Some pt -> Point.value pt = 10 + 2 * INR i)
  /\ exists r,
    forecast (new Samples.no_options) Samples.rising = ForecastResult.Full r
    /\ ForecastResult.standardError r = 0
    /\ ForecastResult.trendValue r = JS.Math_round (2 * 100) / 100
    /\ forall k p,
        ForecastResult.predictions r !! k = Some p ->
        Prediction.predicted p
        = JS.Math_round (JS.Math_max 0 (10 + 2 * INR (length Samples.rising + k)) * 100) / 100
        /\ Prediction.upper p = Prediction.predicted p
        /\ Prediction.lower p = Prediction.predicted p.
Proof.
  assert (H : forall i pt, Samples.rising !! i = Some pt -> Point.value pt = 10 + 2 * INR i).
  { intros i pt Hi.
    destruct i as [| [| [| [| i]]]]; cbn in Hi; try discriminate;
      injection Hi as <-; cbn; lra. }
  split; [cbn; lia |]. split; [exact H |].
  apply (forecast_linear_series Samples.no_options Samples.rising 10 2); [cbn; lia | exact H].
Defined.

End Smoothing.

(** ** Moving average, evaluation and the forecast set *)

Section MovingAverage.

Import Forecaster.
Local Open Scope R_scope.

Lemma ema_fold_bounds alpha lo hi rest : forall result,
  0 <= alpha <= 1 ->
  result <> [] ->
  Forall (fun v => lo <= v <= hi) result ->
  Forall (fun v => lo <= v <= hi) rest ->
  let out := fold_left (ema_step alpha) rest result in
  length out = (length result + length rest)%nat
  /\ Forall (fun v => lo <= v <= hi) out.
Proof.
  induction rest as [| v rest IH]; intros result Ha Hne Hres Hrest; cbn [fold_left length].
  - cbv zeta. split; [lia | exact Hres].
  - apply Forall_cons in Hrest as [Hv Hrest].
    assert (Hlast : lo <= List.last result 0 <= hi).
    { destruct (exists_last Hne) as (front & x & ->). rewrite last_last.
      apply Forall_app in Hres as [_ Hx]. apply Forall_cons in Hx as [Hx _]. exact Hx. }
    destruct (IH (ema_step alpha result v)) as (H1 & H2); try assumption.
    + unfold ema_step. intros E. apply app_eq_nil in E as [_ E]. discriminate.
    + unfold ema_step. apply Forall_app. split; [exact Hres |].
      constructor; [| constructor]. split; nra.
    + cbv zeta. split; [| exact H2].
      rewrite H1. unfold ema_step. rewrite length_app. cbn. lia.
Qed.

(** X11. [_ema] of no value is one [undefined] entry.  For one value or more it
    returns one number per value, the first being the first value, and in
    exact arithmetic, for a smoothing factor in [0, 1], every entry lies
    between any bounds of the input.  In binary64 an entry can leave the
    bounds by a rounding error: see [ema_rounding]. *)
Theorem ema_bounds values alpha lo hi :
  _ema [] alpha = [None]
  /\ (values <> [] ->
      0 <= alpha <= 1 ->
      Forall (fun v => lo <= v <= hi) values ->
      length (_ema values alpha) = length values
      /\ head (_ema values alpha) = Some (head values)
      /\ Forall (fun o => exists v, o = Some v /\ lo <= v <= hi) (_ema values alpha)).
Proof.
  split; [reflexivity |].
  intros Hne Ha Hv. destruct values as [| v0 rest]; [contradiction |].
  apply Forall_cons in Hv as [Hv0 Hrest].
  unfold _ema.
  destruct (ema_fold_bounds alpha lo hi rest [v0]) as (H1 & H2); try assumption;
    [discriminate | constructor; [lra | constructor] |].
  cbv zeta in H1, H2. repeat split.
  - rewrite length_map, H1. reflexivity.
  - assert (Hh : forall l result, head (fold_left (ema_step alpha) l (v0 :: result)) = Some v0).
    { induction l as [| x l IH]; intros result; [reflexivity |]. cbn [fold_left].
      unfold ema_step at 2. cbn [app]. apply IH. }
    specialize (Hh rest []).
    destruct (fold_left (ema_step alpha) rest [v0]); [discriminate |].
    cbn in *. congruence.
  - rewrite List.Forall_map. eapply Forall_impl; [exact H2 |]. intros v Hb. eauto.
Qed.

Lemma ema_bounds_witness :
  _ema [] 0.3 = [None]
  /\ length (_ema [1; 3; 2] 0.3) = length [1; 3; 2]
  /\ head (_ema [1; 3; 2] 0.3) = Some (head [1; 3; 2])
  /\ Forall (fun o => exists v, o = Some v /\ 1 <= v <= 3) (_ema [1; 3; 2] 0.3).
Proof.
  split; [reflexivity |].
  apply (proj2 (ema_bounds [1; 3; 2] 0.3 1 3)).
  - discriminate.
  - lra.
  - constructor; [lra |]. constructor; [lra |]. constructor; [lra | constructor].
Defined.

End MovingAverage.

Section Evaluate.

Import Forecaster.
Local Open Scope R_scope.

Lemma slice_length_le {A} (l : list A) s e :
  (length (JS.slice l s e) <= Z.to_nat (Z.max
     ((match e with Some e => JS.rel_index (Z.of_nat (length l)) e
                  | None => Z.of_nat (length l) end)
      - JS.rel_index (Z.of_nat (length l)) s) 0))%nat.
Proof.
  unfold JS.slice. rewrite length_take. lia.
Qed.

Lemma train_short (series : list Point.t) (holdoutSize : Z) :
  (1 <= holdoutSize)%Z ->
  (Z.of_nat (length series) - holdoutSize < 4)%Z ->
  (length (JS.slice series 0 (Some (- holdoutSize)%Z)) < 4)%nat.
Proof.
  intros Hh Hlen.
  pose proof (slice_length_le series 0 (Some (- holdoutSize)%Z)) as H.
  unfold JS.rel_index in H.
  destruct (Z.ltb_spec (- holdoutSize) 0); [| lia].
  destruct (Z.ltb_spec 0 0); lia.
Qed.

(** X12. [evaluate] has nothing to report when the training part, the series
    without its holdout, has fewer than four points; this is the case for
    every series of fewer than five points, whatever the holdout ratio. *)
Theorem evaluate_needs_training f series holdoutRatio :
  (length series < 5)%nat
  \/ (Z.of_nat (length series) - Z.max 1 (Zfloor (INR (length series) * holdoutRatio)) < 4)%Z ->
  evaluate f series holdoutRatio
  = {| Evaluation.mape := None; Evaluation.samplesUsed := 0; Evaluation.accuracy := None |}.
Proof.
  intros H.
  assert (Hshort : (length (JS.slice series 0
                              (Some (- Z.max 1 (Zfloor (INR (length series) * holdoutRatio)))%Z))
                    < 4)%nat).
  { apply train_short; lia. }
  unfold evaluate, forecast.
  apply Nat.ltb_lt in Hshort. rewrite Hshort. reflexivity.
Qed.


Lemma Math_round_complement x :
  JS.Math_round (10000 - x) = 10000 - JS.Math_round x
  \/ JS.Math_round (10000 - x) = 10000 - JS.Math_round x + 1.
Proof.
  unfold JS.Math_round.
  pose proof (Zfloor_bound (x + / 2)) as [H1 H2].
  set (k := Zfloor (x + / 2)) in *.
  destruct (Req_dec_T (x + / 2) (IZR k)) as [E | E].
  - right. replace (10000 - IZR k + 1) with (IZR (10000 - k + 1))
      by (rewrite plus_IZR, minus_IZR; reflexivity).
    f_equal. apply Zfloor_eq. rewrite plus_IZR, minus_IZR. lra.
  - left. replace (10000 - IZR k) with (IZR (10000 - k))
      by (rewrite minus_IZR; reflexivity).
    f_equal. apply Zfloor_eq. rewrite minus_IZR. lra.
Qed.

Lemma percentage_error_nonneg p s :
  0 <= Point.value s -> 0 <= percentage_error p s.
Proof.
  intros Hs. unfold percentage_error.
  assert (Ha : 0 < JS.or_num (Point.value s) 1).
  { unfold JS.or_num. destruct (JS.eqb (Point.value s) 0) eqn:E; [lra |].
    apply eqb_false in E. lra. }
  apply Rmult_le_pos; [apply Rabs_pos | apply Rlt_le, Rinv_0_lt_compat, Ha].
Qed.

Lemma total_error_nonneg pairs : forall acc,
  0 <= acc ->
  Forall (fun '(p, s) => 0 <= Point.value s) pairs ->
  0 <= fold_left (fun total '(p, s) => total + percentage_error p s) pairs acc.
Proof.
  induction pairs as [| [p s] pairs IH]; intros acc Hacc Hall; cbn [fold_left];
    [exact Hacc |].
  apply Forall_cons in Hall as [Hs Hall].
  apply IH; [| exact Hall].
  pose proof (percentage_error_nonneg p s Hs). lra.
Qed.

(** X13. What [evaluate] reports.  Either no prediction meets a holdout point
    and both figures are [null]; or both are numbers, the error percentage
    and the accuracy add up to 100, or to 100.01 when the error is an odd
    number of two-hundredths of a percent, and for a series without
    negative values the error is at least 0 and the accuracy at most 100. *)
Theorem evaluate_complement f series holdoutRatio :
  let e := evaluate f series holdoutRatio in
  (Evaluation.samplesUsed e = 0%nat
   /\ Evaluation.mape e = None /\ Evaluation.accuracy e = None)
  \/ ((0 < Evaluation.samplesUsed e)%nat
      /\ exists m a,
          Evaluation.mape e = Some m /\ Evaluation.accuracy e = Some a
          /\ (m + a = 100 \/ m + a = 100.01)
          /\ (Forall (fun pt => 0 <= Point.value pt) series -> 0 <= m /\ a <= 100)).
Proof.
  cbv zeta. unfold evaluate.
  set (h := Z.max 1 (Zfloor (INR (length series) * holdoutRatio))).
  set (test := JS.slice series (- h) None).
  set (preds := ForecastResult.predictions_of (forecast f (JS.slice series 0 (Some (- h)%Z)))).
  set (n := Nat.min (length preds) (length test)).
  set (total := fold_left _ _ 0).
  cbn [Evaluation.samplesUsed Evaluation.mape Evaluation.accuracy].
  destruct (0 <? n)%nat eqn:En.
  - right. apply Nat.ltb_lt in En. split; [exact En |].
    eexists. eexists. split; [reflexivity |]. split; [reflexivity |].
    set (x := total / INR n * 10000).
    replace ((1 - total / INR n) * 10000) with (10000 - x) by (subst x; ring).
    split.
    + destruct (Math_round_complement x) as [-> | ->]; [left | right]; lra.
    + intros Hpos.
      assert (Ht : 0 <= total).
      { subst total. apply total_error_nonneg; [lra |].
        apply Forall_forall. intros [p s] Hin.
        rewrite list_elem_of_In in Hin. apply in_combine_r in Hin.
        apply list_elem_of_In in Hin.
        assert (Htest : Forall (fun pt => 0 <= Point.value pt) (firstn n test)).
        { apply Forall_take. subst test. apply slice_Forall, Hpos. }
        rewrite Forall_forall in Htest. apply Htest, Hin. }
      assert (Hx : 0 <= x).
      { subst x. apply Rmult_le_pos; [| lra].
        apply Rmult_le_pos; [exact Ht |].
        apply Rlt_le, Rinv_0_lt_compat, lt_0_INR, En. }
      split.
      * apply Rmult_le_pos; [apply Math_round_nonneg, Hx | lra].
      * pose proof (Math_round_le (10000 - x) (IZR 10000)) as Hr.
        rewrite Math_round_IZR in Hr. specialize (Hr ltac:(lra)). lra.
  - left. apply Nat.ltb_ge in En. repeat split. lia.
Qed.

Lemma evaluate_needs_training_witness :
  ((length (Samples.flat 10) < 5)%nat
   \/ (Z.of_nat (length (Samples.flat 10))
       - Z.max 1 (Zfloor (INR (length (Samples.flat 10)) * 0.2)) < 4)%Z)
  /\ evaluate (new Samples.no_options) (Samples.flat 10) 0.2
     = {| Evaluation.mape := None; Evaluation.samplesUsed := 0;
          Evaluation.accuracy := None |}.
Proof.
  assert (H : (length (Samples.flat 10) < 5)%nat) by (cbn; lia).
  split; [left; exact H |].
  apply (evaluate_needs_training (new Samples.no_options) (Samples.flat 10) 0.2).
  left. exact H.
Defined.

End Evaluate.

Section ForecastAll.

Import Forecaster.
Local Open Scope R_scope.

Lemma lookup_tabulate {V} (g : string -> V) (keys : list string) (k : string) :
  (list_to_map (map (fun key => (key, g key)) keys) : gmap string V) !! k
  = if decide (k ∈ keys) then Some (g k) else None.
Proof.
  induction keys as [| key keys IH]; cbn [map list_to_map foldr].
  - rewrite lookup_empty. destruct (decide _) as [H | _]; [inversion H | reflexivity].
  - change (foldr _ _ _) with (list_to_map (map (fun key => (key, g key)) keys) : gmap string V).
    cbn [uncurry fst snd].
    destruct (decide (key = k)) as [-> | Hne].
    + rewrite lookup_insert_eq. destruct (decide (k ∈ k :: keys)) as [_ | H]; [reflexivity |].
      exfalso. apply H. left.
    + rewrite lookup_insert_ne by exact Hne. rewrite IH.
      destruct (decide (k ∈ keys)) as [H | H]; destruct (decide (k ∈ key :: keys)) as [H' | H'];
        try reflexivity; exfalso.
      * apply H'. right. exact H.
      * apply elem_of_cons in H' as [-> | H']; [congruence | contradiction].
Qed.

(** X14. The forecasts of [forecastAll]: one per disease of the fixed list and
    no other; one per region that occurs in some aggregate and no other;
    with fewer than four aggregates the overall forecast and each of these
    is the insufficient-data result. *)
Theorem forecastAll_keys f now aggregatedAdmissions :
  let fs := forecastAll f now aggregatedAdmissions in
  (forall disease,
      is_Some (Forecasts.byDisease fs !! disease)
      <-> disease ∈ ["Cholera"; "Typhoid"; "Dengue"; "Malaria"]%string)
  /\ (forall regionId,
        is_Some (Forecasts.byRegion fs !! regionId)
        <-> exists a, a ∈ aggregatedAdmissions
                      /\ is_Some (DataPreprocessor.TimeBucket.byRegion a !! regionId))
  /\ ((length aggregatedAdmissions < 4)%nat ->
      Forecasts.overall fs = ForecastResult.Insufficient
      /\ (forall disease r, Forecasts.byDisease fs !! disease = Some r ->
                            r = ForecastResult.Insufficient)
      /\ (forall regionId r, Forecasts.byRegion fs !! regionId = Some r ->
                             r = ForecastResult.Insufficient)).
Proof.
  cbv zeta. unfold forecastAll.
  cbn [Forecasts.byDisease Forecasts.byRegion Forecasts.overall].
  split; [| split].
  - intros disease. rewrite lookup_tabulate.
    destruct (decide (disease ∈ diseases)) as [H | H].
    + split; [intros _; exact H | intros _; eauto].
    + split; [intros [? E]; discriminate | intros H'; contradiction].
  - intros regionId. rewrite lookup_tabulate.
    assert (Hiff : regionId ∈ elements
                     (⋃ map (fun a => dom (DataPreprocessor.TimeBucket.byRegion a))
                          aggregatedAdmissions : gset string)
                   <-> exists a, a ∈ aggregatedAdmissions
                                 /\ is_Some (DataPreprocessor.TimeBucket.byRegion a !! regionId)).
    { rewrite elem_of_elements, elem_of_union_list. split.
      - intros (X & HX & Hin). rewrite list_elem_of_In, in_map_iff in HX.
        destruct HX as (a & <- & Ha). exists a. split; [apply list_elem_of_In, Ha |].
        apply elem_of_dom, Hin.
      - intros (a & Ha & Hs). eexists. split.
        + apply list_elem_of_In, in_map_iff. exists a. split; [reflexivity |].
          apply list_elem_of_In, Ha.
        + apply elem_of_dom, Hs. }
    destruct (decide _) as [H | H]; split; intros H'.
    + apply Hiff, H.
    + eauto.
    + destruct H' as [? H']. discriminate.
    + exfalso. apply H, Hiff, H'.
  - intros Hlen.
    assert (Hshort : forall g : DataPreprocessor.TimeBucket.t -> Z,
               forecast f (map (fun a => {| Point.timestamp := DataPreprocessor.TimeBucket.timestamp a;
                                            Point.value := IZR (g a) |}) aggregatedAdmissions)
               = ForecastResult.Insufficient).
    { intros g. unfold forecast. rewrite length_map.
      apply Nat.ltb_lt in Hlen. rewrite Hlen. reflexivity. }
    split; [apply Hshort |]. split.
    + intros disease r. rewrite lookup_tabulate. destruct (decide _); [| discriminate].
      intros E. injection E as <-. apply Hshort.
    + intros regionId r. rewrite lookup_tabulate. destruct (decide _); [| discriminate].
      intros E. injection E as <-. apply Hshort.
Qed.

End ForecastAll.

Section TrendScore.

Import Forecaster RiskClassifier.
Local Open Scope R_scope.

Lemma round2_half_le x : 0.5 <= x -> 0.5 <= JS.Math_round (x * 100) / 100.
Proof.
  intros H. pose proof (Math_round_le (IZR 50) (x * 100)) as Hr.
  rewrite Math_round_IZR in Hr. specialize (Hr ltac:(lra)). lra.
Qed.

Lemma round2_le_minus_half x : x <= -0.5 -> JS.Math_round (x * 100) / 100 <= -0.5.
Proof.
  intros H. pose proof (Math_round_le (x * 100) (IZR (-50))) as Hr.
  rewrite Math_round_IZR in Hr. specialize (Hr ltac:(lra)). lra.
Qed.

(** X15. In exact arithmetic the trend factor of a forecast that
    [forecast] produced lies in [0, 1]: 0.5 without a forecast, for too
    short a series and for a stable trend, at least 0.65 for a rising trend
    and at most 0.35 for a falling one.  In binary64 the factor of a
    falling trend can exceed 0.35 by a rounding error: see
    [trendScore_rounding]. *)
Theorem trendScore_of_forecast f series :
  _trendScore None = 0.5
  /\ let r := forecast f series in
     0 <= _trendScore (Some r) <= 1
     /\ (ForecastResult.trend_of r = "rising"%string -> 0.65 <= _trendScore (Some r))
     /\ (ForecastResult.trend_of r = "falling"%string -> _trendScore (Some r) <= 0.35)
     /\ (ForecastResult.trend_of r = "stable"%string
         \/ ForecastResult.trend_of r = "insufficient_data"%string ->
         _trendScore (Some r) = 0.5).
Proof.
  split; [reflexivity |]. cbv zeta. unfold forecast.
  destruct (length series <? 4)%nat.
  { cbn. repeat split; try lra; intros; try discriminate; try reflexivity. }
  set (hs := _holtSmoothing f (map Point.value series)).
  cbn [ForecastResult.trend_of ForecastResult.trend _trendScore ForecastResult.trendValue].
  unfold JS.ltb.
  destruct (Rlt_dec 0.5 (trend hs)) as [Hr | Hr].
  - cbn [String.eqb Ascii.eqb Bool.eqb].
    pose proof (round2_half_le (trend hs) ltac:(lra)) as Hb.
    unfold JS.Math_min, Rmin.
    destruct (Rle_dec _ _); repeat split; intros; try discriminate; try lra;
      try (destruct H; discriminate).
  - destruct (Rlt_dec (trend hs) (-0.5)) as [Hf | Hf].
    + cbn [String.eqb Ascii.eqb Bool.eqb].
      pose proof (round2_le_minus_half (trend hs) ltac:(lra)) as Hb.
      unfold JS.Math_abs. rewrite Rabs_left by lra.
      unfold JS.Math_max, Rmax.
      destruct (Rle_dec _ _); repeat split; intros; try discriminate; try lra;
        try (destruct H; discriminate).
    + cbn [String.eqb Ascii.eqb Bool.eqb].
      repeat split; intros; try discriminate; try lra; try reflexivity.
Qed.

End TrendScore.

(** ** Where binary64 leaves the bounds of exact arithmetic *)

Section RoundingError.

Import PrimFloat.
Local Open Scope float_scope.

(** Three values of 0.1 add up to 0.30000000000000004, and their mean is
    above each of them. *)
Example rollingAverage_rounding :
  Binary64.DataPreprocessor.rollingAverage [0.1; 0.1; 0.1] 7
  = [0.1; 0.1; 0.10000000000000002]
  /\ (0.1 <? 0.10000000000000002) = true.
Proof. split; reflexivity. Qed.

(** The average of a constant series falls below the constant. *)
Example ema_rounding :
  Binary64.Forecaster._ema [3; 3; 3; 3] 0.3
  = [Some 3; Some 2.9999999999999996; Some 2.9999999999999996; Some 2.9999999999999996]
  /\ (2.9999999999999996 <? 3) = true.
Proof. split; reflexivity. Qed.

(** A series that falls by 0.501 a bucket has the trend value -0.5, and
    [0.4 - 0.5 * 0.1] is above 0.35. *)
Example trendScore_rounding :
  let forecast :=
    Binary64.Forecaster.forecast Binary64.Api.forecaster [10; 9.499; 8.998; 8.497] in
  (exists r, forecast = Binary64.Forecaster.ForecastResult.Full r
             /\ Binary64.Forecaster.ForecastResult.trend r = "falling"%string
             /\ Binary64.Forecaster.ForecastResult.trendValue r = -0.5)
  /\ Binary64.RiskClassifier._trendScore (Some forecast) = 0.35000000000000003
  /\ (0.35 <? 0.35000000000000003) = true.
Proof.
  cbv zeta. split; [| split; reflexivity].
  eexists. split; [vm_compute; reflexivity | split; reflexivity].
Qed.

End RoundingError.

(** ** The risk factors and the ranking *)

Section Factors.

Import DataPreprocessor RiskClassifier Spec.
Local Open Scope R_scope.

Lemma count_of_nonneg (m : gmap string Z) k :
  counts_nonneg m -> (0 <= RiskClassifier.count_of m k)%Z.
Proof.
  intros Hm. unfold RiskClassifier.count_of. rewrite or_count_zero.
  destruct (m !! k) as [v |] eqn:E; cbn; [| lia].
  apply (Hm k v E).
Qed.

Lemma fold_IZR {A} (g : A -> Z) l : forall acc : Z,
  fold_left (fun s a => s + IZR (g a)) l (IZR acc) = IZR (acc + JS.sumZ (map g l)).
Proof.
  induction l as [| x l IH]; intros acc; cbn [fold_left map].
  - unfold JS.sumZ. cbn. f_equal. lia.
  - rewrite <- plus_IZR, IH, sumZ_cons. f_equal. lia.
Qed.

Lemma fold_IZR_0 {A} (g : A -> Z) l :
  fold_left (fun s a => s + IZR (g a)) l 0 = IZR (JS.sumZ (map g l)).
Proof. rewrite (fold_IZR g l 0). f_equal. Qed.

Lemma sumZ_nonneg l : Forall (fun x => (0 <= x)%Z) l -> (0 <= JS.sumZ l)%Z.
Proof.
  induction 1 as [| x l Hx _ IH]; [unfold JS.sumZ; cbn; lia |].
  rewrite sumZ_cons. lia.
Qed.

Lemma or_num_count (n : Z) : (0 <= n)%Z -> JS.or_num (IZR n) 1 = IZR (Z.max 1 n).
Proof.
  intros Hn. unfold JS.or_num. destruct (JS.eqb (IZR n) 0) eqn:E.
  - apply eqb_true, eq_IZR in E. subst n. reflexivity.
  - apply eqb_false in E. f_equal.
    assert (n <> 0%Z) by (intros ->; apply E; reflexivity). lia.
Qed.

(** X16. The velocity factor in terms of the region's admissions [recent] in
    the last four buckets and [previous] in the four before (read as 1 when
    there is none): it is 0 as long as [recent] does not exceed
    [previous], grows with a third of the relative increase, and is 1 from
    a fourfold count on. *)
Theorem admissionVelocity_saturates recentAdmissions regionId :
  Forall (fun a => counts_nonneg (TimeBucket.byRegion a)) recentAdmissions ->
  let recent := region_admissions regionId (JS.slice recentAdmissions (-4) None) in
  let previous :=
    Z.max 1 (region_admissions regionId (JS.slice recentAdmissions (-8) (Some (-4)%Z))) in
  let v := _admissionVelocity recentAdmissions regionId in
  0 <= v <= 1
  /\ ((recent <= previous)%Z -> v = 0)
  /\ ((previous <= recent <= 4 * previous)%Z -> v = IZR (recent - previous) / IZR (3 * previous))
  /\ ((4 * previous <= recent)%Z -> v = 1).
Proof.
  intros Hnn recent previous v. subst v. unfold _admissionVelocity.
  rewrite !fold_IZR_0. fold (region_admissions regionId (JS.slice recentAdmissions (-4) None)).
  fold (region_admissions regionId (JS.slice recentAdmissions (-8) (Some (-4)%Z))).
  fold recent.
  assert (Hprev : (0 <= region_admissions regionId
                          (JS.slice recentAdmissions (-8) (Some (-4)%Z)))%Z).
  { apply sumZ_nonneg. rewrite List.Forall_map.
    eapply Forall_impl; [apply slice_Forall, Hnn |].
    intros a Ha. apply count_of_nonneg, Ha. }
  rewrite or_num_count by exact Hprev. fold previous.
  assert (Hp : (1 <= previous)%Z) by (subst previous; lia).
  assert (HpR : 1 <= IZR previous) by (apply IZR_le in Hp; exact Hp).
  set (q := (IZR recent - IZR previous) / IZR previous / 3).
  assert (Hq : q * (3 * IZR previous) = IZR recent - IZR previous).
  { subst q. field. lra. }
  unfold JS.Math_min, JS.Math_max.
  repeat split.
  - unfold Rmin, Rmax. repeat destruct (Rle_dec _ _); lra.
  - unfold Rmin, Rmax. repeat destruct (Rle_dec _ _); lra.
  - intros H. apply IZR_le in H.
    assert (q <= 0) by nra.
    rewrite Rmax_left by lra. apply Rmin_right. lra.
  - intros [H1 H2]. apply IZR_le in H1, H2. rewrite mult_IZR in H2.
    assert (0 <= q <= 1) by nra.
    rewrite Rmax_right by lra. rewrite Rmin_right by lra.
    subst q. rewrite minus_IZR, mult_IZR. field. lra.
  - intros H. apply IZR_le in H. rewrite mult_IZR in H.
    assert (1 <= q) by nra.
    rewrite Rmax_right by lra. apply Rmin_left. lra.
Qed.


Lemma bucket_nonneg timestamp total severe :
  (0 <= severe <= total)%Z ->
  (0 <= TimeBucket.total (Samples.bucket timestamp total severe))%Z
  /\ counts_nonneg (TimeBucket.byRegion (Samples.bucket timestamp total severe))
  /\ counts_nonneg (TimeBucket.bySeverity (Samples.bucket timestamp total severe)).
Proof.
  intros H. split; [cbn; lia |]. split.
  - apply map_Forall_singleton. lia.
  - apply map_Forall_insert_2; [lia | apply map_Forall_singleton; lia].
Defined.

Lemma surge_nonneg :
  Forall (fun a => (0 <= TimeBucket.total a)%Z
                   /\ counts_nonneg (TimeBucket.byRegion a)
                   /\ counts_nonneg (TimeBucket.bySeverity a)) Samples.surge.
Proof.
  unfold Samples.surge.
  repeat (apply List.Forall_cons; [apply bucket_nonneg; lia |]). apply List.Forall_nil.
Defined.

Lemma admissionVelocity_saturates_witness :
  Forall (fun a => counts_nonneg (TimeBucket.byRegion a)) Samples.surge
  /\ _admissionVelocity Samples.surge "region-1" = IZR (80 - 40) / IZR (3 * 40).
Proof.
  assert (H : Forall (fun a => counts_nonneg (TimeBucket.byRegion a)) Samples.surge).
  { eapply Forall_impl; [apply surge_nonneg |]. cbn. tauto. }
  split; [exact H |].
  apply (admissionVelocity_saturates Samples.surge "region-1" H). vm_compute.
  split; discriminate.
Defined.

Lemma water_scores_between (lo hi : R) waterAgg regionId :
  (length (JS.slice waterAgg (-3) None) =? 0)%nat = false ->
  Forall (fun w => match WaterBucket.regionAverages w !! regionId with
                   | None => lo <= 50 <= hi
                   | Some data =>
                       lo <= computeWQI
                               {| pH := RegionAverage.avgPH data;
                                  turbidity := RegionAverage.avgTurbidity data;
                                  coliformCount := RegionAverage.avgColiform data;
                                  dissolvedOxygen := RegionAverage.avgDO data;
                                  chlorineResidual := 0.5 |} <= hi
                   end) (JS.slice waterAgg (-3) None) ->
  1 - hi / 100 <= _waterQualityScore waterAgg regionId <= 1 - lo / 100.
Proof.
  intros E Hall. unfold _waterQualityScore. rewrite E.
  set (recentWater := JS.slice waterAgg (-3) None) in *.
  set (scores := map _ recentWater).
  apply Nat.eqb_neq in E.
  assert (Hne : scores <> []).
  { unfold scores. destruct recentWater; [contradiction | discriminate]. }
  assert (Hb : Forall (fun v => lo <= v <= hi) scores).
  { unfold scores. rewrite List.Forall_map. eapply Forall_impl; [exact Hall |].
    intros w Hw. cbn beta in Hw |- *.
    destruct (WaterBucket.regionAverages w !! regionId); exact Hw. }
  pose proof (mean_bounds lo hi _ Hne Hb). lra.
Qed.

Lemma waterQualityScore_unit waterAgg regionId :
  0 <= _waterQualityScore waterAgg regionId <= 1.
Proof.
  destruct (length (JS.slice waterAgg (-3) None) =? 0)%nat eqn:E.
  { unfold _waterQualityScore. rewrite E. lra. }
  assert (H : 1 - 100 / 100 <= _waterQualityScore waterAgg regionId <= 1 - 0 / 100).
  { apply water_scores_between; [exact E |].
    apply Forall_forall. intros w _.
    destruct (WaterBucket.regionAverages w !! regionId); [apply computeWQI_range | lra]. }
  lra.
Qed.

(** X17. The water factor lies in [0, 1]; it is 0.5 when there is no water
    aggregate at all and when none of the last three aggregates has a
    reading for the region. *)
Theorem waterQualityScore_range waterAgg regionId :
  0 <= _waterQualityScore waterAgg regionId <= 1
  /\ (waterAgg = [] -> _waterQualityScore waterAgg regionId = 0.5)
  /\ (Forall (fun w => WaterBucket.regionAverages w !! regionId = None)
        (JS.slice waterAgg (-3) None) ->
      _waterQualityScore waterAgg regionId = 0.5).
Proof.
  split; [apply waterQualityScore_unit |]. split.
  - intros ->. reflexivity.
  - intros Hnone.
    destruct (length (JS.slice waterAgg (-3) None) =? 0)%nat eqn:E.
    { unfold _waterQualityScore. rewrite E. reflexivity. }
    assert (H : 1 - 50 / 100 <= _waterQualityScore waterAgg regionId <= 1 - 50 / 100).
    { apply water_scores_between; [exact E |].
      eapply Forall_impl; [exact Hnone |]. intros w Hw. cbn beta in Hw.
      rewrite Hw. lra. }
    lra.
Qed.

Lemma severityIndex_range recentAdmissions :
  Forall (fun a => (0 <= TimeBucket.total a)%Z /\ counts_nonneg (TimeBucket.bySeverity a))
    recentAdmissions ->
  0 <= _severityIndex recentAdmissions <= 1.
Proof.
  intros Hnn. unfold _severityIndex.
  rewrite !fold_IZR_0.
  set (last48h := JS.slice recentAdmissions (-8) None).
  assert (Hl : Forall (fun a => (0 <= TimeBucket.total a)%Z
                                /\ counts_nonneg (TimeBucket.bySeverity a)) last48h)
    by apply slice_Forall, Hnn.
  assert (Hs : (0 <= JS.sumZ (map (fun a => RiskClassifier.count_of (TimeBucket.bySeverity a)
                                             "Severe") last48h))%Z).
  { apply sumZ_nonneg. rewrite List.Forall_map. eapply Forall_impl; [exact Hl |].
    intros a [_ Ha]. apply count_of_nonneg, Ha. }
  assert (Ht : (0 <= JS.sumZ (map TimeBucket.total last48h))%Z).
  { apply sumZ_nonneg. rewrite List.Forall_map. eapply Forall_impl; [exact Hl |].
    intros a [Ha _]. exact Ha. }
  rewrite or_num_count by exact Ht.
  apply IZR_le in Hs.
  assert (Hp : 1 <= IZR (Z.max 1 (JS.sumZ (map TimeBucket.total last48h))))
    by (apply IZR_le; lia).
  set (x := IZR (JS.sumZ (map _ last48h)) / IZR (Z.max 1 _) * 3).
  assert (Hx : 0 <= x).
  { subst x. apply Rmult_le_pos; [| lra].
    apply Rmult_le_pos; [exact Hs | apply Rlt_le, Rinv_0_lt_compat; lra]. }
  unfold JS.Math_min, Rmin. destruct (Rle_dec 1 x); lra.
Qed.

Lemma trendScore_range f series :
  0 <= _trendScore (Some (Forecaster.forecast f series)) <= 1.
Proof.
  unfold Forecaster.forecast.
  destruct (length series <? 4)%nat; [cbn; lra |].
  set (hs := Forecaster._holtSmoothing f (map Point.value series)).
  cbn [_trendScore Forecaster.ForecastResult.trend Forecaster.ForecastResult.trendValue].
  unfold JS.ltb.
  destruct (Rlt_dec 0.5 (Forecaster.trend hs)) as [Hr | Hr].
  - cbn [String.eqb Ascii.eqb Bool.eqb].
    pose proof (round2_half_le (Forecaster.trend hs) ltac:(lra)) as Hb.
    unfold JS.Math_min, Rmin. destruct (Rle_dec _ _); lra.
  - destruct (Rlt_dec (Forecaster.trend hs) (-0.5)) as [Hf | Hf];
      cbn [String.eqb Ascii.eqb Bool.eqb]; [| lra].
    unfold JS.Math_max, Rmax. destruct (Rle_dec _ _); [| lra].
    pose proof (Rabs_pos (JS.Math_round (Forecaster.trend hs * 100) / 100)).
    unfold JS.Math_abs in *. lra.
Qed.

Lemma velocity_range recentAdmissions regionId :
  0 <= _admissionVelocity recentAdmissions regionId <= 1.
Proof.
  unfold _admissionVelocity, JS.Math_min, JS.Math_max, Rmin, Rmax.
  repeat destruct (Rle_dec _ _); lra.
Qed.

Lemma factor_ranges region admissionAgg waterAgg forecast :
  0 <= Region.population region ->
  Forall (fun a => (0 <= TimeBucket.total a)%Z /\ counts_nonneg (TimeBucket.bySeverity a))
    admissionAgg ->
  (forecast = None \/ exists f series, forecast = Some (Forecaster.forecast f series)) ->
  0 <= _admissionVelocity admissionAgg (Region.id region) <= 1
  /\ 0 <= _waterQualityScore waterAgg (Region.id region) <= 1
  /\ 0 <= _severityIndex admissionAgg <= 1
  /\ 0 <= JS.Math_min 1 (Region.population region / 200000) <= 1
  /\ 0 <= _trendScore forecast <= 1.
Proof.
  intros Hp Hnn Hf.
  split; [apply velocity_range |]. split; [apply waterQualityScore_unit |].
  split; [apply severityIndex_range, Hnn |]. split.
  - unfold JS.Math_min, Rmin. destruct (Rle_dec _ _); lra.
  - destruct Hf as [-> | (f & series & ->)]; [cbn; lra | apply trendScore_range].
Qed.

Lemma round2_unit x : 0 <= x <= 1 -> 0 <= round2 x <= 1.
Proof.
  intros H. unfold round2.
  pose proof (Math_round_between 0 100 (x * 100) ltac:(lra)). lra.
Qed.

(** X18. The composite score and the reported [riskScore] lie in [0, 1] for a
    region whose historical risk is in [0, 1] and whose population is not
    negative, over aggregates without negative counts and a forecast that
    the forecaster produced (or none). *)
Theorem compositeScore_unit_interval region admissionAgg waterAgg forecast :
  0 <= Region.historicalRisk region <= 1 ->
  0 <= Region.population region ->
  Forall (fun a => (0 <= TimeBucket.total a)%Z /\ counts_nonneg (TimeBucket.bySeverity a))
    admissionAgg ->
  (forecast = None \/ exists f series, forecast = Some (Forecaster.forecast f series)) ->
  0 <= compositeScore region admissionAgg waterAgg forecast <= 1
  /\ 0 <= RiskClassification.riskScore (classifyRegion region admissionAgg waterAgg forecast)
     <= 1.
Proof.
  intros Hh Hp Hnn Hf.
  destruct (factor_ranges region admissionAgg waterAgg forecast Hp Hnn Hf)
    as (Hv & Hw & Hsev & Hd & Ht).
  assert (Hs : 0 <= compositeScore region admissionAgg waterAgg forecast <= 1).
  { unfold compositeScore.
    cbn [weights Weights.admissionVelocity Weights.waterQuality Weights.severityIndex
           Weights.historicalRisk Weights.populationDensity Weights.trendScore].
    lra. }
  split; [exact Hs |].
  cbn [classifyRegion RiskClassification.riskScore]. apply round2_unit, Hs.
Qed.

Lemma compositeScore_unit_interval_witness :
  0 <= compositeScore Samples.central Samples.surge [] None <= 1.
Proof.
  apply (compositeScore_unit_interval Samples.central Samples.surge [] None).
  - cbn. lra.
  - cbn. lra.
  - eapply Forall_impl; [apply surge_nonneg |]. cbn. tauto.
  - left. reflexivity.
Defined.

End Factors.

Section Ranking.

Import DataPreprocessor RiskClassifier Spec Api.
Local Open Scope R_scope.

(** X19. [classifyAll] classifies every region once, each with the forecast
    stored under its own id, and returns the classifications by
    non-increasing risk score. *)
Theorem classifyAll_ranked regions admissionAgg waterAgg forecasts :
  let results := classifyAll regions admissionAgg waterAgg forecasts in
  Permutation results
    (map (fun region => classifyRegion region admissionAgg waterAgg
                          (region_forecast forecasts (Region.id region))) regions)
  /\ length results = length regions
  /\ StronglySorted
       (fun a b => RiskClassification.riskScore b <= RiskClassification.riskScore a)
       results.
Proof.
  cbv zeta. unfold classifyAll.
  set (after := fun a b => JS.ltb 0 (RiskClassification.riskScore b
                                     - RiskClassification.riskScore a)).
  set (raw := map _ regions).
  pose proof (sort_Permutation after raw) as Hperm.
  split; [exact Hperm |]. split.
  - rewrite (Permutation_length Hperm). subst raw. apply length_map.
  - eapply StronglySorted_impl; [| apply sort_sorted].
    + intros a b _ _ H. unfold after in H. apply ltb_false in H. lra.
    + intros x y H. unfold after in *. apply ltb_true in H. apply ltb_false. lra.
    + intros x y z H1 H2. unfold after in *.
      apply ltb_false in H1, H2. apply ltb_false. lra.
Qed.





End Ranking.

(** ** The number and the order of the alerts *)

Section AlertCount.

Import RiskClassifier Spec Api.
Local Open Scope nat_scope.

Lemma slice_last_length {A} (l : list A) (k : Z) :
  (0 < k)%Z -> length (JS.slice l (- k) None) = Nat.min (Z.to_nat k) (length l).
Proof.
  intros Hk. unfold JS.slice, JS.rel_index.
  destruct (Z.ltb_spec (- k) 0); [| lia].
  rewrite length_take, length_drop. lia.
Qed.

Lemma risk_alert_length now rc :
  length (risk_alert now rc) = if alerting rc then 1 else 0.
Proof.
  unfold risk_alert, alerting. destruct (RiskClassification.riskLevel rc); reflexivity.
Qed.

Lemma risk_alerts_length now riskClassifications :
  length (concat (map (risk_alert now) riskClassifications))
  = length (List.filter alerting riskClassifications).
Proof.
  induction riskClassifications as [| rc l IH]; [reflexivity |].
  cbn [map concat List.filter]. rewrite length_app, risk_alert_length, IH.
  destruct (alerting rc); reflexivity.
Qed.

Lemma collect_alerts_length now riskClassifications anomalies :
  length (collect_alerts now riskClassifications anomalies)
  = alert_count riskClassifications anomalies.
Proof.
  unfold collect_alerts, alert_count.
  rewrite !length_app, risk_alerts_length, <- Nat.add_assoc. f_equal. f_equal.
  - destruct anomalies as [[[overall |] ? ?] |]; try reflexivity.
    rewrite length_map, slice_last_length by lia. reflexivity.
  - destruct anomalies as [[? [byDisease |] ?] |]; try reflexivity.
    induction byDisease as [| [disease data] l IH]; [reflexivity |].
    cbn [map concat sum_list sum_list_with]. rewrite length_app, IH.
    rewrite length_map, slice_last_length by lia. reflexivity.
Qed.

Lemma filter_severity key (s : string) l :
  (forall a, (sort_key (Alert.severity a) =? key)%Z = true ->
             Alert.severity a = "critical"%string \/ Alert.severity a = "high"%string ->
             Alert.severity a = s) ->
  Forall (fun a => Alert.severity a = "critical"%string \/ Alert.severity a = "high"%string) l ->
  Forall (fun a => Alert.severity a = s)
    (List.filter (fun a => (sort_key (Alert.severity a) =? key)%Z) l).
Proof.
  intros Hkey Hl. apply Forall_forall. intros a Ha.
  rewrite list_elem_of_In, filter_In in Ha. destruct Ha as [Hin Hk].
  rewrite Forall_forall in Hl. apply Hkey; [exact Hk |].
  apply Hl, list_elem_of_In, Hin.
Qed.

(** X21. The alert generator returns as many alerts as its three loops push:
    one per Critical or High classification, at most five for the overall
    series and at most two per disease series.  What it returns is a
    rearrangement of what was pushed in which every [high] alert stands
    before every [critical] one. *)
Theorem generateAlerts_count_and_order now riskClassifications anomalies :
  let alerts := generateAlerts now riskClassifications anomalies in
  length alerts = alert_count riskClassifications anomalies
  /\ Permutation alerts (collect_alerts now riskClassifications anomalies)
  /\ exists highs criticals,
       alerts = highs ++ criticals
       /\ Forall (fun a => Alert.severity a = "high"%string) highs
       /\ Forall (fun a => Alert.severity a = "critical"%string) criticals.
Proof.
  cbv zeta. split; [| split].
  - unfold generateAlerts. rewrite (Permutation_length (sort_Permutation _ _)).
    apply collect_alerts_length.
  - apply sort_Permutation.
  - rewrite generateAlerts_high_first. do 2 eexists. split; [reflexivity |].
    split; apply filter_severity; try apply collect_alerts_severity.
    + intros a Hk [E | E]; [| exact E]. rewrite E in Hk. discriminate.
    + intros a Hk [E | E]; [exact E |]. rewrite E in Hk. discriminate.
Qed.






End AlertCount.

(** ** The correlation coefficient and the detector *)

Section Sums.

Local Open Scope R_scope.

Lemma fold_sum_map {A} (g : A -> R) l : forall acc,
  fold_left (fun s x => s + g x) l acc = acc + JS.sum (map g l).
Proof.
  induction l as [| x l IH]; intros acc; cbn [map fold_left].
  - unfold JS.sum. cbn. lra.
  - rewrite IH, sum_cons. lra.
Qed.

Lemma sum_app l1 l2 : JS.sum (l1 ++ l2) = JS.sum l1 + JS.sum l2.
Proof.
  induction l1 as [| x l1 IH]; cbn [app].
  - unfold JS.sum at 2. cbn. lra.
  - rewrite !sum_cons, IH. lra.
Qed.

Lemma sum_map_plus {A} (g h : A -> R) l :
  JS.sum (map (fun x => g x + h x) l) = JS.sum (map g l) + JS.sum (map h l).
Proof.
  induction l as [| x l IH]; cbn [map]; [unfold JS.sum; cbn; lra |].
  rewrite !sum_cons, IH. lra.
Qed.

Lemma sum_map_scale {A} (c : R) (g : A -> R) l :
  JS.sum (map (fun x => c * g x) l) = c * JS.sum (map g l).
Proof.
  induction l as [| x l IH]; cbn [map]; [unfold JS.sum; cbn; lra |].
  rewrite !sum_cons, IH. lra.
Qed.

Lemma sum_map_const {A} (c : R) (l : list A) :
  JS.sum (map (fun _ => c) l) = INR (length l) * c.
Proof.
  induction l as [| x l IH]; [unfold JS.sum; cbn; lra |].
  cbn [map]. rewrite sum_cons, IH. change (length (x :: l)) with (S (length l)).
  rewrite S_INR. lra.
Qed.

Lemma sum_map_ext {A} (g h : A -> R) l :
  (forall x, In x l -> g x = h x) -> JS.sum (map g l) = JS.sum (map h l).
Proof.
  intros H. f_equal. apply map_ext_in, H.
Qed.

Lemma sum_squares_nonneg {A} (g : A -> R) l : 0 <= JS.sum (map (fun x => g x * g x) l).
Proof.
  induction l as [| x l IH]; cbn [map]; [unfold JS.sum; cbn; lra |].
  rewrite sum_cons. pose proof (Rle_0_sqr (g x)) as H. unfold Rsqr in H. lra.
Qed.

Lemma sum_squares_zero {A} (g : A -> R) l :
  JS.sum (map (fun x => g x * g x) l) = 0 -> Forall (fun x => g x = 0) l.
Proof.
  induction l as [| x l IH]; cbn [map]; [constructor |].
  rewrite sum_cons. intros H.
  pose proof (Rle_0_sqr (g x)) as Hx. unfold Rsqr in Hx.
  pose proof (sum_squares_nonneg g l) as Hl.
  constructor; [| apply IH; lra].
  assert (Hz : g x * g x = 0) by lra.
  apply Rmult_integral in Hz. tauto.
Qed.

(** The Cauchy-Schwarz inequality over the pairs of a list. *)
Lemma cauchy_schwarz {A} (g h : A -> R) l :
  JS.sum (map (fun x => g x * h x) l) * JS.sum (map (fun x => g x * h x) l)
  <= JS.sum (map (fun x => g x * g x) l) * JS.sum (map (fun x => h x * h x) l).
Proof.
  induction l as [| x l IH]; cbn [map]; [unfold JS.sum; cbn; lra |].
  rewrite !sum_cons.
  pose proof (sum_squares_nonneg g l) as HA.
  pose proof (sum_squares_nonneg h l) as HB.
  set (P := JS.sum (map (fun x => g x * h x) l)) in *.
  set (SA := JS.sum (map (fun x => g x * g x) l)) in *.
  set (SB := JS.sum (map (fun x => h x * h x) l)) in *.
  set (a := g x). set (b := h x).
  assert (Hmix : 2 * (a * b) * P <= a * a * SB + b * b * SA).
  { destruct (Req_dec SA 0) as [E | E].
    - assert (HP : P = 0).
      { rewrite E in IH. pose proof (Rle_0_sqr P) as H. unfold Rsqr in H.
        assert (Hz : P * P = 0) by lra. apply Rmult_integral in Hz. tauto. }
      rewrite HP, E. pose proof (Rle_0_sqr a) as H. unfold Rsqr in H.
      assert (0 <= a * a * SB) by (apply Rmult_le_pos; assumption). lra.
    - assert (Hpos : 0 < SA) by lra.
      apply Rmult_le_reg_l with SA; [exact Hpos |].
      pose proof (Rle_0_sqr (a * P - b * SA)) as Hs. unfold Rsqr in Hs.
      assert (Hx : a * a * (P * P) <= a * a * (SA * SB)).
      { apply Rmult_le_compat_l; [| exact IH].
        pose proof (Rle_0_sqr a) as H. unfold Rsqr in H. exact H. }
      lra. }
  lra.
Qed.

Lemma square_le_abs x y : 0 <= y -> x * x <= y * y -> Rabs x <= y.
Proof.
  intros Hy H. apply Rsqr_le_abs_0 in H. rewrite (Rabs_right y) in H by lra. exact H.
Qed.

Lemma combine_sum_fst (g : R -> R) (a b : list R) :
  length a = length b ->
  JS.sum (map (fun p : R * R => g (fst p)) (combine a b)) = JS.sum (map g a).
Proof.
  revert b. induction a as [| x a IH]; intros [| y b] H; try discriminate; [reflexivity |].
  cbn [combine map fst]. rewrite !sum_cons, IH by (cbn in H; lia). reflexivity.
Qed.

Lemma combine_sum_snd (g : R -> R) (a b : list R) :
  length a = length b ->
  JS.sum (map (fun p : R * R => g (snd p)) (combine a b)) = JS.sum (map g b).
Proof.
  revert b. induction a as [| x a IH]; intros [| y b] H; try discriminate; [reflexivity |].
  cbn [combine map snd]. rewrite !sum_cons, IH by (cbn in H; lia). reflexivity.
Qed.

End Sums.

Section Pearson.

Import AnomalyDetector.
Local Open Scope R_scope.

Lemma deviations values :
  fold_left (fun s v => s + (v - mean_of values) ^ 2) values 0
  = JS.sum (map (fun v => (v - mean_of values) * (v - mean_of values)) values).
Proof.
  rewrite fold_sum_map, Rplus_0_l. apply sum_map_ext. intros x _. ring.
Qed.

Lemma variance_of_nonneg values : 0 <= variance_of values.
Proof.
  unfold variance_of. rewrite deviations.
  pose proof (sum_squares_nonneg (fun v => v - mean_of values) values) as H.
  destruct values as [| v values].
  - cbn. unfold JS.sum. cbn. lra.
  - apply Rmult_le_pos; [exact H |].
    apply Rlt_le, Rinv_0_lt_compat, lt_0_INR. cbn. lia.
Qed.

Lemma variance_of_sum values :
  values <> [] ->
  JS.sum (map (fun v => (v - mean_of values) * (v - mean_of values)) values)
  = INR (length values) * variance_of values.
Proof.
  intros Hne. unfold variance_of. rewrite deviations.
  pose proof (INR_length_nonzero values Hne). field. assumption.
Qed.

Lemma std_square values :
  JS.Math_sqrt (variance_of values) * JS.Math_sqrt (variance_of values) = variance_of values.
Proof. apply sqrt_sqrt, variance_of_nonneg. Qed.

Lemma paired_lengths seriesA seriesB :
  length (fst (paired seriesA seriesB)) = Nat.min (length seriesA) (length seriesB)
  /\ length (snd (paired seriesA seriesB)) = Nat.min (length seriesA) (length seriesB).
Proof.
  unfold paired. cbn [fst snd]. rewrite !length_map, !slice_length by lia. lia.
Qed.

Lemma pearson_sum (l : list (R * R)) ma mb : forall acc,
  fold_left (fun s '(ai, bi) => s + (ai - ma) * (bi - mb)) l acc
  = acc + JS.sum (map (fun p : R * R => (fst p - ma) * (snd p - mb)) l).
Proof.
  induction l as [| [x y] l IH]; intros acc; cbn [map fold_left fst snd].
  - unfold JS.sum. cbn. lra.
  - rewrite IH, sum_cons. lra.
Qed.

(** The coefficient lies between -1 and 1. *)
Lemma pearson_bounded (a b : list R) r :
  length a = length b -> a <> [] ->
  JS.Math_sqrt (variance_of a) <> 0 -> JS.Math_sqrt (variance_of b) <> 0 ->
  pearson (length a) a b
    {| mean := mean_of a; std := JS.Math_sqrt (variance_of a) |}
    {| mean := mean_of b; std := JS.Math_sqrt (variance_of b) |} = Some r ->
  -1 <= r <= 1.
Proof.
  intros Hlen Hne Ha Hb. unfold pearson. cbn [mean std].
  assert (Hbne : b <> []) by (destruct a, b; try discriminate; congruence).
  pose proof (INR_length_nonzero a Hne) as Hn.
  assert (Hnpos : 0 < INR (length a)).
  { apply lt_0_INR. destruct a; [contradiction | cbn; lia]. }
  set (sa := JS.Math_sqrt (variance_of a)) in *.
  set (sb := JS.Math_sqrt (variance_of b)) in *.
  assert (Hsa : 0 < sa) by (pose proof (sqrt_pos (variance_of a)); unfold sa, JS.Math_sqrt in *; lra).
  assert (Hsb : 0 < sb) by (pose proof (sqrt_pos (variance_of b)); unfold sb, JS.Math_sqrt in *; lra).
  assert (HD : 0 < INR (length a) * sa * sb) by (repeat apply Rmult_lt_0_compat; assumption).
  rewrite div_some by lra. intros E. injection E as <-.
  rewrite pearson_sum, Rplus_0_l.
  set (P := JS.sum _).
  assert (HP : P * P <= (INR (length a) * sa * sb) * (INR (length a) * sa * sb)).
  { subst P.
    etransitivity;
      [apply (cauchy_schwarz (fun p : R * R => fst p - mean_of a)
                (fun p : R * R => snd p - mean_of b)) |].
    rewrite (combine_sum_fst (fun x => (x - mean_of a) * (x - mean_of a)) a b Hlen).
    rewrite (combine_sum_snd (fun y => (y - mean_of b) * (y - mean_of b)) a b Hlen).
    rewrite (variance_of_sum a Hne), (variance_of_sum b Hbne), <- Hlen.
    rewrite <- (std_square a), <- (std_square b). fold sa sb. lra. }
  apply square_le_abs in HP; [| lra].
  assert (Hr : Rabs (P / (INR (length a) * sa * sb)) <= 1).
  { unfold Rdiv. rewrite Rabs_mult, (Rabs_right (/ _)).
    - apply Rmult_le_reg_r with (INR (length a) * sa * sb); [exact HD |].
      rewrite Rmult_assoc, Rinv_l by lra. lra.
    - apply Rle_ge, Rlt_le, Rinv_0_lt_compat, HD. }
  unfold Rabs in Hr. destruct (Rcase_abs _); lra.
Qed.

(** X23. Whatever the two series are, [correlate] returns, and the coefficient
    it reports lies between -1 and 1. *)
Theorem correlate_coefficient_range seriesA seriesB :
  exists c, correlate seriesA seriesB = Some c /\ -1 <= correlation c <= 1.
Proof.
  destruct (le_lt_dec 3 (Nat.min (length seriesA) (length seriesB))) as [Hn | Hn].
  2: { rewrite correlate_short by exact Hn. eexists. split; [reflexivity |]. cbn. lra. }
  destruct (paired_lengths seriesA seriesB) as [La Lb].
  set (a := fst (paired seriesA seriesB)) in *.
  set (b := snd (paired seriesA seriesB)) in *.
  assert (Hane : a <> []) by (intros E; rewrite E in La; cbn in La; lia).
  assert (Hbne : b <> []) by (intros E; rewrite E in Lb; cbn in Lb; lia).
  pose proof (_stats_nonempty a Hane) as Sa.
  pose proof (_stats_nonempty b Hbne) as Sb.
  destruct (Req_dec_T (JS.Math_sqrt (variance_of a)) 0) as [Za | Za].
  { erewrite correlate_flat; [| exact Hn | exact Sa | exact Sb | left; exact Za].
    eexists. split; [reflexivity |]. cbn. lra. }
  destruct (Req_dec_T (JS.Math_sqrt (variance_of b)) 0) as [Zb | Zb].
  { erewrite correlate_flat; [| exact Hn | exact Sa | exact Sb | right; exact Zb].
    eexists. split; [reflexivity |]. cbn. lra. }
  destruct (correlate_defined seriesA seriesB _ _ Hn Sa Sb Za Zb) as [r [Hr ->]].
  eexists. split; [reflexivity |]. cbn [correlation].
  fold a b in Hr. rewrite <- La in Hr.
  apply pearson_bounded in Hr; [| congruence | assumption ..].
  pose proof (Math_round_between (-1000) 1000 (r * 1000) ltac:(lra)). lra.
Qed.

Lemma pearson_sum_swap (a b : list R) ma mb :
  JS.sum (map (fun p : R * R => (fst p - ma) * (snd p - mb)) (combine a b))
  = JS.sum (map (fun p : R * R => (fst p - mb) * (snd p - ma)) (combine b a)).
Proof.
  revert b. induction a as [| x a IH]; intros [| y b]; try reflexivity.
  cbn [combine map fst snd]. rewrite !sum_cons, IH. lra.
Qed.

Lemma pearson_swap n a b sa sb : pearson n a b sa sb = pearson n b a sb sa.
Proof.
  unfold pearson. rewrite !pearson_sum, pearson_sum_swap.
  replace (INR n * std sb * std sa) with (INR n * std sa * std sb) by ring.
  reflexivity.
Qed.

(** X24. [correlate] does not depend on the order of its two arguments. *)
Theorem correlate_symmetric seriesA seriesB :
  correlate seriesA seriesB = correlate seriesB seriesA.
Proof.
  unfold correlate. rewrite (Nat.min_comm (length seriesB)).
  destruct (_ <? 3)%nat; [reflexivity |].
  destruct (_stats _) as [sa |], (_stats _) as [sb |]; try reflexivity.
  rewrite (orb_comm (JS.eqb (std sb) 0)).
  destruct (_ || _); [reflexivity |].
  rewrite (pearson_swap _ _ _ sb sa). reflexivity.
Qed.

Lemma slice_all {A} (l : list A) : JS.slice l 0 (Some (Z.of_nat (length l))) = l.
Proof.
  unfold JS.slice, JS.rel_index. cbn [Z.ltb Z.compare].
  destruct (Z.ltb_spec (Z.of_nat (length l)) 0); [lia |].
  replace (Z.to_nat (Z.min 0 _)) with 0%nat by lia. cbn [skipn].
  apply firstn_all2. lia.
Qed.

Lemma combine_diag (g : R * R -> R) (a : list R) :
  JS.sum (map g (combine a a)) = JS.sum (map (fun x => g (x, x)) a).
Proof.
  induction a as [| x a IH]; [reflexivity |].
  cbn [combine map]. rewrite !sum_cons, IH. reflexivity.
Qed.

Lemma variance_of_positive values x y :
  In x values -> In y values -> x <> y -> JS.Math_sqrt (variance_of values) <> 0.
Proof.
  intros Hx Hy Hxy Hz.
  assert (Hne : values <> []) by (intros ->; contradiction).
  apply sqrt_eq_0 in Hz; [| apply variance_of_nonneg].
  pose proof (variance_of_sum values Hne) as Hs. rewrite Hz, Rmult_0_r in Hs.
  apply (sum_squares_zero (fun v => v - mean_of values)) in Hs.
  rewrite Forall_forall in Hs.
  pose proof (Hs x (proj2 (list_elem_of_In _ _) Hx)) as H1.
  pose proof (Hs y (proj2 (list_elem_of_In _ _) Hy)) as H2.
  cbn in H1, H2. lra.
Qed.

(** X25. A series of at least three points that are not all equal correlates
    with itself at exactly 1, which is reported as strong. *)
Theorem correlate_self series p q :
  (3 <= length series)%nat ->
  In p series -> In q series -> Point.value p <> Point.value q ->
  correlate series series = Some {| correlation := 1; significance := "strong" |}.
Proof.
  intros Hn Hp Hq Hpq.
  assert (Hpaired : paired series series
                    = (map Point.value series, map Point.value series)).
  { unfold paired. rewrite Nat.min_id, slice_all. reflexivity. }
  set (a := map Point.value series).
  assert (Hane : a <> []).
  { intros E. apply (f_equal (@length R)) in E. unfold a in E.
    rewrite length_map in E. cbn in E. lia. }
  assert (Hs : JS.Math_sqrt (variance_of a) <> 0).
  { apply (variance_of_positive a (Point.value p) (Point.value q));
      [apply in_map, Hp | apply in_map, Hq | exact Hpq]. }
  destruct (correlate_defined series series
              {| mean := mean_of a; std := JS.Math_sqrt (variance_of a) |}
              {| mean := mean_of a; std := JS.Math_sqrt (variance_of a) |})
    as [r [Hr ->]];
    try (rewrite Hpaired; cbn [fst snd]; apply _stats_nonempty, Hane);
    try (rewrite Nat.min_id; exact Hn); try exact Hs.
  rewrite Hpaired, Nat.min_id in Hr. cbn [fst snd] in Hr. fold a in Hr.
  assert (Hone : r = 1).
  { unfold pearson in Hr. cbn [mean std] in Hr.
    assert (Hlen : INR (length series) <> 0).
    { apply not_0_INR. lia. }
    rewrite div_some in Hr
      by (repeat apply Rmult_integral_contrapositive_currified; assumption).
    injection Hr as <-.
    rewrite pearson_sum, Rplus_0_l, combine_diag. cbn [fst snd].
    rewrite (variance_of_sum a Hane).
    replace (length a) with (length series) by (unfold a; rewrite length_map; reflexivity).
    rewrite Rmult_assoc, (std_square a).
    pose proof (variance_of_nonneg a) as Hv.
    assert (variance_of a <> 0).
    { intros E. apply Hs. unfold JS.Math_sqrt. rewrite E. apply sqrt_0. }
    field. split; assumption. }
  subst r. f_equal. f_equal.
  - replace (1 * 1000) with (IZR 1000) by lra. rewrite Math_round_IZR. lra.
  - unfold bucket_of, JS.Math_abs. rewrite Rabs_R1. unfold JS.ltb.
    destruct (Rlt_dec 0.7 1); [reflexivity | lra].
Qed.

Lemma correlate_self_witness :
  (3 <= length Samples.seriesA)%nat
  /\ correlate Samples.seriesA Samples.seriesA
     = Some {| correlation := 1; significance := "strong" |}.
Proof.
  split; [cbn; lia |].
  apply (correlate_self Samples.seriesA (Samples.point 0 0) (Samples.point 259200000 1)).
  - cbn. lia.
  - left. reflexivity.
  - right. right. right. left. reflexivity.
  - cbn. lra.
Defined.

End Pearson.

Section Detection.

Import AnomalyDetector.
Local Open Scope R_scope.

Lemma deviation_sum values :
  values <> [] -> JS.sum (map (fun v => v - mean_of values) values) = 0.
Proof.
  intros Hne. pose proof (INR_length_nonzero values Hne) as Hn.
  rewrite (sum_map_ext _ (fun v => v + -1 * mean_of values)) by (intros; ring).
  rewrite (sum_map_plus (fun v => v) (fun _ => -1 * mean_of values)).
  rewrite map_id, sum_map_const. unfold mean_of. field. exact Hn.
Qed.

(** No value lies further from the mean than the square root of [n - 1]
    standard deviations. *)
Lemma last_deviation pre x :
  let values := pre ++ [x] in
  (x - mean_of values) * (x - mean_of values) <= INR (length pre) * variance_of values.
Proof.
  intros values.
  assert (Hne : values <> []) by (unfold values; destruct pre; discriminate).
  set (m := mean_of values).
  pose proof (deviation_sum values Hne) as Hsum.
  pose proof (variance_of_sum values Hne) as Hvar.
  fold m in Hsum, Hvar.
  assert (Hmap : forall g : R -> R, JS.sum (map g values) = JS.sum (map g pre) + g x).
  { intros g. unfold values. rewrite map_app, sum_app. cbn [map].
    rewrite sum_cons. change (JS.sum []) with 0. lra. }
  assert (Hlen : length values = S (length pre))
    by (unfold values; rewrite length_app; cbn; lia).
  rewrite Hmap in Hsum, Hvar. rewrite Hlen, S_INR in Hvar.
  pose proof (cauchy_schwarz (fun v => v - m) (fun _ => 1) pre) as Hcs.
  rewrite (sum_map_ext (fun v => (v - m) * 1) (fun v => v - m)) in Hcs by (intros; ring).
  rewrite (sum_map_const (1 * 1)) in Hcs.
  set (S1 := JS.sum (map (fun v => v - m) pre)) in *.
  set (S2 := JS.sum (map (fun v => (v - m) * (v - m)) pre)) in *.
  set (dx := x - m) in *.
  set (k := INR (length pre)) in *.
  set (V := variance_of values) in *.
  assert (Hk : 0 <= k) by apply pos_INR.
  assert (HS1 : S1 = - dx) by lra.
  rewrite HS1 in Hcs.
  assert (HS2 : S2 = (k + 1) * V - dx * dx) by lra.
  rewrite HS2 in Hcs.
  assert (H : (k + 1) * (dx * dx) <= (k + 1) * (k * V)) by lra.
  apply Rmult_le_reg_l in H; [exact H | lra].
Qed.

Lemma slice_snoc {A} (l : list A) (start : Z) (i : nat) (s : A) :
  (0 <= start <= Z.of_nat i)%Z -> l !! i = Some s ->
  JS.slice l start (Some (Z.of_nat i + 1)%Z) = JS.slice l start (Some (Z.of_nat i)) ++ [s]
  /\ length (JS.slice l start (Some (Z.of_nat i))) = Z.to_nat (Z.of_nat i - start).
Proof.
  intros Hs Hi. pose proof (lookup_lt_Some _ _ _ Hi) as Hlt.
  unfold JS.slice, JS.rel_index.
  destruct (Z.ltb_spec start 0); [lia |].
  destruct (Z.ltb_spec (Z.of_nat i + 1) 0); [lia |].
  destruct (Z.ltb_spec (Z.of_nat i) 0); [lia |].
  replace (Z.to_nat (Z.min start _)) with (Z.to_nat start) by lia.
  replace (Z.to_nat (Z.max (Z.min (Z.of_nat i + 1) _ - Z.min start _) 0))
    with (S (i - Z.to_nat start)) by lia.
  replace (Z.to_nat (Z.max (Z.min (Z.of_nat i) _ - Z.min start _) 0))
    with (i - Z.to_nat start)%nat by lia.
  split.
  - apply take_S_r. rewrite lookup_drop.
    replace (Z.to_nat start + (i - Z.to_nat start))%nat with i by lia. exact Hi.
  - rewrite length_take, length_drop. lia.
Qed.

Lemma slice_reversed {A} (l : list A) (start stop : Z) :
  (0 <= stop <= start)%Z -> JS.slice l start (Some stop) = [].
Proof.
  intros H. unfold JS.slice, JS.rel_index.
  destruct (Z.ltb_spec start 0); [lia |]. destruct (Z.ltb_spec stop 0); [lia |].
  replace (Z.to_nat _) with 0%nat by lia. reflexivity.
Qed.

Lemma abs_square_lt t z : 0 <= t -> t < Rabs z -> t * t < z * z.
Proof.
  intros Ht H. replace (z * z) with (Rabs z * Rabs z).
  - apply Rmult_le_0_lt_compat; assumption.
  - unfold Rabs. destruct (Rcase_abs z); ring.
Qed.

(** What the loop body does at index [i] of [series]. *)
Lemma detect_at_flag d series i s r :
  0 <= zThreshold d ->
  series !! i = Some s ->
  detect_at d series i s = Some r ->
  AnomalySample.timestamp r = Point.timestamp s
  /\ AnomalySample.value r = Point.value s
  /\ (AnomalySample.isAnomaly r = true ->
      zThreshold d * zThreshold d < IZR (Z.min (Z.of_nat i) (windowSize d))).
Proof.
  intros Ht Hi. unfold detect_at.
  set (start := Z.max 0 (Z.of_nat i - windowSize d)).
  set (window := map Point.value (JS.slice series start (Some (Z.of_nat i + 1)%Z))).
  destruct (Z_lt_le_dec (windowSize d) 0) as [Hw | Hw].
  - assert (E : window = []).
    { unfold window. rewrite slice_reversed by lia. reflexivity. }
    rewrite E. cbn [_stats length Nat.eqb std mean].
    unfold JS.eqb at 1. destruct (Req_dec_T 0 0) as [_ | N]; [| contradiction].
    intros H. injection H as <-. cbn.
    repeat split. unfold JS.ltb, JS.Math_abs. rewrite Rabs_R0.
    destruct (Rlt_dec _ _); [lra | discriminate].
  - destruct (slice_snoc series start i s ltac:(lia) Hi) as [Hsnoc Hlen].
    set (pre := map Point.value (JS.slice series start (Some (Z.of_nat i)))).
    assert (Ewin : window = pre ++ [Point.value s]).
    { unfold window, pre. rewrite Hsnoc, map_app. reflexivity. }
    assert (Hne : window <> []) by (rewrite Ewin; destruct pre; discriminate).
    rewrite (_stats_nonempty window Hne). cbn [std mean].
    destruct (JS.eqb (JS.Math_sqrt (variance_of window)) 0) eqn:E.
    + intros H. injection H as <-. cbn.
      repeat split. unfold JS.ltb, JS.Math_abs. rewrite Rabs_R0.
      destruct (Rlt_dec _ _); [lra | discriminate].
    + apply eqb_false in E. rewrite div_some by exact E.
      intros H. injection H as <-. cbn.
      repeat split. intros Hflag. apply ltb_true in Hflag.
      apply abs_square_lt in Hflag; [| exact Ht].
      pose proof (last_deviation pre (Point.value s)) as Hdev. cbv zeta in Hdev.
      rewrite <- Ewin in Hdev.
      pose proof (variance_of_nonneg window) as Hv.
      pose proof (std_square window) as Hsq.
      set (sd := JS.Math_sqrt (variance_of window)) in *.
      set (dx := Point.value s - mean_of window) in *.
      assert (Hsd : 0 < sd * sd).
      { pose proof (Rle_0_sqr sd) as H. unfold Rsqr in H.
        destruct (Req_dec (sd * sd) 0) as [Z0 | Z0]; [| lra].
        apply Rmult_integral in Z0. tauto. }
      assert (Hz : dx / sd * (dx / sd) <= INR (length pre)).
      { replace (dx / sd * (dx / sd)) with (dx * dx / (sd * sd)) by (field; exact E).
        apply Rmult_le_reg_r with (sd * sd); [exact Hsd |].
        unfold Rdiv. rewrite Rmult_assoc, Rinv_l by lra. rewrite Hsq. lra. }
      unfold pre in Hz. rewrite length_map, Hlen in Hz.
      rewrite INR_IZR_INZ in Hz.
      replace (Z.of_nat (Z.to_nat (Z.of_nat i - start)))
        with (Z.min (Z.of_nat i) (windowSize d)) in Hz by lia.
      lra.
Qed.

Lemma imap_pair_snd {A} (l : list A) : forall k,
  map snd (imap (fun i x => (k + i, x)%nat) l) = l.
Proof.
  induction l as [| x l IH]; intros k; cbn [imap map snd]; [reflexivity |].
  f_equal. rewrite (imap_ext _ (fun i x => (S k + i, x)%nat)); [apply IH |].
  intros i y _. cbn. f_equal. lia.
Qed.

Lemma detectInSeries_lookup d series results i r :
  detectInSeries d series = Some results ->
  results !! i = Some r ->
  exists s, series !! i = Some s /\ detect_at d series i s = Some r.
Proof.
  unfold detectInSeries. rewrite mapM_Some. intros Hall Hr.
  destruct (Forall2_lookup_r _ _ _ _ _ Hall Hr) as ([j s] & Hl & Hd).
  rewrite list_lookup_imap in Hl.
  destruct (series !! i) as [s' |] eqn:E; [| discriminate].
  cbn in Hl. injection Hl as <- <-. eauto.
Qed.

Lemma detectInSeries_length d series results :
  detectInSeries d series = Some results -> length results = length series.
Proof.
  unfold detectInSeries. intros H. apply length_mapM in H.
  rewrite length_imap in H. congruence.
Qed.

(** X26. The detector returns one sample per point, with the time and the value
    of that point.  With a threshold that is not negative, a sample is only
    flagged when the square of the threshold is at most the number of
    earlier points in its window, which is the smaller of its index and the
    window size: among [n] values none lies further from their mean than
    the square root of [n - 1] standard deviations. *)
Theorem detectInSeries_flags d series :
  0 <= zThreshold d ->
  exists results,
    detectInSeries d series = Some results
    /\ map AnomalySample.timestamp results = map Point.timestamp series
    /\ map AnomalySample.value results = map Point.value series
    /\ forall i r,
         results !! i = Some r -> AnomalySample.isAnomaly r = true ->
         zThreshold d * zThreshold d <= IZR (Z.min (Z.of_nat i) (windowSize d)).
Proof.
  intros Ht. destruct (detectInSeries_defined d series) as [results Hres].
  exists results. split; [exact Hres |].
  pose proof (detectInSeries_length d series results Hres) as Hlen.
  assert (Hat : forall i r, results !! i = Some r ->
              exists s, series !! i = Some s
                        /\ AnomalySample.timestamp r = Point.timestamp s
                        /\ AnomalySample.value r = Point.value s
                        /\ (AnomalySample.isAnomaly r = true ->
                            zThreshold d * zThreshold d
                            <= IZR (Z.min (Z.of_nat i) (windowSize d)))).
  { intros i r Hr.
    destruct (detectInSeries_lookup d series results i r Hres Hr) as (s & Hs & Hd).
    exists s. split; [exact Hs |].
    destruct (detect_at_flag d series i s r Ht Hs Hd) as (H1 & H2 & H3).
    split; [exact H1 |]. split; [exact H2 |]. intros Hflag. apply Rlt_le, H3, Hflag. }
  repeat split.
  - apply list_eq. intros i. rewrite !list_lookup_fmap.
    destruct (results !! i) as [r |] eqn:Er.
    + destruct (Hat i r Er) as (s & -> & H1 & _). cbn. congruence.
    + apply lookup_ge_None in Er. rewrite Hlen in Er.
      apply lookup_ge_None in Er. rewrite Er. reflexivity.
  - apply list_eq. intros i. rewrite !list_lookup_fmap.
    destruct (results !! i) as [r |] eqn:Er.
    + destruct (Hat i r Er) as (s & -> & _ & H2 & _). cbn. congruence.
    + apply lookup_ge_None in Er. rewrite Hlen in Er.
      apply lookup_ge_None in Er. rewrite Er. reflexivity.
  - intros i r Hr. destruct (Hat i r Hr) as (s & _ & _ & _ & H). exact H.
Qed.

Lemma detectInSeries_flags_witness :
  0 <= zThreshold Api.detector
  /\ exists results,
    detectInSeries Api.detector Samples.rising = Some results
    /\ map AnomalySample.timestamp results = map Point.timestamp Samples.rising
    /\ map AnomalySample.value results = map Point.value Samples.rising
    /\ forall i r,
         results !! i = Some r -> AnomalySample.isAnomaly r = true ->
         zThreshold Api.detector * zThreshold Api.detector
         <= IZR (Z.min (Z.of_nat i) (windowSize Api.detector)).
Proof.
  assert (H : 0 <= zThreshold Api.detector).
  { cbn. unfold JS.or_num, JS.eqb. destruct (Req_dec_T _ _); lra. }
  split; [exact H |]. apply (detectInSeries_flags Api.detector Samples.rising H).
Defined.

Lemma quiet_prefix series results i r :
  detectInSeries Api.detector series = Some results ->
  results !! i = Some r -> (i < 4)%nat -> AnomalySample.isAnomaly r = false.
Proof.
  intros Hres Hr Hi.
  destruct (detectInSeries_lookup _ _ _ i r Hres Hr) as (s & Hs & Hd).
  assert (Ht : zThreshold Api.detector = 2).
  { cbn. unfold JS.or_num, JS.eqb. destruct (Req_dec_T _ _); lra. }
  destruct (detect_at_flag Api.detector series i s r ltac:(lra) Hs Hd) as (_ & _ & H).
  destruct (AnomalySample.isAnomaly r); [| reflexivity].
  specialize (H eq_refl). rewrite Ht in H.
  assert (Hm : IZR (Z.min (Z.of_nat i) (windowSize Api.detector)) <= 3).
  { apply IZR_le. lia. }
  lra.
Qed.

(** X27. The detector of the API, with threshold 2 and window 20, never flags
    one of the first four points of a series: among at most four values
    none is more than the square root of 3 standard deviations away from
    their mean. *)
Theorem detector_warm_up series :
  exists results,
    detectInSeries Api.detector series = Some results
    /\ forall i r, results !! i = Some r -> (i < 4)%nat ->
                   AnomalySample.isAnomaly r = false.
Proof.
  destruct (detectInSeries_defined Api.detector series) as [results Hres].
  exists results. split; [exact Hres |]. intros i r. apply quiet_prefix with series, Hres.
Qed.

Lemma variance_of_constant values v :
  Forall (fun x => x = v) values -> JS.Math_sqrt (variance_of values) = 0.
Proof.
  intros Hall. destruct values as [| x values].
  { unfold variance_of, JS.Math_sqrt. cbn [fold_left]. unfold Rdiv.
    rewrite Rmult_0_l. apply sqrt_0. }
  set (l := x :: values) in *.
  assert (Hne : l <> []) by discriminate.
  pose proof (INR_length_nonzero l Hne) as Hn.
  assert (Hm : mean_of l = v).
  { unfold mean_of. rewrite <- (map_id l) at 1.
    rewrite (sum_map_ext (fun x => x) (fun _ => v)).
    - rewrite sum_map_const. field. exact Hn.
    - intros y Hy. rewrite Forall_forall in Hall. apply Hall, list_elem_of_In, Hy. }
  assert (Hv : variance_of l = 0).
  { unfold variance_of. rewrite deviations, Hm.
    rewrite (sum_map_ext _ (fun _ => 0)).
    - rewrite sum_map_const. field. exact Hn.
    - intros y Hy. rewrite Forall_forall in Hall.
      rewrite (Hall y (proj2 (list_elem_of_In _ _) Hy)). ring. }
  unfold JS.Math_sqrt. rewrite Hv. apply sqrt_0.
Qed.

(** X28. On a series whose points all hold the same count the detector reports
    a z-score of zero everywhere and, unless its threshold is negative,
    flags nothing. *)
Theorem detectInSeries_constant d series (count : Z) :
  0 <= zThreshold d ->
  Forall (fun p => Point.value p = IZR count) series ->
  exists results,
    detectInSeries d series = Some results
    /\ Forall (fun r => AnomalySample.zScore r = 0
                        /\ AnomalySample.std r = 0
                        /\ AnomalySample.isAnomaly r = false) results.
Proof.
  intros Ht Hall. destruct (detectInSeries_defined d series) as [results Hres].
  exists results. split; [exact Hres |].
  apply Forall_lookup. intros i r Hr.
  destruct (detectInSeries_lookup d series results i r Hres Hr) as (s & Hs & Hd).
  unfold detect_at in Hd.
  set (window := map Point.value _) in Hd.
  assert (Hwin : Forall (fun x => x = IZR count) window).
  { unfold window. rewrite List.Forall_map. apply slice_Forall, Hall. }
  destruct (_stats_total window) as [st Hst].
  assert (Hstd : std st = 0).
  { destruct window as [| x w] eqn:E.
    - cbn in Hst. injection Hst as <-. reflexivity.
    - rewrite _stats_nonempty in Hst by discriminate. injection Hst as <-.
      cbn [std]. apply variance_of_constant with (IZR count). exact Hwin. }
  rewrite Hst in Hd. apply eqb_true in Hstd. rewrite Hstd in Hd.
  injection Hd as <-. cbn. apply eqb_true in Hstd. rewrite Hstd.
  replace (0 * 100) with (IZR 0) by lra. rewrite Math_round_IZR.
  repeat split; try lra.
  unfold JS.ltb, JS.Math_abs. rewrite Rabs_R0. destruct (Rlt_dec _ _); [lra | reflexivity].
Qed.

Lemma detectInSeries_constant_witness :
  0 <= zThreshold Api.detector
  /\ Forall (fun p => Point.value p = IZR 10) (Samples.flat 10)
  /\ exists results,
    detectInSeries Api.detector (Samples.flat 10) = Some results
    /\ Forall (fun r => AnomalySample.zScore r = 0
                        /\ AnomalySample.std r = 0
                        /\ AnomalySample.isAnomaly r = false) results.
Proof.
  assert (H : 0 <= zThreshold Api.detector).
  { cbn. unfold JS.or_num, JS.eqb. destruct (Req_dec_T _ _); lra. }
  assert (Hflat : Forall (fun p => Point.value p = IZR 10) (Samples.flat 10)).
  { unfold Samples.flat. repeat (apply List.Forall_cons; [reflexivity |]).
    apply List.Forall_nil. }
  split; [exact H |]. split; [exact Hflat |].
  apply (detectInSeries_constant Api.detector (Samples.flat 10) 10 H Hflat).
Defined.

Lemma mapM_div (m sd : R) values :
  sd <> 0 ->
  mapM (fun v => div (v - m) sd) values = Some (map (fun v => (v - m) / sd) values).
Proof.
  intros Hsd. induction values as [| v values IH]; [reflexivity |].
  cbn [mapM map]. rewrite div_some by exact Hsd. cbn. rewrite IH. reflexivity.
Qed.

(** X29. [_zScores] returns one score per value.  The scores sum to zero; they
    are all zero when the values do not vary, and otherwise their squares
    sum to the number of values. *)
Theorem zScores_standardized values :
  exists zs,
    _zScores values = Some zs
    /\ length zs = length values
    /\ JS.sum zs = 0
    /\ (JS.Math_sqrt (variance_of values) = 0 -> Forall (fun z => z = 0) zs)
    /\ (values <> [] -> JS.Math_sqrt (variance_of values) <> 0 ->
        JS.sum (map (fun z => z * z) zs) = INR (length values)).
Proof.
  unfold _zScores. destruct values as [| x values].
  { cbn. unfold JS.eqb. destruct (Req_dec_T 0 0); [| contradiction].
    eexists. split; [reflexivity |].
    split; [reflexivity |]. split; [reflexivity |].
    split; [intros _; constructor | intros H; contradiction]. }
  set (l := x :: values).
  assert (Hne : l <> []) by discriminate.
  rewrite (_stats_nonempty l Hne). cbn [std mean].
  destruct (JS.eqb _ 0) eqn:E.
  - apply eqb_true in E. eexists. split; [reflexivity |].
    split; [apply length_map |]. split; [| split].
    + rewrite sum_map_const. lra.
    + intros _. rewrite List.Forall_map. apply Forall_forall. reflexivity.
    + intros _ H. contradiction.
  - apply eqb_false in E. rewrite mapM_div by exact E.
    eexists. split; [reflexivity |].
    split; [apply length_map |]. split; [| split].
    + rewrite (sum_map_ext _ (fun v => / JS.Math_sqrt (variance_of l) * (v - mean_of l)))
        by (intros; unfold Rdiv; ring).
      rewrite sum_map_scale, deviation_sum by exact Hne. ring.
    + intros H. contradiction.
    + intros _ _. rewrite map_map.
      rewrite (sum_map_ext _
                 (fun v => / variance_of l * ((v - mean_of l) * (v - mean_of l)))).
      * rewrite sum_map_scale, (variance_of_sum l Hne).
        assert (variance_of l <> 0).
        { intros Z0. apply E. unfold JS.Math_sqrt. rewrite Z0. apply sqrt_0. }
        field. assumption.
      * intros v _. pose proof (std_square l) as Hsq.
        set (sd := JS.Math_sqrt (variance_of l)) in *. rewrite <- Hsq. field. exact E.
Qed.

End Detection.

(** ** The first buckets of a recompute *)

Section QuietStart.

Import RiskClassifier Spec Api.








End QuietStart.
